(** * Teams-Calling-Scripting: HTML to PDF batch conversion

    A shallow embedding of [Modules/pdf_generator.py] and [generate_pdfs.py].

    The scripts are drivers: they inspect the file system through [pathlib]
    and [os.path], talk to a headless browser through Playwright, print one
    line per outcome and pick a process exit code.  The embedding keeps that
    shape:

    - [PurePath] models the lexical part of [pathlib.PurePosixPath]
      (parsing, [name], [suffix], [stem], [with_suffix], [parent], [/]);
    - [FS] models the part of the file system the scripts look at
      (a tree of directories, [exists], [is_file], [is_dir], [mkdir -p],
      directory listing);
    - the browser engine is an oracle that answers every call from the
      history of the run, so that a theorem quantified over the oracle
      covers every behaviour of the engine;
    - the scripts themselves are written in a state-and-exception monad
      whose state carries the file system and the trace of observable
      events (printed lines, directory creations, engine calls).

    What the model leaves out: paths are POSIX paths and there are no
    symbolic links; [print] always succeeds; the engine raises ordinary
    exceptions only (an interrupt of the process in the middle of a call is
    not modelled, although the handlers for it are); the command line has
    already been parsed by [argparse]. *)

From Stdlib Require Import List String Ascii Bool Arith ZArith Lia.
Import ListNotations.

Local Open Scope string_scope.
Local Open Scope list_scope.

(* ================================================================== *)
(** ** Strings *)

Module Str.

(** [s.rfind(c)]: index of the last occurrence of [c], [None] for -1. *)
Fixpoint rfind (c : ascii) (s : string) : option nat :=
  match s with
  | EmptyString => None
  | String a r =>
      match rfind c r with
      | Some i => Some (S i)
      | None => if Ascii.eqb a c then Some 0 else None
      end
  end.

(** [c in s]. *)
Fixpoint mem (c : ascii) (s : string) : bool :=
  match s with
  | EmptyString => false
  | String a r => Ascii.eqb a c || mem c r
  end.

(** [s.split(sep)] for a one-character separator: never returns [[]]. *)
Fixpoint split (sep : ascii) (s : string) : list string :=
  match s with
  | EmptyString => [""]
  | String a r =>
      if Ascii.eqb a sep then "" :: split sep r
      else match split sep r with
           | [] => [String a ""]
           | w :: ws => String a w :: ws
           end
  end.

(** [sep.join(ws)]. *)
Fixpoint join (sep : string) (ws : list string) : string :=
  match ws with
  | [] => ""
  | [w] => w
  | w :: ws' => (w ++ sep ++ join sep ws')%string
  end.

(** [s.startswith(p)] and [s.endswith(p)]. *)
Fixpoint startswith (p s : string) : bool :=
  match p, s with
  | EmptyString, _ => true
  | String _ _, EmptyString => false
  | String a p', String b s' => Ascii.eqb b a && startswith p' s'
  end.

Definition endswith (p s : string) : bool :=
  Nat.leb (String.length p) (String.length s)
  && String.eqb (substring (String.length s - String.length p) (String.length p) s) p.

(** [c.lower()] on ASCII letters; other bytes are left alone.  The scripts
    only compare the lowered suffix with the ASCII literal ['.html']. *)
Definition lower_ascii (c : ascii) : ascii :=
  let n := nat_of_ascii c in
  if Nat.leb 65 n && Nat.leb n 90 then ascii_of_nat (n + 32) else c.

Fixpoint lower (s : string) : string :=
  match s with
  | EmptyString => EmptyString
  | String a r => String (lower_ascii a) (lower r)
  end.

(** Python truthiness of a string: the empty string is falsy. *)
Definition truthy (s : string) : bool := negb (String.eqb s "").

End Str.

(* ================================================================== *)
(** ** pathlib.PurePosixPath *)

Module PurePath.

(** A parsed path: the anchor (["" ], ["/"] or ["//"]) and the components
    after it.  [parts] never holds [""] or ["."] for a path made by
    [Path]. *)
Record t : Type := mk { anchor : string; parts : list string }.

(** POSIX root splitting: exactly two leading slashes are kept, three or
    more collapse to one. *)
Definition splitroot (s : string) : string :=
  if Str.startswith "///" s then "/"
  else if Str.startswith "//" s then "//"
  else if Str.startswith "/" s then "/"
  else "".

Definition keep_part (c : string) : bool :=
  negb (String.eqb c "") && negb (String.eqb c ".").

(** [Path(s)]. *)
Definition Path (s : string) : t :=
  mk (splitroot s) (filter keep_part (Str.split "/" s)).

(** [str(p)]: the empty relative path prints as ["."]. *)
Definition str (p : t) : string :=
  match anchor p, parts p with
  | "", [] => "."
  | a, ps => (a ++ Str.join "/" ps)%string
  end.

(** [p.name]: the last component, [""] when there is none. *)
Definition name (p : t) : string := last (parts p) "".

(** The index at which the suffix starts: [i = name.rfind('.')] when
    [0 < i < len(name) - 1]. *)
Definition suffix_at (n : string) : option nat :=
  match Str.rfind "." n with
  | Some i => if Nat.ltb 0 i && Nat.ltb i (String.length n - 1) then Some i else None
  | None => None
  end.

(** [p.suffix] and [p.stem], as functions of the name. *)
Definition suffix_of (n : string) : string :=
  match suffix_at n with
  | Some i => substring i (String.length n - i) n
  | None => ""
  end.

Definition stem_of (n : string) : string :=
  match suffix_at n with
  | Some i => substring 0 i n
  | None => n
  end.

Definition suffix (p : t) : string := suffix_of (name p).
Definition stem (p : t) : string := stem_of (name p).

(** [p.parent]: drop the last component; a path without components is its
    own parent. *)
Definition parent (p : t) : t := mk (anchor p) (removelast (parts p)).

(** [p / s]: an absolute right operand replaces the left one. *)
Definition joinpath (p : t) (s : string) : t :=
  let q := Path s in
  match anchor q with
  | "" => mk (anchor p) (parts p ++ parts q)
  | _ => q
  end.

(** [p.with_suffix(sfx)]: [None] stands for the [ValueError] raised on an
    invalid suffix or on a path with an empty name. *)
Definition with_suffix (p : t) (sfx : string) : option t :=
  if Str.mem "/" sfx then None
  else if (Str.truthy sfx && negb (Str.startswith "." sfx)) || String.eqb sfx "." then None
  else
    let n := name p in
    if negb (Str.truthy n) then None
    else
      let old := suffix p in
      let n' := (if negb (Str.truthy old) then n ++ sfx
                 else substring 0 (String.length n - String.length old) n ++ sfx)%string in
      Some (mk (anchor p) (removelast (parts p) ++ [n'])).

(** [p.is_absolute()]. *)
Definition is_absolute (p : t) : bool := Str.truthy (anchor p).

End PurePath.

(* ================================================================== *)
(** ** The file system the scripts observe *)

Module FS.

(** A directory keeps its entries in the order in which the operating
    system lists them ([os.scandir]); there are no symbolic links. *)
#[warnings="-register-all"] Inductive node : Type :=
| File
| Dir (entries : list (string * node)).

Fixpoint assoc (c : string) (es : list (string * node)) : option node :=
  match es with
  | [] => None
  | (k, v) :: t => if String.eqb k c then Some v else assoc c t
  end.

(** The node at a canonical location (names from the root down). *)
Fixpoint find (n : node) (loc : list string) : option node :=
  match loc with
  | [] => Some n
  | c :: r =>
      match n with
      | Dir es => match assoc c es with Some m => find m r | None => None end
      | File => None
      end
  end.

(** Replace the entry [c] by [f] of it, or append [f (Dir [])] when the
    directory has no such entry. *)
Fixpoint upsert (c : string) (f : node -> node) (es : list (string * node))
  : list (string * node) :=
  match es with
  | [] => [(c, f (Dir []))]
  | (k, v) :: t => if String.eqb k c then (k, f v) :: t else (k, v) :: upsert c f t
  end.

(** Put [new] at location [loc]; a file on the way is left alone. *)
Fixpoint put (loc : list string) (new : node) (n : node) : node :=
  match loc with
  | [] => new
  | c :: r =>
      match n with
      | Dir es => Dir (upsert c (put r new) es)
      | File => File
      end
  end.

(** Path resolution as the kernel does it: every component is looked up in
    a directory; [""] and ["."] stay, [".."] goes up (the root is its own
    parent).  The result is the canonical location of an existing node. *)
Fixpoint walk (root : node) (cur : list string) (cs : list string)
  : option (list string) :=
  match cs with
  | [] => match find root cur with Some _ => Some cur | None => None end
  | c :: cs' =>
      match find root cur with
      | Some (Dir _) =>
          if String.eqb c "" || String.eqb c "." then walk root cur cs'
          else if String.eqb c ".." then walk root (removelast cur) cs'
          else walk root (cur ++ [c]) cs'
      | _ => None
      end
  end.

(** [mkdir -p]: as [walk], creating the directories that are missing.
    [None] stands for the [OSError] raised when a component is a file. *)
Fixpoint makedirs (root : node) (cur : list string) (cs : list string)
  : option node :=
  match cs with
  | [] => match find root cur with Some (Dir _) => Some root | _ => None end
  | c :: cs' =>
      match find root cur with
      | Some (Dir _) =>
          if String.eqb c "" || String.eqb c "." then makedirs root cur cs'
          else if String.eqb c ".." then makedirs root (removelast cur) cs'
          else
            match find root (cur ++ [c]) with
            | Some (Dir _) => makedirs root (cur ++ [c]) cs'
            | Some File => None
            | None => makedirs (put (cur ++ [c]) (Dir []) root) (cur ++ [c]) cs'
            end
      | _ => None
      end
  end.

(** The file system: the tree and the working directory of the process. *)
Record t : Type := mk { root : node; cwd : list string }.

Definition start (fs : t) (p : PurePath.t) : list string :=
  if PurePath.is_absolute p then [] else cwd fs.

Definition lookup (fs : t) (p : PurePath.t) : option node :=
  match walk (root fs) (start fs p) (PurePath.parts p) with
  | Some loc => find (root fs) loc
  | None => None
  end.

(** [Path.exists()], [Path.is_file()], [Path.is_dir()]. *)
Definition exists_ (fs : t) (p : PurePath.t) : bool :=
  match lookup fs p with Some _ => true | None => false end.

Definition is_file (fs : t) (p : PurePath.t) : bool :=
  match lookup fs p with Some File => true | _ => false end.

Definition is_dir (fs : t) (p : PurePath.t) : bool :=
  match lookup fs p with Some (Dir _) => true | _ => false end.

(** [os.path.exists(s)] on the raw string: the empty string names nothing,
    and a trailing slash asks for a directory. *)
Definition os_path_exists (fs : t) (s : string) : bool :=
  Str.truthy s
  && match walk (root fs) (if Str.startswith "/" s then [] else cwd fs)
                (Str.split "/" s) with
     | Some _ => true
     | None => false
     end.

(** [Path.mkdir(parents=True, exist_ok=True)]. *)
Definition mkdir_p (fs : t) (p : PurePath.t) : option t :=
  match makedirs (root fs) (start fs p) (PurePath.parts p) with
  | Some r => Some (mk r (cwd fs))
  | None => None
  end.

(** The engine writing its output: the directories above the destination
    are made first (as Playwright does), then the file is created or
    overwritten.  A destination that cannot be written (a file above it,
    a directory in its place, no name) leaves the file system as it is. *)
Definition write_file (fs : t) (p : PurePath.t) : t :=
  match mkdir_p fs (PurePath.parent p) with
  | Some fs1 =>
      match walk (root fs1) (start fs1 p) (PurePath.parts (PurePath.parent p)) with
      | Some loc =>
          let n := PurePath.name p in
          if String.eqb n "" || String.eqb n ".." then fs
          else
            match find (root fs1) (loc ++ [n]) with
            | Some (Dir _) => fs
            | _ => mk (put (loc ++ [n]) File (root fs1)) (cwd fs1)
            end
      | None => fs
      end
  | None => fs
  end.

(** The compiled form of the pattern ["*.html"]: [fnmatch] translates it
    to the regular expression [.*\.html\Z], matched with case on POSIX. *)
Definition matches_star_html (name : string) : bool := Str.endswith ".html" name.

(** [list(p.glob("*.html"))]: the matching entries of the directory, of
    whatever kind, in listing order; nothing when [p] is not a directory. *)
Definition glob_star_html (fs : t) (p : PurePath.t) : list PurePath.t :=
  match lookup fs p with
  | Some (Dir es) =>
      map (fun c => PurePath.mk (PurePath.anchor p) (PurePath.parts p ++ [c]))
          (filter matches_star_html (map fst es))
  | _ => []
  end.

(** [p.resolve()] without symbolic links: the absolute path with the
    [".."] components folded away. *)
Fixpoint fold_dotdot (cur : list string) (cs : list string) : list string :=
  match cs with
  | [] => cur
  | c :: cs' =>
      if String.eqb c ".." then fold_dotdot (removelast cur) cs'
      else fold_dotdot (cur ++ [c]) cs'
  end.

(** The result starts at the one root: of a path with the anchor ["//"],
    [os.path.realpath] keeps a single slash. *)
Definition resolve (fs : t) (p : PurePath.t) : PurePath.t :=
  PurePath.mk "/" (fold_dotdot (start fs p) (PurePath.parts p)).

End FS.

(* ================================================================== *)
(** ** Exceptions, engine calls and observable events *)

(** The payload of the exceptions the scripts can meet; [str(e)] is kept
    structured. *)
Inductive pyerr : Type :=
| EngineError (msg : string)   (** raised by a Playwright call *)
| NameError (name : string)    (** [async_playwright] is unbound when the import failed *)
| ValueError (what : string)   (** [with_suffix] on a path without a name *)
| OSError (path : string).     (** [mkdir] meeting a file *)

(** [BaseException] and its three relevant subclasses: [except Exception]
    catches the first only. *)
Inductive exn : Type :=
| Exception (e : pyerr)
| KeyboardInterrupt
| SystemExit (code : Z).

Inductive Res (A : Type) : Type :=
| Val (a : A)
| Exc (x : exn).
Arguments Val {A} a.
Arguments Exc {A} x.

(** The keyword arguments of [page.pdf]. *)
Record Margin : Type := mkMargin {
  top : string; right : string; bottom : string; left : string }.

Record PdfOptions : Type := mkPdfOptions {
  path : string;
  format : string;
  margin : Margin;
  print_background : bool;
  prefer_css_page_size : bool }.

(** The result of [p.resolve().as_uri()]: a [file://] reference to an
    absolute path (the percent-quoting of [as_uri] is not spelled out). *)
Inductive Uri : Type := FileUri (absolute : PurePath.t).

(** The calls made on the rendering engine.  Browsers and pages are named
    by handles; [Launch] and [NewPage] carry the handle of the object they
    return when they succeed. *)
Inductive Call : Type :=
| Start                                   (** entering [async with async_playwright()] *)
| Stop                                    (** leaving it *)
| Launch (browser : nat)                  (** [browser = p.chromium.launch()] *)
| NewPage (browser : nat) (page : nat)    (** [page = browser.new_page()] *)
| Goto (page : nat) (url : Uri) (wait_until : string)
| WaitForTimeout (page : nat) (ms : nat)
| Pdf (page : nat) (opts : PdfOptions)
| PageClose (page : nat)
| BrowserClose (browser : nat).

(** The lines the scripts print, one constructor per [print] statement (or
    run of constant [print] statements), with the values interpolated. *)
Inductive Line : Type :=
(* check_playwright *)
| PlaywrightIsAvailable
| PlaywrightInstallInstructions
(* convert_html_to_pdf_async *)
| HtmlFileNotFound (html_file : string)
| GeneratedPdf (name : string)
| PdfGenerationFailedFor (html_file : string)
| PdfGenerationError (e : pyerr)
(* batch_convert_directory_async *)
| HtmlDirectoryNotFound (html_dir : string)
| NoHtmlFilesFoundIn (html_dir : string)
| ConvertingFiles (n : nat)
| FailedToGeneratePdfFor (name : string)
| ErrorConverting (name : string) (e : pyerr)
(* pdf_generator.main *)
| AllDependenciesAvailable
| MissingDependencies
| InputRequired
| HelpText
| PlaywrightRequired
| ConversionCompleteFor (pdf_file : string)
| ConversionFailed
| ConversionCompleteBanner
| GeneratedCount (n : nat)
| OutputDirectory (dir : string)
| InvalidInput (input : string)
(* generate_pdfs.main *)
| PrerequisitesBanner
| PrerequisitesAvailable
| PrerequisitesNotMet
| InputDoesNotExist (input : string)
| GenerationBanner (input : string)
| OutputLine (dir : string) (is_default : bool)
| GeneratedOne (name : string)
| GenerationSuccessful
| GenerationFailed
| GenerationCompleteBanner (n : nat) (dir : string)
| ListedPdf (name : string)
| NoPdfsGenerated
| Interrupted
| ErrorDuringGeneration (e : pyerr).

(** What an observer of a run sees, in order: printed lines, directory
    creations (with their success) and engine calls (with the message of the
    exception they raised, if any). *)
Inductive Event : Type :=
| Printed (l : Line)
| Mkdir (p : PurePath.t) (ok : bool)
| Called (c : Call) (raised : option string).

(** The world outside the scripts: whether [import playwright] worked, and
    the engine as an oracle.  [fails h c] is the message of the exception
    the call [c] raises after the history [h] ([None] when it returns);
    [renders h o] tells whether a [page.pdf] call that returns has written
    its output file. *)
Record World : Type := mkWorld {
  playwright_available : bool;
  fails : list Event -> Call -> option string;
  renders : list Event -> PdfOptions -> bool }.

(** The state threaded through a run. *)
Record State : Type := mkState {
  fs : FS.t;
  trace : list Event;
  fresh : nat }.

(** A run starts with nothing observed yet. *)
Definition boot (f : FS.t) : State := mkState f [] 0.

(* ================================================================== *)
(** ** The state-and-exception monad of the scripts *)

Definition M (A : Type) : Type := State -> Res A * State.

Definition ret {A} (a : A) : M A := fun s => (Val a, s).

Definition bind {A B} (m : M A) (k : A -> M B) : M B :=
  fun s => match m s with
           | (Val a, s') => k a s'
           | (Exc x, s') => (Exc x, s')
           end.

Definition raise {A} (x : exn) : M A := fun s => (Exc x, s).

Declare Scope script_scope.
Delimit Scope script_scope with script.
Notation "x <- m ;; k" := (bind m (fun x => k))
  (at level 100, m at next level, right associativity) : script_scope.
Notation "m ;; k" := (bind m (fun _ => k))
  (at level 100, right associativity) : script_scope.
Local Open Scope script_scope.

(** [try: body  except Exception as e: handler e]. *)
Definition try_except {A} (body : M A) (handler : pyerr -> M A) : M A :=
  fun s => match body s with
           | (Exc (Exception e), s') => handler e s'
           | r => r
           end.

(** [try: body  except KeyboardInterrupt: on_interrupt]. *)
Definition try_except_interrupt {A} (body : M A) (on_interrupt : M A) : M A :=
  fun s => match body s with
           | (Exc KeyboardInterrupt, s') => on_interrupt s'
           | r => r
           end.

Definition emit (e : Event) : M unit :=
  fun s => (Val tt, mkState (fs s) (trace s ++ [e]) (fresh s)).

Definition print (l : Line) : M unit := emit (Printed l).

Fixpoint print_each (ls : list Line) : M unit :=
  match ls with
  | [] => ret tt
  | l :: r => print l ;; print_each r
  end.

Definition sys_exit {A} (code : Z) : M A := raise (SystemExit code).

Definition get_fs : M FS.t := fun s => (Val (fs s), s).

Definition new_handle : M nat :=
  fun s => (Val (fresh s), mkState (fs s) (trace s) (S (fresh s))).

(** [p.mkdir(parents=True, exist_ok=True)]. *)
Definition mkdir (p : PurePath.t) : M unit :=
  fun s => match FS.mkdir_p (fs s) p with
           | Some f => (Val tt, mkState f (trace s ++ [Mkdir p true]) (fresh s))
           | None => (Exc (Exception (OSError (PurePath.str p))),
                      mkState (fs s) (trace s ++ [Mkdir p false]) (fresh s))
           end.

(** Python truthiness of an optional string ([None] and [""] are falsy). *)
Definition truthy_opt (o : option string) : bool :=
  match o with Some s => Str.truthy s | None => false end.

(** Python truthiness of a list. *)
Definition nonempty {A} (l : list A) : bool :=
  match l with [] => false | _ :: _ => true end.

(** The process exit status a run of [main] ends with: 0 when [main]
    returns, the code of [sys.exit], 1 for an uncaught exception (130 for an
    uncaught interrupt). *)
Definition exit_code (r : Res unit) : Z :=
  match r with
  | Val _ => 0
  | Exc (SystemExit c) => c
  | Exc (Exception _) => 1
  | Exc KeyboardInterrupt => 130
  end%Z.

(* ================================================================== *)
(** ** Modules/pdf_generator.py *)

Section Scripts.

Variable W : World.

(** One call on the engine: it is recorded with its outcome, and raises
    when the oracle says so. *)
Definition call (c : Call) : M unit :=
  fun s =>
    let r := fails W (trace s) c in
    (match r with
     | None => Val tt
     | Some msg => Exc (Exception (EngineError msg))
     end,
     mkState (fs s) (trace s ++ [Called c r]) (fresh s)).

(** [page.pdf(path=..., ...)]: a call that returns has written the file
    when the oracle says the engine rendered it. *)
Definition page_pdf (page : nat) (opts : PdfOptions) : M unit :=
  fun s =>
    let c := Pdf page opts in
    match fails W (trace s) c with
    | Some msg =>
        (Exc (Exception (EngineError msg)),
         mkState (fs s) (trace s ++ [Called c (Some msg)]) (fresh s))
    | None =>
        (Val tt,
         mkState (if renders W (trace s) opts
                  then FS.write_file (fs s) (PurePath.Path (path opts))
                  else fs s)
                 (trace s ++ [Called c None]) (fresh s))
    end.

Definition launch : M nat :=
  browser <- new_handle ;; call (Launch browser) ;; ret browser.

Definition new_page (browser : nat) : M nat :=
  page <- new_handle ;; call (NewPage browser page) ;; ret page.

(** [async with async_playwright() as p: body].  The name is unbound when
    the import at the top of the module failed; once the context is
    entered it is left on every path out of [body]. *)
Definition with_playwright {A} (body : M A) : M A :=
  if playwright_available W then
    call Start ;;
    fun s =>
      match body s with
      | (r, s1) =>
          match call Stop s1 with
          | (Val _, s2) => (r, s2)
          | (Exc x, s2) => (Exc x, s2)
          end
      end
  else raise (Exception (NameError "async_playwright")).

(** [html_path.resolve().as_uri()]. *)
Definition file_url_of (p : PurePath.t) : M Uri :=
  f <- get_fs ;; ret (FileUri (FS.resolve f p)).

Definition path_exists (p : PurePath.t) : M bool :=
  f <- get_fs ;; ret (FS.exists_ f p).

(** The fixed formatting arguments of both [page.pdf] call sites. *)
Definition pdf_options (destination : string) : PdfOptions :=
  mkPdfOptions destination "Letter"
               (mkMargin "0.75in" "0.75in" "0.75in" "0.75in")
               true true.

Definition check_playwright : M bool :=
  if playwright_available W then print PlaywrightIsAvailable ;; ret true
  else print PlaywrightInstallInstructions ;; ret false.

(** Lines 40-45: the destination of a single conversion.  [if output_dir:]
    is a truthiness test, so an empty string counts as no directory. *)
Definition single_pdf_path (html_path : PurePath.t) (output_dir : option string)
  : M PurePath.t :=
  let beside_source :=
    match PurePath.with_suffix html_path ".pdf" with
    | Some p => ret p
    | None => raise (Exception (ValueError (PurePath.str html_path)))
    end in
  match output_dir with
  | Some d =>
      if Str.truthy d then
        ret (PurePath.joinpath (PurePath.Path d) (PurePath.stem html_path ++ ".pdf")%string)
      else beside_source
  | None => beside_source
  end.

Definition convert_html_to_pdf_async (html_file : string) (output_dir : option string)
  : M (option string) :=
  f <- get_fs ;;
  if negb (FS.os_path_exists f html_file) then
    print (HtmlFileNotFound html_file) ;; ret None
  else
    let html_path := PurePath.Path html_file in
    pdf_path <- single_pdf_path html_path output_dir ;;
    mkdir (PurePath.parent pdf_path) ;;
    try_except
      (with_playwright
         (browser <- launch ;;
          page <- new_page browser ;;
          file_url <- file_url_of html_path ;;
          call (Goto page file_url "networkidle") ;;
          call (WaitForTimeout page 2000) ;;
          page_pdf page (pdf_options (PurePath.str pdf_path)) ;;
          call (BrowserClose browser)) ;;
       ex <- path_exists pdf_path ;;
       if ex then
         print (GeneratedPdf (PurePath.name pdf_path)) ;;
         ret (Some (PurePath.str pdf_path))
       else
         print (PdfGenerationFailedFor html_file) ;; ret None)
      (fun e => print (PdfGenerationError e) ;; ret None).

(** [asyncio.run] of the coroutine. *)
Definition convert_html_to_pdf (html_file : string) (output_dir : option string)
  : M (option string) :=
  convert_html_to_pdf_async html_file output_dir.

(** Line 129: the destination of one file of a batch. *)
Definition batch_pdf_output_path (pdf_path html_file : PurePath.t) : PurePath.t :=
  PurePath.joinpath pdf_path (PurePath.stem html_file ++ ".pdf")%string.

(** The body of the [for] loop of [batch_convert_directory_async] for one
    file: the [try] block and its [except Exception] handler.
    [generated_pdfs] is the list the loop appends to. *)
Definition convert_one (browser : nat) (pdf_path html_file : PurePath.t)
           (generated_pdfs : list string) : M (list string) :=
  try_except
    (page <- new_page browser ;;
     let pdf_output_path := batch_pdf_output_path pdf_path html_file in
     file_url <- file_url_of html_file ;;
     call (Goto page file_url "networkidle") ;;
     call (WaitForTimeout page 1000) ;;
     page_pdf page (pdf_options (PurePath.str pdf_output_path)) ;;
     call (PageClose page) ;;
     ex <- path_exists pdf_output_path ;;
     if ex then
       print (GeneratedPdf (PurePath.name pdf_output_path)) ;;
       ret (generated_pdfs ++ [PurePath.str pdf_output_path])
     else
       print (FailedToGeneratePdfFor (PurePath.name html_file)) ;;
       ret generated_pdfs)
    (fun e => print (ErrorConverting (PurePath.name html_file) e) ;;
              ret generated_pdfs).

(** [for html_file in html_files: ...]. *)
Fixpoint for_html_files (browser : nat) (pdf_path : PurePath.t)
         (html_files : list PurePath.t) (generated_pdfs : list string)
  : M (list string) :=
  match html_files with
  | [] => ret generated_pdfs
  | html_file :: rest =>
      g <- convert_one browser pdf_path html_file generated_pdfs ;;
      for_html_files browser pdf_path rest g
  end.

(** Lines 104-107: the output directory of a batch. *)
Definition batch_pdf_path (html_path : PurePath.t) (pdf_dir : option string)
  : PurePath.t :=
  match pdf_dir with
  | None => PurePath.joinpath (PurePath.parent html_path) "PDF"
  | Some d => PurePath.Path d
  end.

Definition batch_convert_directory_async (html_dir : string) (pdf_dir : option string)
  : M (list string) :=
  let html_path := PurePath.Path html_dir in
  ex <- path_exists html_path ;;
  if negb ex then
    print (HtmlDirectoryNotFound html_dir) ;; ret []
  else
    let pdf_path := batch_pdf_path html_path pdf_dir in
    mkdir pdf_path ;;
    f <- get_fs ;;
    let html_files := FS.glob_star_html f html_path in
    if negb (nonempty html_files) then
      print (NoHtmlFilesFoundIn html_dir) ;; ret []
    else
      print (ConvertingFiles (List.length html_files)) ;;
      with_playwright
        (browser <- launch ;;
         generated_pdfs <- for_html_files browser pdf_path html_files [] ;;
         call (BrowserClose browser) ;;
         ret generated_pdfs).

Definition batch_convert_directory (html_dir : string) (pdf_dir : option string)
  : M (list string) :=
  batch_convert_directory_async html_dir pdf_dir.

(** The parsed command line of either script ([--check-deps] in
    [pdf_generator.py], [--check] in [generate_pdfs.py]). *)
Record Args : Type := mkArgs {
  input : option string;
  output : option string;
  check : bool }.

(** [input_path.is_file() and input_path.suffix.lower() == '.html']. *)
Definition is_html_file (f : FS.t) (input_path : PurePath.t) : bool :=
  FS.is_file f input_path
  && String.eqb (Str.lower (PurePath.suffix input_path)) ".html".

(** [main] of [pdf_generator.py]. *)
Definition pdf_generator_main (args : Args) : M unit :=
  if check args then
    ok <- check_playwright ;;
    if ok then print AllDependenciesAvailable ;; sys_exit 0
    else print MissingDependencies ;; sys_exit 1
  else if negb (truthy_opt (input args)) then
    print InputRequired ;; print HelpText ;; sys_exit 1
  else
    ok <- check_playwright ;;
    if negb ok then print PlaywrightRequired ;; sys_exit 1
    else
      let arg := match input args with Some i => i | None => "" end in
      let input_path := PurePath.Path arg in
      f <- get_fs ;;
      if is_html_file f input_path then
        pdf_file <- convert_html_to_pdf (PurePath.str input_path) (output args) ;;
        if truthy_opt pdf_file then
          print (ConversionCompleteFor (match pdf_file with Some p => p | None => "" end))
        else
          print ConversionFailed ;; sys_exit 1
      else if FS.is_dir f input_path then
        generated_pdfs <- batch_convert_directory (PurePath.str input_path) (output args) ;;
        print ConversionCompleteBanner ;;
        print (GeneratedCount (List.length generated_pdfs)) ;;
        if nonempty generated_pdfs && truthy_opt (output args) then
          print (OutputDirectory (match output args with Some o => o | None => "" end))
        else ret tt
      else
        print (InvalidInput arg) ;; sys_exit 1.

(* ================================================================ *)
(** ** generate_pdfs.py *)

(** Lines 89-98: the output directory, and whether it is the default. *)
Definition gen_output_dir (args : Args) (input_path : PurePath.t)
  : PurePath.t * bool :=
  if truthy_opt (output args) then
    (PurePath.Path (match output args with Some o => o | None => "" end), false)
  else
    (PurePath.joinpath (PurePath.parent input_path) "PDF", true).

(** [Path(pdf_file).name]. *)
Definition pdf_name (pdf_file : string) : string :=
  PurePath.name (PurePath.Path pdf_file).

(** Lines 104-136: the body of the [try] block. *)
Definition gen_convert (arg : string) (input_path output_dir : PurePath.t) : M unit :=
  f <- get_fs ;;
  if is_html_file f input_path then
    pdf_file <- convert_html_to_pdf (PurePath.str input_path)
                                    (Some (PurePath.str output_dir)) ;;
    if truthy_opt pdf_file then
      print (GeneratedOne (pdf_name (match pdf_file with Some p => p | None => "" end))) ;;
      print GenerationSuccessful
    else
      print GenerationFailed ;; sys_exit 1
  else if FS.is_dir f input_path then
    generated_pdfs <- batch_convert_directory (PurePath.str input_path)
                                              (Some (PurePath.str output_dir)) ;;
    if nonempty generated_pdfs then
      print (GenerationCompleteBanner (List.length generated_pdfs)
                                      (PurePath.str output_dir)) ;;
      print_each (map (fun pdf_file => ListedPdf (pdf_name pdf_file)) generated_pdfs)
    else
      print NoPdfsGenerated ;; sys_exit 1
  else
    print (InvalidInput arg) ;; sys_exit 1.

(** [main] of [generate_pdfs.py]. *)
Definition generate_pdfs_main (args : Args) : M unit :=
  (if check args || negb (truthy_opt (input args)) then
     print PrerequisitesBanner ;;
     ok <- check_playwright ;;
     if ok then
       print PrerequisitesAvailable ;;
       if negb (truthy_opt (input args)) then sys_exit 0 else ret tt
     else
       print PrerequisitesNotMet ;; sys_exit 1
   else ret tt) ;;
  if negb (truthy_opt (input args)) then
    print HelpText ;; sys_exit 1
  else
    let arg := match input args with Some i => i | None => "" end in
    let input_path := PurePath.Path arg in
    ex <- path_exists input_path ;;
    if negb ex then
      print (InputDoesNotExist arg) ;; sys_exit 1
    else
      print (GenerationBanner (PurePath.str input_path)) ;;
      let (output_dir, is_default) := gen_output_dir args input_path in
      print (OutputLine (PurePath.str output_dir) is_default) ;;
      mkdir output_dir ;;
      try_except
        (try_except_interrupt
           (gen_convert arg input_path output_dir)
           (print Interrupted ;; sys_exit 1))
        (fun e => print (ErrorDuringGeneration e) ;; sys_exit 1).

End Scripts.

(* ================================================================== *)
(** ** Reading a trace *)

(** What a run reports about one file: the lines printed per file by
    [batch_convert_directory_async] (and the success line of the single
    conversion). *)
Inductive Outcome : Type :=
| Succeeded (pdf_name : string)
| Failed (html_name : string) (reason : option pyerr).

Definition outcome_of (e : Event) : option Outcome :=
  match e with
  | Printed (GeneratedPdf n) => Some (Succeeded n)
  | Printed (FailedToGeneratePdfFor n) => Some (Failed n None)
  | Printed (ErrorConverting n e) => Some (Failed n (Some e))
  | _ => None
  end.

(** The outcomes a trace reports, in order. *)
Fixpoint report (evs : list Event) : list Outcome :=
  match evs with
  | [] => []
  | e :: r =>
      match outcome_of e with
      | Some o => o :: report r
      | None => report r
      end
  end.

Definition is_success (o : Outcome) : bool :=
  match o with Succeeded _ => true | Failed _ _ => false end.

Definition successes (os : list Outcome) : nat := List.length (filter is_success os).

(** A request is attempted when a page is asked for. *)
Definition is_attempt (e : Event) : bool :=
  match e with Called (NewPage _ _) _ => true | _ => false end.

Definition attempts (evs : list Event) : nat := List.length (filter is_attempt evs).

(** Calls that open or close the browser, and calls on a page. *)
Definition is_session_event (e : Event) : bool :=
  match e with
  | Called (Launch _) _ | Called (BrowserClose _) _ => true
  | _ => false
  end.

Definition is_page_event (e : Event) : bool :=
  match e with
  | Called (NewPage _ _) _ | Called (Goto _ _ _) _ | Called (WaitForTimeout _ _) _
  | Called (Pdf _ _) _ | Called (PageClose _) _ => true
  | _ => false
  end.

(** The browser a page is asked from. *)
Definition uses_browser (b : nat) (e : Event) : bool :=
  match e with
  | Called (NewPage b' _) _ => Nat.eqb b' b
  | _ => true
  end.

(** The pages open after a trace: opened by a [new_page] that returned,
    closed by a [page.close()] that returned, all gone once the browser is
    closed. *)
Fixpoint open_pages_from (opened : list nat) (evs : list Event) : list nat :=
  match evs with
  | [] => opened
  | Called (NewPage _ pg) None :: r => open_pages_from (opened ++ [pg]) r
  | Called (PageClose pg) None :: r =>
      open_pages_from (filter (fun q => negb (Nat.eqb q pg)) opened) r
  | Called (BrowserClose _) None :: r => open_pages_from [] r
  | _ :: r => open_pages_from opened r
  end.

Definition open_pages (evs : list Event) : list nat := open_pages_from [] evs.

(** The formatting of section 4.2, step 3: Letter pages, 0.75 inch margins
    on the four sides, backgrounds printed, the page size of the style sheet
    preferred. *)
Definition fixed_formatting (o : PdfOptions) : Prop :=
  format o = "Letter"
  /\ margin o = mkMargin "0.75in" "0.75in" "0.75in" "0.75in"
  /\ print_background o = true
  /\ prefer_css_page_size o = true.

Definition pdf_request_ok (e : Event) : Prop :=
  match e with
  | Called (Pdf _ o) _ => fixed_formatting o
  | _ => True
  end.

(** The destinations of the rasterization requests of a trace. *)
Fixpoint pdf_targets (evs : list Event) : list string :=
  match evs with
  | [] => []
  | Called (Pdf _ o) _ :: r => path o :: pdf_targets r
  | _ :: r => pdf_targets r
  end.

(* ================================================================== *)
(** ** Specification vocabulary *)

(** [emits P m]: whatever the starting state, [m] only appends events to
    the trace, and every event it appends satisfies [P]. *)
Definition emits {A} (P : Event -> Prop) (m : M A) : Prop :=
  forall s, exists evs, trace (snd (m s)) = trace s ++ evs /\ Forall P evs.

(** The part of a trace that belongs to one request of a batch on browser
    [b]: it opens with the request for a page, asks for one page only,
    touches neither the browser nor another browser, and closes with the
    one line that reports the outcome; when an engine call raised, that
    outcome is a failure carrying the message. *)
Definition request_run (b : nat) (html_file : PurePath.t) (seg : list Event) : Prop :=
  (exists pg r rest, seg = Called (NewPage b pg) r :: rest)
  /\ attempts seg = 1
  /\ Forall (fun e => is_session_event e = false) seg
  /\ Forall (fun e => uses_browser b e = true) seg
  /\ exists o,
      report seg = [o]
      /\ outcome_of (last seg (Printed HelpText)) = Some o
      /\ (forall c msg, In (Called c (Some msg)) seg ->
          o = Failed (PurePath.name html_file) (Some (EngineError msg))).

(** How a batch ends, from what closing the browser ([rc]) and leaving
    Playwright ([rs]) raised: the list of generated files is returned when
    neither raised. *)
Definition batch_result (g : list string) (rc rs : option string) : Res (list string) :=
  match rs, rc with
  | Some m, _ => Exc (Exception (EngineError m))
  | None, Some m => Exc (Exception (EngineError m))
  | None, None => Val g
  end.

(** The paths [pathlib] builds: one of the three POSIX anchors, and
    components that are neither empty nor ["."] and hold no slash. *)
Definition part_ok (c : string) : Prop :=
  c <> "" /\ c <> "." /\ Str.mem "/" c = false.


(** The browser session can be opened: the import of Playwright worked,
    and entering its context and launching the browser do not raise. *)
Definition session_starts (W : World) : Prop :=
  playwright_available W = true
  /\ (forall h, fails W h Start = None)
  /\ (forall h b, fails W h (Launch b) = None).

(** Closing the browser and leaving the Playwright context do not raise. *)
Definition session_stops (W : World) : Prop :=
  (forall h b, fails W h (BrowserClose b) = None)
  /\ (forall h, fails W h Stop = None).

(* ================================================================== *)
(** ** Worlds and trees for the examples *)

(** A small tree used in the examples: [/work/maps] holds three HTML files,
    a text file and an upper-case [.HTML] file; [/work/empty] holds nothing;
    the working directory is [/work]. *)
Definition demo_fs : FS.t :=
  FS.mk (FS.Dir [("work",
           FS.Dir [("maps", FS.Dir [("a.html", FS.File); ("notes.txt", FS.File);
                                    ("b.html", FS.File); ("Report.HTML", FS.File);
                                    ("c.html", FS.File)]);
                   ("empty", FS.Dir []);
                   ("notes.html", FS.File)])])
        ["work"].

(** [demo_fs] once [/work/PDF] has been made. *)
Definition demo_fs_with_pdf_dir : FS.t :=
  FS.mk (FS.Dir [("work",
           FS.Dir [("maps", FS.Dir [("a.html", FS.File); ("notes.txt", FS.File);
                                    ("b.html", FS.File); ("Report.HTML", FS.File);
                                    ("c.html", FS.File)]);
                   ("empty", FS.Dir []);
                   ("notes.html", FS.File);
                   ("PDF", FS.Dir [])])])
        ["work"].


(** An engine that never fails and always renders. *)
Definition healthy : World := mkWorld true (fun _ _ => None) (fun _ _ => true).

(** An engine whose [goto] fails on the files called [name]. *)
Definition goto_fails_for (name : string) : World :=
  mkWorld true
    (fun _ c =>
       match c with
       | Goto _ (FileUri p) _ =>
           if String.eqb (PurePath.name p) name then Some "net::ERR_FAILED" else None
       | _ => None
       end)
    (fun _ _ => true).

(** An engine on which every [goto] fails. *)
Definition goto_always_fails : World :=
  mkWorld true
    (fun _ c => match c with Goto _ _ _ => Some "net::ERR_FAILED" | _ => None end)
    (fun _ _ => true).

(** The command lines of the examples. *)
Definition convert_args (input : string) : Args := mkArgs (Some input) None false.

(* ================================================================== *)
(** ** Vocabulary for whole runs *)

(** [keeps Q m]: whatever the starting state, [m] only appends events to
    the trace, and the events it appends, taken together, satisfy [Q]. *)
Definition keeps {A} (Q : list Event -> Prop) (m : M A) : Prop :=
  forall s, exists evs, trace (snd (m s)) = trace s ++ evs /\ Q evs.

(** Engine calls stay inside the Playwright context: a call other than
    [Start] is made only after a [Start] that returned and before the [Stop]
    that follows it, [Start] is not nested, and no context is left open at
    the end. *)
Fixpoint scoped_from (inside : bool) (evs : list Event) : bool :=
  match evs with
  | [] => negb inside
  | Called Start None :: r => negb inside && scoped_from true r
  | Called Start (Some _) :: r => negb inside && scoped_from false r
  | Called Stop _ :: r => inside && scoped_from false r
  | Called _ _ :: r => inside && scoped_from inside r
  | _ :: r => scoped_from inside r
  end.

Definition scoped (evs : list Event) : Prop := scoped_from false evs = true.

(** Entering or leaving the Playwright context. *)
Definition is_context_event (e : Event) : bool :=
  match e with
  | Called Start _ | Called Stop _ => true
  | _ => false
  end.

(** Nothing is rasterized before the page is loaded: every [page.pdf] comes
    right after a [goto] that waited for the network to be idle and a settle
    delay of at least a second, both returned, on the same page.  The state
    remembers how far the page of the last engine calls has got. *)
Inductive load_state : Type :=
| NotLoaded
| Navigated (page : nat)
| Settled (page : nat).

Fixpoint loads_before_pdf (st : load_state) (evs : list Event) : bool :=
  match evs with
  | [] => true
  | Called (Goto pg _ w) None :: r =>
      loads_before_pdf (if String.eqb w "networkidle" then Navigated pg else NotLoaded) r
  | Called (WaitForTimeout pg ms) None :: r =>
      loads_before_pdf
        (match st with
         | Navigated q => if Nat.eqb q pg && Nat.leb 1000 ms then Settled pg else NotLoaded
         | _ => NotLoaded
         end) r
  | Called (Pdf pg _) _ :: r =>
      match st with
      | Settled q => Nat.eqb q pg
      | _ => false
      end && loads_before_pdf NotLoaded r
  | Called _ _ :: r => loads_before_pdf NotLoaded r
  | _ :: r => loads_before_pdf st r
  end.

Definition loaded_before_pdf (evs : list Event) : Prop :=
  loads_before_pdf NotLoaded evs = true.

(** No engine call at all. *)
Definition is_engine_call (e : Event) : bool :=
  match e with Called _ _ => true | _ => false end.

(** An engine call raised. *)
Definition raised_in (evs : list Event) : Prop :=
  exists c msg, In (Called c (Some msg)) evs.

(** The request of a segment succeeded. *)
Definition succeeded (seg : list Event) : bool :=
  Nat.ltb 0 (successes (report seg)).

(** For the examples: the file system once the directory [p] has been made
    (the one given when it cannot be). *)
Definition with_dir (f : FS.t) (p : string) : FS.t :=
  match FS.mkdir_p f (PurePath.Path p) with
  | Some f' => f'
  | None => f
  end.

(** An engine that returns from every call without writing any file. *)
Definition renders_nothing : World := mkWorld true (fun _ _ => None) (fun _ _ => false).

(** A host on which [import playwright] failed. *)
Definition no_playwright : World := mkWorld false (fun _ _ => None) (fun _ _ => true).

(* ================================================================== *)
(** ** The command line

    Both [main]s start with [parser.parse_args()].  It belongs to
    [argparse] and is, like the engine, an oracle: [Parse] is what it makes
    of the command line of a run.  It gives the parsed arguments, or ends
    the process itself: with status 2 when it rejects the command line (the
    usage message goes to standard error, which the trace does not hold),
    with the help text and status 0 on [-h] or [--help].

    The runs are those that are not interrupted from the keyboard: no call
    of the model raises [KeyboardInterrupt]. *)

Inductive Parse : Type :=
| Parsed (args : Args)
| Rejected (message : string)
| Help.

Definition run_script (main : Args -> M unit) (parsed : Parse) : M unit :=
  match parsed with
  | Parsed args => main args
  | Rejected _ => sys_exit 2
  | Help => bind (print HelpText) (fun _ => sys_exit 0)
  end.

(** [python pdf_generator.py ...] and [python generate_pdfs.py ...]. *)
Definition pdf_generator_program (W : World) : Parse -> M unit :=
  run_script (pdf_generator_main W).

Definition generate_pdfs_program (W : World) : Parse -> M unit :=
  run_script (generate_pdfs_main W).
(* ================================================================== *)
(** ** Modules/setup_pdf.py

    The file holds two set-up scripts one after the other.  Run as a
    program, it executes the first [main] (Playwright) at its
    [if __name__ == "__main__"] and, when that returns, goes on to define the
    second script and to execute its [main] (wkhtmltopdf).  The scripts
    print, look programs up on the [PATH], run programs and, for the
    wkhtmltopdf test, write and remove files.  The host is an oracle, as the
    engine is for the converters: it answers [shutil.which] and
    [subprocess.run] from the history of the run, and a program that runs
    may change the file system in any way. *)

Module Setup.

(** [sys.version_info], up to its third component. *)
Record Version : Type := mkVersion { major : nat; minor : nat; micro : nat }.

(** What [subprocess.run] comes back with: a completed process, or an
    [OSError] (the program could not be started). *)
Inductive Outcome : Type :=
| Completed (returncode : Z) (stdout stderr : string)
| OSFailure (msg : string).

(** The exceptions printed by the handlers. *)
Inductive Failure : Type :=
| ProcessFailure (msg : string)      (** from [subprocess.run] *)
| TimeoutExpired (seconds : nat)     (** from [subprocess.run(..., timeout=...)] *)
| FileFailure (path : string).       (** from [open] *)

(** The lines printed, one constructor per [print] statement or run of
    constant [print] statements. *)
Inductive Line : Type :=
(* first script *)
| PythonTooOldForPlaywright (v : Version)
| PythonVersion (v : Version)
| InstallingPlaywright
| InstallingPackage
| PackageInstallFailed (stderr : string)
| PackageInstalled
| InstallingBrowsers
| BrowserInstallFailed (stderr : string)
| ChromiumInstalled
| InstallingSystemDependencies
| SystemDependenciesInstalled
| SystemDependenciesHadIssues
| InstallationError (e : Failure)
| PlaywrightWorks
| PlaywrightTestFailed (stderr : string)
| PlaywrightTestTimedOut
| TestError (e : Failure)
| PlaywrightSetupBanner
| PlaywrightInstallationFailed
| TestingInstallation
| InstallationTestFailed
| SetupCompleted
(* second script *)
| PythonAdequate (v : Version)
| PythonTooOld (v : Version)
| WkhtmltopdfInstalled (version : string)
| WkhtmltopdfNotInstalled
| AttemptingMacos
| HomebrewMissing
| InstalledViaHomebrew
| HomebrewFailed (stderr : string)
| AttemptingLinux
| UsingPackageManager (name : string)
| InstalledOnLinux
| FailedWith (name : string) (stderr : string)
| LinuxManualInstructions
| AttemptingWindows
| UsingChocolatey
| InstalledViaChocolatey
| ChocolateyFailed (stderr : string)
| UsingWinget
| InstalledViaWinget
| WingetFailed (stderr : string)
| WindowsManualInstructions
| UnsupportedPlatform (system : string)
| TestingPdfGeneration
| PdfTestSuccessful (pdf_file : string)
| PdfTestFailed
| PdfTestStderr (stderr : string)
| PdfTestError (e : Failure)
| PdfSetupBanner
| UpgradePython
| SetupComplete
| InstallingWkhtmltopdf
| SetupIncomplete
| MacosHint
| LinuxHint
| WindowsHint.

(** What an observer sees: the lines printed, the programs looked up with
    [shutil.which], and the programs run, with the time limit they were
    given and what came of them ([None] when the time limit expired). *)
Inductive Event : Type :=
| Printed (l : Line)
| Which (name : string) (found : bool)
| Ran (argv : list string) (timeout : option nat) (result : option Outcome).

(** The host.  [which h name] tells whether [shutil.which(name)] finds the
    program after the history [h]; [run h f argv] is what running [argv]
    after [h] on the file system [f] comes back with, and the file system
    it leaves; [times_out h argv] tells whether a run with a time limit
    exceeds it. *)
Record Host : Type := mkHost {
  executable : string;
  version : Version;
  system : string;
  which : list Event -> string -> bool;
  run : list Event -> FS.t -> list string -> Outcome * FS.t;
  times_out : list Event -> list string -> bool }.

Record State : Type := mkState { fs : FS.t; trace : list Event }.

Definition boot (f : FS.t) : State := mkState f [].

Definition M (A : Type) : Type := State -> Res A * State.

Definition ret {A} (a : A) : M A := fun s => (Val a, s).

Definition bind {A B} (m : M A) (k : A -> M B) : M B :=
  fun s => match m s with
           | (Val a, s') => k a s'
           | (Exc x, s') => (Exc x, s')
           end.

Definition raise {A} (x : exn) : M A := fun s => (Exc x, s).

Definition sys_exit {A} (code : Z) : M A := raise (SystemExit code).

Definition print (l : Line) : M unit :=
  fun s => (Val tt, mkState (fs s) (trace s ++ [Printed l])).

Definition pass : M unit := ret tt.

(** Directory entries without the first one called [c]. *)
Fixpoint remove_key (c : string) (es : list (string * FS.node)) : list (string * FS.node) :=
  match es with
  | [] => []
  | (k, v) :: t => if String.eqb k c then t else (k, v) :: remove_key c t
  end.

(** The canonical location of an existing path. *)
Definition locate (f : FS.t) (p : PurePath.t) : option (list string) :=
  FS.walk (FS.root f) (FS.start f p) (PurePath.parts p).

(** The file system without the node at [loc]. *)
Definition remove_at (f : FS.t) (loc : list string) : FS.t :=
  match FS.find (FS.root f) (removelast loc) with
  | Some (FS.Dir es) =>
      FS.mk (FS.put (removelast loc) (FS.Dir (remove_key (last loc "") es)) (FS.root f))
            (FS.cwd f)
  | _ => f
  end.

(** [p.unlink()]: [None] stands for the [OSError] raised when [p] is not a
    file. *)
Definition unlink (f : FS.t) (p : PurePath.t) : option FS.t :=
  match locate f p with
  | Some loc =>
      match FS.find (FS.root f) loc with
      | Some FS.File => Some (remove_at f loc)
      | _ => None
      end
  | None => None
  end.

(** [p.rmdir()]: [None] stands for the [OSError] raised when [p] is not an
    empty directory (or is the root). *)
Definition rmdir (f : FS.t) (p : PurePath.t) : option FS.t :=
  match locate f p with
  | Some [] => None
  | Some loc =>
      match FS.find (FS.root f) loc with
      | Some (FS.Dir []) => Some (remove_at f loc)
      | _ => None
      end
  | None => None
  end.

(** [open(p, 'w')] followed by a write: the file is created or truncated;
    [None] stands for the [OSError] raised when the directory of [p] does
    not exist or is a file, or when [p] is a directory. *)
Definition open_w (f : FS.t) (p : PurePath.t) : option FS.t :=
  match locate f (PurePath.parent p) with
  | Some loc =>
      match FS.find (FS.root f) loc with
      | Some (FS.Dir _) =>
          let n := PurePath.name p in
          if String.eqb n "" || String.eqb n ".." then None
          else
            match FS.find (FS.root f) (loc ++ [n]) with
            | Some (FS.Dir _) => None
            | _ => Some (FS.mk (FS.put (loc ++ [n]) FS.File (FS.root f)) (FS.cwd f))
            end
      | _ => None
      end
  | None => None
  end.

End Setup.

Declare Scope setup_scope.
Delimit Scope setup_scope with setup.
Notation "x <- m ;; k" := (Setup.bind m (fun x => k))
  (at level 100, m at next level, right associativity) : setup_scope.
Notation "m ;; k" := (Setup.bind m (fun _ => k))
  (at level 100, right associativity) : setup_scope.

(** *** What both scripts use *)

Section SetupHost.

Local Open Scope setup_scope.

Variable H : Setup.Host.

(** [shutil.which(name)], as a truth value. *)
Definition shutil_which (name : string) : Setup.M bool :=
  fun s =>
    let found := Setup.which H (Setup.trace s) name in
    (Val found, Setup.mkState (Setup.fs s) (Setup.trace s ++ [Setup.Which name found])).

(** [subprocess.run(argv, capture_output=True, text=True)]. *)
Definition subprocess_run (argv : list string) : Setup.M Setup.Outcome :=
  fun s =>
    let (o, f) := Setup.run H (Setup.trace s) (Setup.fs s) argv in
    (Val o, Setup.mkState f (Setup.trace s ++ [Setup.Ran argv None (Some o)])).

(** [subprocess.run(argv, capture_output=True, text=True, timeout=seconds)]:
    [None] stands for [subprocess.TimeoutExpired]. *)
Definition subprocess_run_timeout (argv : list string) (seconds : nat)
  : Setup.M (option Setup.Outcome) :=
  fun s =>
    let (o, f) := Setup.run H (Setup.trace s) (Setup.fs s) argv in
    let result := if Setup.times_out H (Setup.trace s) argv then None else Some o in
    (Val result,
     Setup.mkState f (Setup.trace s ++ [Setup.Ran argv (Some seconds) result])).

End SetupHost.

(** *** The first script: Playwright *)

Module PlaywrightSetup.

Section Script.

Local Open Scope setup_scope.

Variable H : Setup.Host.

(** [sys.version_info < (3, 7)]: tuples compare lexicographically, and a
    tuple that extends [(3, 7)] is not below it. *)
Definition below_3_7 (v : Setup.Version) : bool :=
  Nat.ltb (Setup.major v) 3 || (Nat.eqb (Setup.major v) 3 && Nat.ltb (Setup.minor v) 7).

Definition check_python_version : Setup.M bool :=
  if below_3_7 (Setup.version H) then
    Setup.print (Setup.PythonTooOldForPlaywright (Setup.version H)) ;; Setup.ret false
  else
    Setup.print (Setup.PythonVersion (Setup.version H)) ;; Setup.ret true.

Definition pip_install : list string :=
  [Setup.executable H; "-m"; "pip"; "install"; "playwright"].

Definition chromium_install : list string :=
  [Setup.executable H; "-m"; "playwright"; "install"; "chromium"].

Definition install_deps : list string :=
  [Setup.executable H; "-m"; "playwright"; "install-deps"].

(** The whole body is one [try] block whose [except Exception] prints the
    error and returns [False]. *)
Definition install_playwright : Setup.M bool :=
  let on_error msg :=
    Setup.print (Setup.InstallationError (Setup.ProcessFailure msg)) ;; Setup.ret false in
  Setup.print Setup.InstallingPlaywright ;;
  Setup.print Setup.InstallingPackage ;;
  result <- subprocess_run H pip_install ;;
  match result with
  | Setup.OSFailure msg => on_error msg
  | Setup.Completed returncode _ stderr =>
      if negb (Z.eqb returncode 0) then
        Setup.print (Setup.PackageInstallFailed stderr) ;; Setup.ret false
      else
        Setup.print Setup.PackageInstalled ;;
        Setup.print Setup.InstallingBrowsers ;;
        result <- subprocess_run H chromium_install ;;
        match result with
        | Setup.OSFailure msg => on_error msg
        | Setup.Completed returncode _ stderr =>
            if negb (Z.eqb returncode 0) then
              Setup.print (Setup.BrowserInstallFailed stderr) ;; Setup.ret false
            else
              Setup.print Setup.ChromiumInstalled ;;
              if String.eqb (Str.lower (Setup.system H)) "linux" then
                Setup.print Setup.InstallingSystemDependencies ;;
                result <- subprocess_run H install_deps ;;
                match result with
                | Setup.OSFailure msg => on_error msg
                | Setup.Completed returncode _ _ =>
                    (if Z.eqb returncode 0
                     then Setup.print Setup.SystemDependenciesInstalled
                     else Setup.print Setup.SystemDependenciesHadIssues) ;;
                    Setup.ret true
                end
              else Setup.ret true
        end
  end.

(** The program given to [python -c]. *)
Definition test_script : string := "
import asyncio
from playwright.async_api import async_playwright

async def test():
    async with async_playwright() as p:
        browser = await p.chromium.launch()
        page = await browser.new_page()
        await page.goto('data:text/html,<h1>Test</h1>')
        await browser.close()
    print('✓ Playwright test successful')

asyncio.run(test())
".

Definition test_installation : Setup.M bool :=
  result <- subprocess_run_timeout H [Setup.executable H; "-c"; test_script] 30 ;;
  match result with
  | None => Setup.print Setup.PlaywrightTestTimedOut ;; Setup.ret false
  | Some (Setup.OSFailure msg) =>
      Setup.print (Setup.TestError (Setup.ProcessFailure msg)) ;; Setup.ret false
  | Some (Setup.Completed returncode _ stderr) =>
      if Z.eqb returncode 0 then Setup.print Setup.PlaywrightWorks ;; Setup.ret true
      else Setup.print (Setup.PlaywrightTestFailed stderr) ;; Setup.ret false
  end.

Definition main : Setup.M unit :=
  Setup.print Setup.PlaywrightSetupBanner ;;
  ok <- check_python_version ;;
  if negb ok then Setup.sys_exit 1
  else
    ok <- install_playwright ;;
    if negb ok then
      Setup.print Setup.PlaywrightInstallationFailed ;; Setup.sys_exit 1
    else
      Setup.print Setup.TestingInstallation ;;
      ok <- test_installation ;;
      (if negb ok then Setup.print Setup.InstallationTestFailed else Setup.pass) ;;
      Setup.print Setup.SetupCompleted.

End Script.

End PlaywrightSetup.

(** *** The second script: wkhtmltopdf *)

Module WkhtmltopdfSetup.

Section Script.

Local Open Scope setup_scope.

Variable H : Setup.Host.

(** [run_command(command)] (every call of the script leaves [shell] false):
    success, standard output and standard error; an exception of
    [subprocess.run] becomes a failure with the message as error text. *)
Definition run_command (command : list string) : Setup.M (bool * string * string) :=
  result <- subprocess_run H command ;;
  match result with
  | Setup.Completed returncode stdout stderr =>
      Setup.ret (Z.eqb returncode 0, stdout, stderr)
  | Setup.OSFailure msg => Setup.ret (false, "", msg)
  end.

(** [version.major >= 3 and version.minor >= 6]. *)
Definition check_python_version : Setup.M bool :=
  let v := Setup.version H in
  if Nat.leb 3 (Setup.major v) && Nat.leb 6 (Setup.minor v) then
    Setup.print (Setup.PythonAdequate v) ;; Setup.ret true
  else
    Setup.print (Setup.PythonTooOld v) ;; Setup.ret false.

Definition check_wkhtmltopdf : Setup.M bool :=
  let not_installed := Setup.print Setup.WkhtmltopdfNotInstalled ;; Setup.ret false in
  found <- shutil_which H "wkhtmltopdf" ;;
  if found then
    r <- run_command ["wkhtmltopdf"; "--version"] ;;
    let '(success, stdout, stderr) := r in
    if success then
      let version := if Str.truthy stdout
                     then hd "" (Str.split "010" stdout)
                     else "unknown version" in
      Setup.print (Setup.WkhtmltopdfInstalled version) ;; Setup.ret true
    else not_installed
  else not_installed.

Definition install_wkhtmltopdf_macos : Setup.M bool :=
  Setup.print Setup.AttemptingMacos ;;
  found <- shutil_which H "brew" ;;
  if negb found then Setup.print Setup.HomebrewMissing ;; Setup.ret false
  else
    r <- run_command ["brew"; "install"; "wkhtmltopdf"] ;;
    let '(success, stdout, stderr) := r in
    if success then Setup.print Setup.InstalledViaHomebrew ;; Setup.ret true
    else Setup.print (Setup.HomebrewFailed stderr) ;; Setup.ret false.

(** The package managers tried on Linux, each with its commands. *)
Definition package_managers : list (list (list string)) :=
  [ [["apt-get"; "update"]; ["apt-get"; "install"; "-y"; "wkhtmltopdf"]];
    [["yum"; "install"; "-y"; "wkhtmltopdf"]];
    [["dnf"; "install"; "-y"; "wkhtmltopdf"]];
    [["pacman"; "-S"; "--noconfirm"; "wkhtmltopdf"]] ].

(** The [for] loop of [install_wkhtmltopdf_linux]: [true] when the function
    returned [True] from inside the loop, [false] when the loop ran out. *)
Fixpoint try_package_managers (managers : list (list (list string))) : Setup.M bool :=
  match managers with
  | [] => Setup.ret false
  | commands :: rest =>
      let name := hd "" (nth 0 commands []) in
      pm_available <- shutil_which H name ;;
      if pm_available then
        Setup.print (Setup.UsingPackageManager name) ;;
        r <- (if Nat.ltb 1 (List.length commands) then
                run_command (nth 0 commands []) ;;
                run_command (nth 1 commands [])
              else run_command (nth 0 commands [])) ;;
        let '(success, stdout, stderr) := r in
        if success then Setup.print Setup.InstalledOnLinux ;; Setup.ret true
        else Setup.print (Setup.FailedWith name stderr) ;; try_package_managers rest
      else try_package_managers rest
  end.

Definition install_wkhtmltopdf_linux : Setup.M bool :=
  Setup.print Setup.AttemptingLinux ;;
  installed <- try_package_managers package_managers ;;
  if installed then Setup.ret true
  else Setup.print Setup.LinuxManualInstructions ;; Setup.ret false.

Definition install_wkhtmltopdf_windows : Setup.M bool :=
  Setup.print Setup.AttemptingWindows ;;
  choco <- shutil_which H "choco" ;;
  installed <-
    (if choco then
       Setup.print Setup.UsingChocolatey ;;
       r <- run_command ["choco"; "install"; "wkhtmltopdf"; "-y"] ;;
       let '(success, stdout, stderr) := r in
       if success then Setup.print Setup.InstalledViaChocolatey ;; Setup.ret true
       else Setup.print (Setup.ChocolateyFailed stderr) ;; Setup.ret false
     else Setup.ret false) ;;
  if installed then Setup.ret true
  else
    winget <- shutil_which H "winget" ;;
    installed <-
      (if winget then
         Setup.print Setup.UsingWinget ;;
         r <- run_command ["winget"; "install"; "wkhtmltopdf"] ;;
         let '(success, stdout, stderr) := r in
         if success then Setup.print Setup.InstalledViaWinget ;; Setup.ret true
         else Setup.print (Setup.WingetFailed stderr) ;; Setup.ret false
       else Setup.ret false) ;;
    if installed then Setup.ret true
    else Setup.print Setup.WindowsManualInstructions ;; Setup.ret false.

Definition install_wkhtmltopdf : Setup.M bool :=
  let system := Str.lower (Setup.system H) in
  if String.eqb system "darwin" then install_wkhtmltopdf_macos
  else if String.eqb system "linux" then install_wkhtmltopdf_linux
  else if String.eqb system "windows" then install_wkhtmltopdf_windows
  else Setup.print (Setup.UnsupportedPlatform system) ;; Setup.ret false.

(** The paths of the generation test. *)
Definition test_dir : PurePath.t := PurePath.Path "test_pdf_output".
Definition html_file : PurePath.t := PurePath.joinpath test_dir "test.html".
Definition pdf_file : PurePath.t := PurePath.joinpath test_dir "test.pdf".

(** The command of the generation test. *)
Definition test_command : list string :=
  ["wkhtmltopdf";
   "--page-size"; "Letter";
   "--margin-top"; "0.75in";
   "--margin-right"; "0.75in";
   "--margin-bottom"; "0.75in";
   "--margin-left"; "0.75in";
   PurePath.str html_file;
   PurePath.str pdf_file].

(** [test_dir.mkdir(exist_ok=True)]: for a path of one component this is
    [mkdir -p]; the [OSError] leaves the function. *)
Definition make_test_dir : Setup.M unit :=
  fun s =>
    match FS.mkdir_p (Setup.fs s) test_dir with
    | Some f => (Val tt, Setup.mkState f (Setup.trace s))
    | None => (Exc (Exception (OSError (PurePath.str test_dir))), s)
    end.

(** [with open(html_file, 'w') as f: f.write(test_html)]: whether it
    succeeded. *)
Definition write_test_html : Setup.M bool :=
  fun s =>
    match Setup.open_w (Setup.fs s) html_file with
    | Some f => (Val true, Setup.mkState f (Setup.trace s))
    | None => (Val false, s)
    end.

(** The clean-up: the three removals in a [try] whose bare [except] passes,
    so that the first one that fails ends it. *)
Definition clean_up : Setup.M unit :=
  fun s =>
    match Setup.unlink (Setup.fs s) html_file with
    | None => (Val tt, s)
    | Some f1 =>
        match Setup.unlink f1 pdf_file with
        | None => (Val tt, Setup.mkState f1 (Setup.trace s))
        | Some f2 =>
            match Setup.rmdir f2 test_dir with
            | None => (Val tt, Setup.mkState f2 (Setup.trace s))
            | Some f3 => (Val tt, Setup.mkState f3 (Setup.trace s))
            end
        end
    end.

Definition pdf_exists : Setup.M bool :=
  fun s => (Val (FS.exists_ (Setup.fs s) pdf_file), s).

Definition test_pdf_generation : Setup.M bool :=
  Setup.print Setup.TestingPdfGeneration ;;
  make_test_dir ;;
  written <- write_test_html ;;
  if negb written then
    Setup.print (Setup.PdfTestError (Setup.FileFailure (PurePath.str html_file))) ;;
    Setup.ret false
  else
    r <- run_command test_command ;;
    let '(success, stdout, stderr) := r in
    produced <- (if success then pdf_exists else Setup.ret false) ;;
    if produced then
      Setup.print (Setup.PdfTestSuccessful (PurePath.str pdf_file)) ;;
      clean_up ;;
      Setup.ret true
    else
      Setup.print Setup.PdfTestFailed ;;
      (if Str.truthy stderr then Setup.print (Setup.PdfTestStderr stderr) else Setup.pass) ;;
      Setup.ret false.

(** [check_wkhtmltopdf() and test_pdf_generation()]. *)
Definition check_and_test : Setup.M bool :=
  installed <- check_wkhtmltopdf ;;
  if installed then test_pdf_generation else Setup.ret false.

Definition main : Setup.M unit :=
  Setup.print Setup.PdfSetupBanner ;;
  ok <- check_python_version ;;
  if negb ok then Setup.print Setup.UpgradePython ;; Setup.sys_exit 1
  else
    ready <- check_and_test ;;
    if ready then Setup.print Setup.SetupComplete ;; Setup.sys_exit 0
    else
      Setup.print Setup.InstallingWkhtmltopdf ;;
      installed <- install_wkhtmltopdf ;;
      ready <- (if installed then check_and_test else Setup.ret false) ;;
      if ready then Setup.print Setup.SetupComplete ;; Setup.sys_exit 0
      else
        Setup.print Setup.SetupIncomplete ;;
        let system := Str.lower (Setup.system H) in
        (if String.eqb system "darwin" then Setup.print Setup.MacosHint
         else if String.eqb system "linux" then Setup.print Setup.LinuxHint
         else if String.eqb system "windows" then Setup.print Setup.WindowsHint
         else Setup.pass) ;;
        Setup.sys_exit 1.

End Script.

End WkhtmltopdfSetup.

(** *** The file run as a program: the first [main], then the second. *)

Definition setup_pdf_program (H : Setup.Host) : Setup.M unit :=
  Setup.bind (PlaywrightSetup.main H) (fun _ => WkhtmltopdfSetup.main H).

(** *** Reading a set-up trace *)

(** The programs run, in order, with what came of them. *)
Fixpoint programs_run (evs : list Setup.Event) : list (list string * option Setup.Outcome) :=
  match evs with
  | [] => []
  | Setup.Ran argv _ result :: r => (argv, result) :: programs_run r
  | _ :: r => programs_run r
  end.

(** The run completed with return code 0. *)
Definition returned_zero (result : option Setup.Outcome) : bool :=
  match result with
  | Some (Setup.Completed returncode _ _) => Z.eqb returncode 0
  | _ => false
  end.

(** The program could be started and ran to its end. *)
Definition completed (result : option Setup.Outcome) : bool :=
  match result with
  | Some (Setup.Completed _ _ _) => true
  | _ => false
  end.

(** Every program run was found by the look-up that comes just before its
    package manager is announced: in the trace of the Linux installer, a
    run follows a successful [which] of its first word. *)
Fixpoint runs_follow_lookups (found : list string) (evs : list Setup.Event) : bool :=
  match evs with
  | [] => true
  | Setup.Which name true :: r => runs_follow_lookups (name :: found) r
  | Setup.Ran argv _ _ :: r =>
      existsb (String.eqb (hd "" argv)) found && runs_follow_lookups found r
  | _ :: r => runs_follow_lookups found r
  end.

(** A host for the examples: Linux, Python 3.11, [apt-get] and [dnf] on the
    [PATH]; [apt-get install] fails, everything else returns 0 without
    touching the file system. *)
Definition demo_host : Setup.Host :=
  Setup.mkHost "/usr/bin/python3" (Setup.mkVersion 3 11 2) "Linux"
    (fun _ name => String.eqb name "apt-get" || String.eqb name "dnf")
    (fun _ f argv =>
       (match argv with
        | "apt-get" :: "install" :: _ => Setup.Completed 100 "" "E: Unable to locate package"
        | _ => Setup.Completed 0 "" ""
        end, f))
    (fun _ _ => false).

(** Whether the three (two, off Linux) installation commands of the first
    script did their part: [pip] and the browser installation returned 0,
    and on Linux the installation of the system dependencies ran to its
    end. *)
Definition playwright_installed (linux : bool)
           (runs : list (list string * option Setup.Outcome)) : bool :=
  match runs with
  | (_, o1) :: (_, o2) :: rest =>
      returned_zero o1 && returned_zero o2
      && (if linux
          then match rest with
               | (_, o3) :: _ => completed o3
               | [] => false
               end
          else true)
  | _ => false
  end.

(** The last program run returned 0. *)
Definition last_returned_zero (runs : list (list string * option Setup.Outcome)) : bool :=
  match rev runs with
  | (_, o) :: _ => returned_zero o
  | [] => false
  end.

(** A host whose Playwright test fails, everything else returning 0. *)
Definition test_fails_host : Setup.Host :=
  Setup.mkHost "/usr/bin/python3" (Setup.mkVersion 3 11 2) "Darwin"
    (fun _ _ => false)
    (fun _ f argv =>
       (match argv with
        | _ :: "-c" :: _ => Setup.Completed 1 "" "playwright._impl._errors.Error"
        | _ => Setup.Completed 0 "" ""
        end, f))
    (fun _ _ => false).

(** A manager of the Linux installer is well formed when it has a command
    and its second command, if any, runs the program of the first: each
    manager is then run under the name it was looked up by. *)
Definition same_program (commands : list (list string)) : Prop :=
  commands <> []
  /\ (hd "" (nth 1 commands []) = hd "" (nth 0 commands [])
      \/ List.length commands <= 1).

(** The two programs of a generation test that passed: the version query
    and the test command, both returning 0. *)
Definition passed_test (runs : list (list string * option Setup.Outcome)) : Prop :=
  exists o1 o2,
    runs = [(["wkhtmltopdf"; "--version"], Some o1);
            (WkhtmltopdfSetup.test_command, Some o2)]
    /\ returned_zero (Some o1) = true
    /\ returned_zero (Some o2) = true.

(** A host with a working wkhtmltopdf on the [PATH]: asked for a
    conversion, it writes the PDF; every program returns 0. *)
Definition ready_host : Setup.Host :=
  Setup.mkHost "/usr/bin/python3" (Setup.mkVersion 3 11 2) "Darwin"
    (fun _ name => String.eqb name "wkhtmltopdf")
    (fun _ f argv =>
       (Setup.Completed 0 "wkhtmltopdf 0.12.6" "",
        match argv with
        | "wkhtmltopdf" :: "--page-size" :: _ =>
            FS.write_file f WkhtmltopdfSetup.pdf_file
        | _ => f
        end))
    (fun _ _ => false).

(* ================================================================== *)
(** * Properties *)

(** ** The path and file-system models agree with Python on samples *)

Example path_examples :
  PurePath.str (PurePath.Path "/x/./y//z.html") = "/x/y/z.html"
  /\ PurePath.parts (PurePath.Path "///x/y") = ["x"; "y"]
  /\ PurePath.anchor (PurePath.Path "//x/y") = "//"
  /\ PurePath.str (PurePath.Path "") = "."
  /\ PurePath.suffix (PurePath.Path "Report.HTML") = ".HTML"
  /\ PurePath.stem (PurePath.Path "a.tar.html") = "a.tar"
  /\ PurePath.suffix (PurePath.Path ".html") = ""
  /\ PurePath.stem (PurePath.Path "x.") = "x."
  /\ PurePath.stem (PurePath.Path "..html") = "."
  /\ option_map PurePath.str (PurePath.with_suffix (PurePath.Path "a/b/notes.html") ".pdf")
     = Some "a/b/notes.pdf"
  /\ option_map PurePath.str (PurePath.with_suffix (PurePath.Path "a/.html") ".pdf")
     = Some "a/.html.pdf"
  /\ PurePath.with_suffix (PurePath.Path "./") ".pdf" = None
  /\ PurePath.str (PurePath.joinpath (PurePath.Path "") "notes.pdf") = "notes.pdf"
  /\ PurePath.str (PurePath.joinpath (PurePath.Path "a") "/b") = "/b"
  /\ PurePath.str (PurePath.parent (PurePath.Path "notes.html")) = "."
  /\ PurePath.str (PurePath.parent (PurePath.Path "/")) = "/".
Proof. repeat split; reflexivity. Qed.


Example fs_examples :
  FS.exists_ demo_fs (PurePath.Path "maps/a.html") = true
  /\ FS.is_file demo_fs (PurePath.Path "/work/maps/../notes.html") = true
  /\ FS.is_dir demo_fs (PurePath.Path "maps") = true
  /\ FS.exists_ demo_fs (PurePath.Path "nowhere/../maps") = false
  /\ FS.os_path_exists demo_fs "" = false
  /\ FS.os_path_exists demo_fs "notes.html/" = false
  /\ FS.os_path_exists demo_fs "maps/" = true
  /\ FS.os_path_exists demo_fs "/" = true
  /\ map PurePath.str (FS.glob_star_html demo_fs (PurePath.Path "maps"))
     = ["maps/a.html"; "maps/b.html"; "maps/c.html"]
  /\ FS.glob_star_html demo_fs (PurePath.Path "notes.html") = []
  /\ option_map (fun fs => FS.is_dir fs (PurePath.Path "PDF/x/y"))
       (FS.mkdir_p demo_fs (PurePath.Path "PDF/x/y")) = Some true
  /\ FS.mkdir_p demo_fs (PurePath.Path "PDF") = Some demo_fs_with_pdf_dir
  /\ FS.mkdir_p demo_fs (PurePath.Path "notes.html/PDF") = None
  /\ FS.mkdir_p demo_fs (PurePath.Path "notes.html") = None
  /\ option_map FS.root (FS.mkdir_p demo_fs (PurePath.Path "maps")) = Some (FS.root demo_fs)
  /\ FS.is_file (FS.write_file demo_fs (PurePath.Path "PDF/a.pdf")) (PurePath.Path "/work/PDF/a.pdf") = true
  /\ PurePath.str (FS.resolve demo_fs (PurePath.Path "maps/../notes.html")) = "/work/notes.html".
Proof. repeat split; reflexivity. Qed.

(* ================================================================== *)
(** ** A unary logic for traces *)

Section EmitsRules.

Variable W : World.
Variable P : Event -> Prop.

Lemma emits_ret {A} (a : A) : emits P (ret a).
Proof. intros s; exists []; simpl; rewrite app_nil_r; auto. Qed.

Lemma emits_raise {A} (x : exn) : emits P (@raise A x).
Proof. intros s; exists []; simpl; rewrite app_nil_r; auto. Qed.

Lemma emits_sys_exit {A} (c : Z) : emits P (@sys_exit A c).
Proof. apply emits_raise. Qed.

Lemma emits_get_fs : emits P get_fs.
Proof. intros s; exists []; simpl; rewrite app_nil_r; auto. Qed.

Lemma emits_new_handle : emits P new_handle.
Proof. intros s; exists []; simpl; rewrite app_nil_r; auto. Qed.

Lemma emits_emit (e : Event) : P e -> emits P (emit e).
Proof. intros He s; exists [e]; simpl; auto. Qed.

Lemma emits_print (l : Line) : P (Printed l) -> emits P (print l).
Proof. apply emits_emit. Qed.

Lemma emits_bind {A B} (m : M A) (k : A -> M B) :
  emits P m -> (forall a, emits P (k a)) -> emits P (bind m k).
Proof.
  intros Hm Hk s. unfold bind.
  destruct (Hm s) as (e1 & E1 & F1).
  destruct (m s) as [[a | x] s1]; simpl in *.
  - destruct (Hk a s1) as (e2 & E2 & F2).
    exists (e1 ++ e2). rewrite E2, E1, app_assoc. split; auto.
    apply Forall_app; auto.
  - exists e1; auto.
Qed.

Lemma emits_try_except {A} (body : M A) (handler : pyerr -> M A) :
  emits P body -> (forall e, emits P (handler e)) -> emits P (try_except body handler).
Proof.
  intros Hb Hh s. unfold try_except.
  destruct (Hb s) as (e1 & E1 & F1).
  destruct (body s) as [[a | [e | | c]] s1]; simpl in *; eauto.
  destruct (Hh e s1) as (e2 & E2 & F2).
  exists (e1 ++ e2). rewrite E2, E1, app_assoc. split; auto.
  apply Forall_app; auto.
Qed.

Lemma emits_try_except_interrupt {A} (body on_interrupt : M A) :
  emits P body -> emits P on_interrupt ->
  emits P (try_except_interrupt body on_interrupt).
Proof.
  intros Hb Hh s. unfold try_except_interrupt.
  destruct (Hb s) as (e1 & E1 & F1).
  destruct (body s) as [[a | [e | | c]] s1]; simpl in *; eauto.
  destruct (Hh s1) as (e2 & E2 & F2).
  exists (e1 ++ e2). rewrite E2, E1, app_assoc. split; auto.
  apply Forall_app; auto.
Qed.

Lemma emits_print_each (ls : list Line) :
  (forall l, P (Printed l)) -> emits P (print_each ls).
Proof.
  intros HP. induction ls as [| l r IH]; simpl.
  - apply emits_ret.
  - apply emits_bind; [apply emits_print, HP | intros _; exact IH].
Qed.

Lemma emits_mkdir (p : PurePath.t) :
  (forall ok, P (Mkdir p ok)) -> emits P (mkdir p).
Proof.
  intros HP s. unfold mkdir.
  destruct (FS.mkdir_p (fs s) p); simpl; eexists; split; eauto.
Qed.

Lemma emits_call (c : Call) :
  (forall r, P (Called c r)) -> emits P (call W c).
Proof. intros HP s. unfold call; simpl. eexists; split; eauto. Qed.

Lemma emits_page_pdf (page : nat) (o : PdfOptions) :
  (forall r, P (Called (Pdf page o) r)) -> emits P (page_pdf W page o).
Proof.
  intros HP s. unfold page_pdf.
  destruct (fails W (trace s) (Pdf page o)); simpl; eexists; split; eauto.
Qed.

Lemma emits_with_playwright {A} (body : M A) :
  (forall r, P (Called Start r)) -> (forall r, P (Called Stop r)) ->
  emits P body -> emits P (with_playwright W body).
Proof.
  intros H1 H2 Hb. unfold with_playwright.
  destruct (playwright_available W); [| apply emits_raise].
  apply emits_bind; [apply emits_call, H1 | intros _].
  intros s. destruct (Hb s) as (e1 & E1 & F1).
  destruct (body s) as [r s1]; simpl in *.
  unfold call; simpl.
  exists (e1 ++ [Called Stop (fails W (trace s1) Stop)]).
  split.
  - destruct (fails W (trace s1) Stop); simpl; rewrite E1, app_assoc; reflexivity.
  - apply Forall_app; auto.
Qed.

End EmitsRules.

(* ================================================================== *)
(** ** One request, then the loop over the requests *)

Lemma report_app (a b : list Event) : report (a ++ b) = report a ++ report b.
Proof.
  induction a as [| e a IH]; simpl; auto.
  destruct (outcome_of e); simpl; rewrite IH; reflexivity.
Qed.

Lemma attempts_app (a b : list Event) : attempts (a ++ b) = attempts a + attempts b.
Proof. unfold attempts. rewrite filter_app, length_app. reflexivity. Qed.

Lemma successes_app (a b : list Outcome) : successes (a ++ b) = successes a + successes b.
Proof. unfold successes. rewrite filter_app, length_app. reflexivity. Qed.

Section PerFile.

Variable W : World.

Ltac engine_cases :=
  repeat (cbn;
          match goal with
          | |- context [match fails W ?h ?c with _ => _ end] =>
              let E := fresh "E" in destruct (fails W h c) eqn:E
          | |- context [Called ?c (fails W ?h ?c)] =>
              let E := fresh "E" in destruct (fails W h c) eqn:E
          end).

(** One pass through the loop body never raises, appends one segment to the
    trace, and appends the destination to the list exactly when the segment
    reports a success. *)
Lemma convert_one_run (b : nat) (pdf_path f : PurePath.t) (g : list string) (s : State) :
  exists g' s' seg,
    convert_one W b pdf_path f g s = (Val g', s')
    /\ trace s' = trace s ++ seg
    /\ request_run b f seg
    /\ g' = g ++ repeat (PurePath.str (batch_pdf_output_path pdf_path f))
                        (successes (report seg)).
Proof.
  unfold convert_one, try_except, bind, new_page, new_handle, file_url_of,
    path_exists, get_fs, ret, call, page_pdf, print, emit, request_run.
  engine_cases.
  all: try match goal with
         | |- context [if FS.exists_ ?f ?p then _ else _] => destruct (FS.exists_ f p) eqn:?
         end; cbn.
  all: do 3 eexists; split; [reflexivity |]; cbn.
  all: split; [rewrite <- ?app_assoc; reflexivity |].
  all: split; [| cbn; rewrite ?app_nil_r; reflexivity].
  all: split; [do 3 eexists; reflexivity |].
  all: split; [reflexivity |].
  all: split; [repeat constructor |].
  all: split; [repeat constructor; cbn; apply Nat.eqb_refl |].
  all: eexists; split; [reflexivity |]; split; [reflexivity |].
  all: cbn; intros c msg H; intuition (try congruence).
Qed.

(** When [new_page] has returned a page and [goto], [wait_for_timeout] or
    [pdf] raises, the request ends with that page still open: nothing in
    its segment closes it.  When no call raises, the page is closed. *)
Lemma convert_one_open_pages (b : nat) (pdf_path f : PurePath.t) (g : list string)
      (s : State) (opened : list nat) :
  ~ In (fresh s) opened ->
  fails W (trace s) (NewPage b (fresh s)) = None ->
  exists seg,
    trace (snd (convert_one W b pdf_path f g s)) = trace s ++ seg
    /\ ((forall c msg, ~ In (Called c (Some msg)) seg) ->
        open_pages_from opened seg = opened)
    /\ (forall c msg, In (Called c (Some msg)) seg -> c <> PageClose (fresh s) ->
        open_pages_from opened seg = opened ++ [fresh s]).
Proof.
  intros Hfresh Hnew.
  assert (Hclose : filter (fun q => negb (Nat.eqb q (fresh s))) (opened ++ [fresh s])
                   = opened).
  { rewrite filter_app. simpl. rewrite Nat.eqb_refl. simpl. rewrite app_nil_r.
    clear - Hfresh. induction opened as [| q r IH]; simpl in *; auto.
    destruct (Nat.eqb q (fresh s)) eqn:E.
    - apply Nat.eqb_eq in E. tauto.
    - simpl. rewrite IH; tauto. }
  unfold convert_one, try_except, bind, new_page, new_handle, file_url_of,
    path_exists, get_fs, ret, call, page_pdf, print, emit.
  cbn. rewrite Hnew.
  engine_cases.
  all: try match goal with
         | |- context [if FS.exists_ ?f ?p then _ else _] => destruct (FS.exists_ f p) eqn:?
         end; cbn.
  all: eexists; split; [rewrite <- ?app_assoc; reflexivity |].
  all: cbn; rewrite ?Hclose.
  all: split; [intros Hno; try reflexivity;
               exfalso; eapply Hno; cbn; eauto 10 |].
  all: intros c msg Hin Hc; try reflexivity.
  all: cbn in Hin; intuition (try congruence).
Qed.

(** The loop never raises; its trace is one segment per file, in order. *)
Lemma for_html_files_run (b : nat) (pdf_path : PurePath.t) (files : list PurePath.t) :
  forall (g : list string) (s : State),
  exists g' s' segs,
    for_html_files W b pdf_path files g s = (Val g', s')
    /\ trace s' = trace s ++ List.concat segs
    /\ Forall2 (request_run b) files segs
    /\ List.length g' = List.length g + successes (report (List.concat segs)).
Proof.
  induction files as [| f rest IH]; intros g s; simpl.
  - exists g, s, []. simpl. rewrite app_nil_r. repeat split; auto.
  - unfold bind.
    destruct (convert_one_run b pdf_path f g s) as (g1 & s1 & seg & E1 & T1 & R1 & G1).
    rewrite E1.
    destruct (IH g1 s1) as (g2 & s2 & segs & E2 & T2 & R2 & G2).
    exists g2, s2, (seg :: segs). simpl.
    repeat split; auto.
    + rewrite T2, T1, app_assoc. reflexivity.
    + rewrite G2, G1, report_app, successes_app, length_app, repeat_length. lia.
Qed.

End PerFile.

(* ================================================================== *)
(** ** The shape of a batch run *)

Section BatchRun.

Variable W : World.

(** A batch that finds its directory, can make its output directory, finds
    at least one matching entry and gets a browser: the trace is the
    preamble, one segment per file, and the two closing calls. *)
Lemma batch_run (s : State) (html_dir : string) (pdf_dir : option string) (f1 : FS.t) :
  let html_path := PurePath.Path html_dir in
  let pdf_path := batch_pdf_path html_path pdf_dir in
  let files := FS.glob_star_html f1 html_path in
  FS.exists_ (fs s) html_path = true ->
  FS.mkdir_p (fs s) pdf_path = Some f1 ->
  files <> [] ->
  playwright_available W = true ->
  (forall h, fails W h Start = None) ->
  (forall h b, fails W h (Launch b) = None) ->
  exists s' g segs rc rs,
    batch_convert_directory_async W html_dir pdf_dir s = (batch_result g rc rs, s')
    /\ trace s' = trace s
                  ++ [Mkdir pdf_path true; Printed (ConvertingFiles (List.length files));
                      Called Start None; Called (Launch (fresh s)) None]
                  ++ List.concat segs
                  ++ [Called (BrowserClose (fresh s)) rc; Called Stop rs]
    /\ Forall2 (request_run (fresh s)) files segs
    /\ List.length g = successes (report (List.concat segs))
    /\ (exists h, rc = fails W h (BrowserClose (fresh s)))
    /\ (exists h, rs = fails W h Stop).
Proof.
  intros html_path pdf_path files Hex Hmk Hfiles Hav Hstart Hlaunch.
  unfold batch_convert_directory_async, bind at 1, path_exists, bind at 1, get_fs, ret.
  fold html_path. rewrite Hex. cbn [negb].
  fold pdf_path. unfold bind at 1, mkdir. rewrite Hmk.
  unfold bind at 1. cbn [fs]. fold files.
  destruct files as [| f0 rest] eqn:Efiles; [congruence |]. cbn [nonempty negb].
  unfold with_playwright. rewrite Hav.
  unfold bind at 1, print, emit. cbn [fs trace fresh].
  unfold bind at 1, call. cbn [fs trace fresh]. rewrite Hstart.
  unfold bind at 1, launch, bind at 1, new_handle. cbn [fs trace fresh].
  unfold bind at 1, call. cbn [fs trace fresh]. rewrite Hlaunch.
  unfold ret at 1. unfold bind at 1.
  match goal with
  | |- context [for_html_files W ?b ?p ?fl ?g ?st] =>
      destruct (for_html_files_run W b p fl g st) as (g' & s1 & segs & E & T & R & G)
  end.
  rewrite E. unfold bind at 1, call. cbn [fs trace fresh].
  set (rc := fails W (trace s1) (BrowserClose (fresh s))).
  set (rs := fails W (trace s1 ++ [Called (BrowserClose (fresh s)) rc]) Stop).
  exists (mkState (fs s1)
            ((trace s1 ++ [Called (BrowserClose (fresh s)) rc]) ++ [Called Stop rs])
            (fresh s1)), g', segs, rc, rs.
  split; [| split; [| split; [| split; [| split]]]].
  - destruct rc; cbn; fold rs; destruct rs; reflexivity.
  - cbn. rewrite T. cbn. rewrite <- !app_assoc. cbn. reflexivity.
  - exact R.
  - cbn in G. exact G.
  - eexists; reflexivity.
  - eexists; reflexivity.
Qed.

End BatchRun.

(** What the segments of a batch add up to. *)
Lemma segments_report (b : nat) (files : list PurePath.t) (segs : list (list Event)) :
  Forall2 (request_run b) files segs ->
  List.length (report (List.concat segs)) = List.length files
  /\ attempts (List.concat segs) = List.length files
  /\ Forall (fun e => is_session_event e = false) (List.concat segs)
  /\ Forall (fun e => uses_browser b e = true) (List.concat segs).
Proof.
  induction 1 as [| f seg files segs R _ IH]; simpl.
  - repeat split; constructor.
  - destruct IH as (IH1 & IH2 & IH3 & IH4).
    destruct R as (_ & A & S1 & S2 & o & Ro & _).
    rewrite report_app, attempts_app, !length_app, Ro, A, IH1, IH2. simpl.
    repeat split; auto; apply Forall_app; auto.
Qed.

Lemma successes_le (os : list Outcome) : successes os <= List.length os.
Proof. unfold successes. apply filter_length_le. Qed.

(* ================================================================== *)
(** ** Claims about the batch conversion *)

(** C1, as the specification states it, fails: the list returned by the
    batch holds the generated files only.  In [/work/maps] three entries
    match [*.html]; when the engine fails on [a.html] the batch returns two
    entries, not three. *)
Lemma C1_returned_list_drops_failures :
  List.length (FS.glob_star_html demo_fs (PurePath.Path "maps")) = 3
  /\ fst (batch_convert_directory_async (goto_fails_for "a.html") "maps" None (boot demo_fs))
     = Val ["PDF/b.pdf"; "PDF/c.pdf"].
Proof. split; reflexivity. Qed.

(** C1, amended: for a directory with N entries matching [*.html] (listed,
    as the code does, once the output directory has been made), a batch
    whose browser session starts and stops normally prints exactly one
    outcome line (success or failure) per entry, and returns the list of the
    generated files: as many entries as there are success lines, at most N. *)
Theorem C1_one_outcome_per_discovered_file
        (W : World) (s : State) (html_dir : string) (pdf_dir : option string) (f1 : FS.t) :
  let html_path := PurePath.Path html_dir in
  let files := FS.glob_star_html f1 html_path in
  FS.exists_ (fs s) html_path = true ->
  FS.mkdir_p (fs s) (batch_pdf_path html_path pdf_dir) = Some f1 ->
  session_starts W ->
  session_stops W ->
  exists g s' evs,
    batch_convert_directory_async W html_dir pdf_dir s = (Val g, s')
    /\ trace s' = trace s ++ evs
    /\ List.length (report evs) = List.length files
    /\ List.length g = successes (report evs)
    /\ List.length g <= List.length files.
Proof.
  intros html_path files Hex Hmk (Hav & Hstart & Hlaunch) (Hclose & Hstop).
  destruct files as [| f0 rest] eqn:Efiles.
  - (* no matching entry: nothing to report *)
    exists [], (mkState f1 (trace s ++ [Mkdir (batch_pdf_path html_path pdf_dir) true;
                                        Printed (NoHtmlFilesFoundIn html_dir)]) (fresh s)).
    eexists. split; [| split; [reflexivity | repeat split; simpl; auto]].
    unfold batch_convert_directory_async, bind, path_exists, get_fs, ret, mkdir, print, emit.
    fold html_path. cbn. rewrite Hex. cbn. rewrite Hmk. cbn.
    fold files. rewrite Efiles. cbn. rewrite <- app_assoc. reflexivity.
  - destruct (batch_run W s html_dir pdf_dir f1) as
      (s' & g & segs & rc & rs & E & T & R & G & (h1 & Hrc) & (h2 & Hrs)); auto.
    + fold html_path files. rewrite Efiles. discriminate.
    + fold html_path files in T, R. rewrite Efiles in T, R.
      rewrite Hclose in Hrc. rewrite Hstop in Hrs. subst rc rs.
      destruct (segments_report _ _ _ R) as (L & _).
      exists g, s'. eexists. split; [exact E |]. split; [exact T |].
      cbn [app report outcome_of]. rewrite report_app.
      cbn [app report outcome_of]. rewrite app_nil_r.
      repeat split; auto.
      rewrite G, <- L. apply successes_le.
Qed.

Lemma C1_witness :
  exists g s' evs,
    batch_convert_directory_async (goto_fails_for "a.html") "maps" None (boot demo_fs)
    = (Val g, s')
    /\ trace s' = trace (boot demo_fs) ++ evs
    /\ List.length (report evs)
       = List.length (FS.glob_star_html demo_fs_with_pdf_dir (PurePath.Path "maps"))
    /\ List.length g = successes (report evs)
    /\ List.length g
       <= List.length (FS.glob_star_html demo_fs_with_pdf_dir (PurePath.Path "maps")).
Proof.
  apply (C1_one_outcome_per_discovered_file
           (goto_fails_for "a.html") (boot demo_fs) "maps" None demo_fs_with_pdf_dir).
  - reflexivity.
  - reflexivity.
  - repeat split.
  - repeat split.
Defined.



(** The example of section 8: three requests, the engine throwing on the
    second, are reported as success, failure, success. *)
Example partial_failure_report :
  let run := batch_convert_directory_async (goto_fails_for "b.html") "maps" None
                                           (boot demo_fs) in
  fst run = Val ["PDF/a.pdf"; "PDF/c.pdf"]
  /\ report (trace (snd run))
     = [Succeeded "a.pdf";
        Failed "b.html" (Some (EngineError "net::ERR_FAILED"));
        Succeeded "c.pdf"].
Proof. split; reflexivity. Qed.

(** C7: a batch that converts at least one file opens the browser once,
    before the first request, and closes it once, after the last one,
    whatever the engine does during the requests: the trace is a preamble
    without engine sessions or pages, the launch, the requests (all on the
    launched browser, none of them launching or closing a browser), the
    close of the launched browser, and the exit from Playwright. *)
Theorem C7_browser_launched_and_closed_once
        (W : World) (s : State) (html_dir : string) (pdf_dir : option string) (f1 : FS.t) :
  let html_path := PurePath.Path html_dir in
  let files := FS.glob_star_html f1 html_path in
  FS.exists_ (fs s) html_path = true ->
  FS.mkdir_p (fs s) (batch_pdf_path html_path pdf_dir) = Some f1 ->
  files <> [] ->
  session_starts W ->
  exists r s' b before requests rc after,
    batch_convert_directory_async W html_dir pdf_dir s = (r, s')
    /\ trace s' = trace s ++ before ++ [Called (Launch b) None] ++ requests
                          ++ [Called (BrowserClose b) rc] ++ after
    /\ Forall (fun e => is_session_event e = false /\ is_page_event e = false) before
    /\ Forall (fun e => is_session_event e = false /\ uses_browser b e = true) requests
    /\ attempts requests = List.length files
    /\ Forall (fun e => is_session_event e = false /\ is_page_event e = false) after.
Proof.
  intros html_path files Hex Hmk Hfiles (Hav & Hstart & Hlaunch).
  destruct (batch_run W s html_dir pdf_dir f1) as
    (s' & g & segs & rc & rs & E & T & R & _); auto.
  fold html_path files in T, R.
  destruct (segments_report _ _ _ R) as (_ & A & S1 & S2).
  exists (batch_result g rc rs), s', (fresh s).
  exists [Mkdir (batch_pdf_path html_path pdf_dir) true;
          Printed (ConvertingFiles (List.length files)); Called Start None],
         (List.concat segs), rc, [Called Stop rs].
  split; [exact E |].
  split. { rewrite T. reflexivity. }
  split. { repeat constructor. }
  split. { rewrite Forall_forall in *. intros e He. split; auto. }
  split. { exact A. }
  repeat constructor.
Qed.

Lemma C7_witness :
  exists r s' b before requests rc after,
    batch_convert_directory_async (goto_fails_for "b.html") "maps" None (boot demo_fs)
    = (r, s')
    /\ trace s' = trace (boot demo_fs) ++ before ++ [Called (Launch b) None] ++ requests
                  ++ [Called (BrowserClose b) rc] ++ after
    /\ Forall (fun e => is_session_event e = false /\ is_page_event e = false) before
    /\ Forall (fun e => is_session_event e = false /\ uses_browser b e = true) requests
    /\ attempts requests
       = List.length (FS.glob_star_html demo_fs_with_pdf_dir (PurePath.Path "maps"))
    /\ Forall (fun e => is_session_event e = false /\ is_page_event e = false) after.
Proof.
  apply (C7_browser_launched_and_closed_once
           (goto_fails_for "b.html") (boot demo_fs) "maps" None demo_fs_with_pdf_dir).
  - vm_compute; reflexivity.
  - vm_compute; reflexivity.
  - vm_compute; discriminate.
  - repeat split.
Defined.

(** C6 does not hold of the code: [page.close()] is the last call of the
    [try] block, so a request that raises before it leaves its page open.
    With an engine failing on [a.html], page 1 is still open when the
    request for [b.html] asks for page 2, and it stays open until the
    browser is closed. *)
Theorem C6_page_left_open_after_failed_request :
  let run := batch_convert_directory_async (goto_fails_for "a.html") "maps" None
                                           (boot demo_fs) in
  exists before after,
    trace (snd run) = before ++ Called (NewPage 0 2) None :: after
    /\ report before = [Failed "a.html" (Some (EngineError "net::ERR_FAILED"))]
    /\ open_pages before = [1]
    /\ ~ In (Called (PageClose 1) None) (trace (snd run)).
Proof.
  eexists [_; _; _; _; _; _; _], _.
  split; [vm_compute; reflexivity |].
  split; [reflexivity |].
  split; [reflexivity |].
  vm_compute. intuition discriminate.
Qed.

(** The same run without the failure: each page is closed before the next
    request starts. *)
Example pages_closed_between_requests :
  let run := batch_convert_directory_async healthy "maps" None (boot demo_fs) in
  exists before after,
    trace (snd run) = before ++ Called (NewPage 0 2) None :: after
    /\ report before = [Succeeded "a.pdf"]
    /\ open_pages before = [].
Proof.
  eexists [_; _; _; _; _; _; _; _; _; _], _.
  split; [vm_compute; reflexivity |].
  split; reflexivity.
Qed.

(* ================================================================== *)
(** ** Error paths *)

(** C10: when [html_file] does not exist, the single conversion prints that
    the file was not found and returns [None]; the file system is the one
    it started from, no directory is made and the engine is not called. *)
Theorem C10_missing_file_changes_nothing
        (W : World) (s : State) (html_file : string) (output_dir : option string) :
  FS.os_path_exists (fs s) html_file = false ->
  convert_html_to_pdf_async W html_file output_dir s
  = (Val None, mkState (fs s) (trace s ++ [Printed (HtmlFileNotFound html_file)]) (fresh s)).
Proof.
  intros H. unfold convert_html_to_pdf_async, bind, get_fs, print, emit, ret.
  cbn. rewrite H. reflexivity.
Qed.

Lemma C10_witness :
  FS.os_path_exists demo_fs "maps/missing.html" = false
  /\ convert_html_to_pdf_async healthy "maps/missing.html" (Some "out") (boot demo_fs)
     = (Val None, mkState demo_fs [Printed (HtmlFileNotFound "maps/missing.html")] 0).
Proof.
  split; [reflexivity |].
  apply (C10_missing_file_changes_nothing healthy (boot demo_fs) "maps/missing.html"
                                          (Some "out")).
  reflexivity.
Defined.

(* ================================================================== *)
(** ** The formatting of every rasterization request *)

Section Formatting.

Variable W : World.

Lemma pdf_options_fixed (destination : string) : fixed_formatting (pdf_options destination).
Proof. repeat split. Qed.

Ltac emits_step :=
  first
    [ apply emits_bind
    | apply emits_ret
    | apply emits_raise
    | apply emits_sys_exit
    | apply emits_get_fs
    | apply emits_new_handle
    | apply emits_print
    | apply emits_print_each
    | apply emits_mkdir
    | apply emits_call
    | apply emits_page_pdf
    | apply emits_try_except
    | apply emits_try_except_interrupt
    | apply emits_with_playwright
    | match goal with
      | |- forall _, _ => intro
      | |- pdf_request_ok (Called (Pdf _ (pdf_options _)) _) => apply pdf_options_fixed
      | |- pdf_request_ok _ => exact I
      | |- emits _ (if ?b then _ else _) => destruct b
      | |- emits _ (match ?x with _ => _ end) => destruct x
      | |- emits _ (let (_, _) := ?x in _) => destruct x
      end ].

Lemma convert_one_formatting (b : nat) (pdf_path f : PurePath.t) (g : list string) :
  emits pdf_request_ok (convert_one W b pdf_path f g).
Proof.
  unfold convert_one, new_page, file_url_of, path_exists. repeat emits_step.
Qed.

Lemma for_html_files_formatting (b : nat) (pdf_path : PurePath.t) (files : list PurePath.t) :
  forall g, emits pdf_request_ok (for_html_files W b pdf_path files g).
Proof.
  induction files as [| f rest IH]; intros g; simpl.
  - apply emits_ret.
  - apply emits_bind; [apply convert_one_formatting | exact IH].
Qed.

Lemma convert_formatting (html_file : string) (output_dir : option string) :
  emits pdf_request_ok (convert_html_to_pdf_async W html_file output_dir).
Proof.
  unfold convert_html_to_pdf_async, single_pdf_path, launch, new_page, file_url_of,
    path_exists.
  repeat emits_step.
Qed.

Lemma batch_formatting (html_dir : string) (pdf_dir : option string) :
  emits pdf_request_ok (batch_convert_directory_async W html_dir pdf_dir).
Proof.
  unfold batch_convert_directory_async, launch, path_exists.
  repeat first [apply for_html_files_formatting | emits_step].
Qed.

Lemma check_playwright_formatting : emits pdf_request_ok (check_playwright W).
Proof. unfold check_playwright. repeat emits_step. Qed.

(** C9: every [page.pdf] request that the single conversion, the batch
    conversion or either command line issues carries the fixed formatting:
    Letter pages, margins of 0.75 inch on the four sides, backgrounds
    printed, the page size declared by the style sheet preferred. *)
Theorem C9_every_pdf_request_has_fixed_formatting :
  (forall html_file output_dir,
      emits pdf_request_ok (convert_html_to_pdf_async W html_file output_dir))
  /\ (forall html_dir pdf_dir,
         emits pdf_request_ok (batch_convert_directory_async W html_dir pdf_dir))
  /\ (forall args, emits pdf_request_ok (pdf_generator_main W args))
  /\ (forall args, emits pdf_request_ok (generate_pdfs_main W args)).
Proof.
  split; [exact convert_formatting |].
  split; [exact batch_formatting |].
  split; intros args.
  - unfold pdf_generator_main, convert_html_to_pdf, batch_convert_directory.
    repeat first [apply convert_formatting | apply batch_formatting
                  | apply check_playwright_formatting | emits_step].
  - unfold generate_pdfs_main, gen_convert, convert_html_to_pdf, batch_convert_directory,
      path_exists.
    repeat first [apply convert_formatting | apply batch_formatting
                  | apply check_playwright_formatting | emits_step].
Qed.

End Formatting.

(** The requests are really issued: a healthy batch on [/work/maps] asks for
    three rasterizations. *)
Example batch_pdf_requests :
  pdf_targets (trace (snd (batch_convert_directory_async healthy "maps" None (boot demo_fs))))
  = ["PDF/a.pdf"; "PDF/b.pdf"; "PDF/c.pdf"].
Proof. reflexivity. Qed.

(* ================================================================== *)
(** ** Strings and paths *)

Lemma substring_0_all (s : string) : substring 0 (String.length s) s = s.
Proof. induction s as [| a s IH]; simpl; congruence. Qed.

Lemma substring_split (s : string) :
  forall i, i <= String.length s ->
  (substring 0 i s ++ substring i (String.length s - i) s)%string = s.
Proof.
  induction s as [| a s IH]; intros [| i] H; simpl in *; try lia; auto.
  - rewrite substring_0_all. reflexivity.
  - rewrite IH by lia. reflexivity.
Qed.

Lemma substring_length (s : string) :
  forall i n, i + n <= String.length s -> String.length (substring i n s) = n.
Proof.
  induction s as [| a s IH]; intros [| i] [| n] H; simpl in *; try lia; auto.
  all: try (rewrite IH by lia; reflexivity).
  all: apply IH; lia.
Qed.

Lemma append_length (a b : string) :
  String.length (a ++ b)%string = String.length a + String.length b.
Proof. induction a as [| c a IH]; simpl; congruence. Qed.

Lemma lower_length (s : string) : String.length (Str.lower s) = String.length s.
Proof. induction s as [| a s IH]; simpl; congruence. Qed.

Lemma mem_append (c : ascii) (a b : string) :
  Str.mem c (a ++ b)%string = Str.mem c a || Str.mem c b.
Proof.
  induction a as [| x a IH]; simpl; auto.
  rewrite IH, orb_assoc. reflexivity.
Qed.

Lemma mem_substring (c : ascii) (s : string) :
  Str.mem c s = false -> forall i n, Str.mem c (substring i n s) = false.
Proof.
  induction s as [| a s IH]; intros H [| i] [| n]; simpl in *; auto.
  all: apply orb_false_iff in H; destruct H as [H1 H2].
  - rewrite H1. simpl. apply IH; auto.
  - apply IH; auto.
  - apply IH; auto.
Qed.

Lemma split_without_sep (sep : ascii) (s : string) :
  Str.mem sep s = false -> Str.split sep s = [s].
Proof.
  induction s as [| a s IH]; simpl; auto.
  intros H. apply orb_false_iff in H. destruct H as [H1 H2].
  rewrite H1, (IH H2). reflexivity.
Qed.






Lemma part_ok_keep (c : string) : part_ok c -> PurePath.keep_part c = true.
Proof.
  intros (H1 & H2 & _). unfold PurePath.keep_part.
  apply String.eqb_neq in H1, H2. rewrite H1, H2. reflexivity.
Qed.






(** Parsing a single component. *)
Lemma Path_of_part (c : string) : part_ok c -> PurePath.Path c = PurePath.mk "" [c].
Proof.
  intros Hc. pose proof Hc as (H1 & H2 & H3). unfold PurePath.Path.
  rewrite (split_without_sep _ _ H3). simpl. rewrite (part_ok_keep c Hc).
  f_equal. destruct c as [| a r]; [congruence |].
  simpl in H3. apply orb_false_iff in H3. destruct H3 as [Ha _].
  unfold PurePath.splitroot. simpl. rewrite Ha. reflexivity.
Qed.

Lemma joinpath_part (p : PurePath.t) (c : string) :
  part_ok c ->
  PurePath.joinpath p c = PurePath.mk (PurePath.anchor p) (PurePath.parts p ++ [c]).
Proof.
  intros Hc. unfold PurePath.joinpath. rewrite (Path_of_part c Hc). reflexivity.
Qed.

Lemma name_snoc (a : string) (ps : list string) (c : string) :
  PurePath.name (PurePath.mk a (ps ++ [c])) = c.
Proof. unfold PurePath.name. simpl. apply last_last. Qed.

Lemma parent_snoc (a : string) (ps : list string) (c : string) :
  PurePath.parent (PurePath.mk a (ps ++ [c])) = PurePath.mk a ps.
Proof. unfold PurePath.parent. simpl. rewrite removelast_last. reflexivity. Qed.





(* ================================================================== *)
(** ** Stems, suffixes and destinations *)

Lemma suffix_at_bounds (n : string) (i : nat) :
  PurePath.suffix_at n = Some i -> 0 < i /\ i < String.length n - 1.
Proof.
  unfold PurePath.suffix_at. destruct (Str.rfind "." n) as [j |]; [| discriminate].
  destruct (Nat.ltb 0 j) eqn:E1; destruct (Nat.ltb j (String.length n - 1)) eqn:E2;
    simpl; try discriminate.
  intros [= <-]. apply Nat.ltb_lt in E1, E2. auto.
Qed.

(** A name is its stem followed by its suffix. *)
Lemma stem_suffix (n : string) :
  (PurePath.stem_of n ++ PurePath.suffix_of n)%string = n.
Proof.
  unfold PurePath.stem_of, PurePath.suffix_of.
  destruct (PurePath.suffix_at n) as [i |] eqn:E.
  - apply suffix_at_bounds in E. apply substring_split. lia.
  - clear E. induction n as [| a n IH]; simpl; congruence.
Qed.

Lemma lower_html_length (sfx : string) : Str.lower sfx = ".html" -> String.length sfx = 5.
Proof. intros H. rewrite <- lower_length, H. reflexivity. Qed.

Lemma html_suffix_at (n : string) :
  Str.lower (PurePath.suffix_of n) = ".html" ->
  exists i, PurePath.suffix_at n = Some i /\ 0 < i /\ i + 5 = String.length n
            /\ PurePath.stem_of n = substring 0 i n.
Proof.
  intros H. apply lower_html_length in H.
  unfold PurePath.suffix_of, PurePath.stem_of in *.
  destruct (PurePath.suffix_at n) as [i |] eqn:E; [| discriminate].
  exists i. pose proof (suffix_at_bounds n i E) as [B1 B2].
  rewrite substring_length in H by lia.
  repeat split; auto; lia.
Qed.

(** The destination name made from a name without slash is a proper path
    component. *)
Lemma stem_pdf_part_ok (n : string) :
  Str.mem "/" n = false -> part_ok (PurePath.stem_of n ++ ".pdf")%string.
Proof.
  intros Hn. repeat split.
  - intros E. apply (f_equal String.length) in E. rewrite append_length in E.
    simpl in E. lia.
  - intros E. apply (f_equal String.length) in E. rewrite append_length in E.
    simpl in E. lia.
  - rewrite mem_append. simpl. rewrite orb_false_r.
    unfold PurePath.stem_of. destruct (PurePath.suffix_at n); auto.
    apply mem_substring; auto.
Qed.

(** [with_suffix('.pdf')] on a name with an HTML suffix replaces the suffix. *)
Lemma with_suffix_html (p : PurePath.t) :
  Str.lower (PurePath.suffix p) = ".html" ->
  PurePath.with_suffix p ".pdf"
  = Some (PurePath.mk (PurePath.anchor p)
            (removelast (PurePath.parts p) ++ [(PurePath.stem p ++ ".pdf")%string])).
Proof.
  intros H. unfold PurePath.suffix, PurePath.stem in *.
  destruct (html_suffix_at _ H) as (i & E & Hi & Hlen & Hstem).
  pose proof (lower_html_length _ H) as Hsfx.
  unfold PurePath.with_suffix, PurePath.suffix.
  change (Str.mem "/" ".pdf") with false.
  change ((Str.truthy ".pdf" && negb (Str.startswith "." ".pdf")) || (".pdf" =? ".")%string)
    with false.
  cbv iota.
  assert (Hn : Str.truthy (PurePath.name p) = true).
  { destruct (PurePath.name p); [simpl in Hlen; lia | reflexivity]. }
  assert (Ho : Str.truthy (PurePath.suffix_of (PurePath.name p)) = true).
  { destruct (PurePath.suffix_of (PurePath.name p)); [discriminate | reflexivity]. }
  rewrite Hn, Ho. cbn [negb]. cbv iota.
  rewrite Hsfx, Hstem.
  replace (String.length (PurePath.name p) - 5) with i by lia.
  reflexivity.
Qed.

(** C8: for a source whose suffix is [.html] in any letter case, the name is
    the stem followed by that suffix, and the destination of the single
    conversion (without and with an output directory) and of the batch
    conversion is named by the stem followed by [.pdf]; it is never the full
    name followed by [.pdf].  The name of the source holds no slash, as the
    name of every parsed path does ([Path_well_formed], [name_without_slash]). *)
Theorem C8_destination_is_stem_dot_pdf
        (html_path : PurePath.t) (output_dir : string) (pdf_path : PurePath.t) (s : State) :
  Str.mem "/" (PurePath.name html_path) = false ->
  Str.lower (PurePath.suffix html_path) = ".html" ->
  let destination := (PurePath.stem html_path ++ ".pdf")%string in
  PurePath.name html_path = (PurePath.stem html_path ++ PurePath.suffix html_path)%string
  /\ destination <> (PurePath.name html_path ++ ".pdf")%string
  /\ (exists p, single_pdf_path html_path None s = (Val p, s)
                /\ PurePath.name p = destination)
  /\ (Str.truthy output_dir = true ->
      exists p, single_pdf_path html_path (Some output_dir) s = (Val p, s)
                /\ PurePath.name p = destination)
  /\ PurePath.name (batch_pdf_output_path pdf_path html_path) = destination.
Proof.
  intros Hslash Hsfx destination.
  pose proof (stem_pdf_part_ok _ Hslash) as Hpart.
  split; [symmetry; apply stem_suffix |].
  split.
  { unfold destination. intros E. apply (f_equal String.length) in E.
    rewrite !append_length in E.
    unfold PurePath.stem, PurePath.suffix in *.
    destruct (html_suffix_at _ Hsfx) as (i & _ & _ & Hlen & Hstem).
    rewrite Hstem, substring_length in E by lia. lia. }
  split.
  { unfold single_pdf_path. rewrite (with_suffix_html _ Hsfx).
    eexists; split; [reflexivity | apply name_snoc]. }
  split.
  { intros Ht. unfold single_pdf_path. rewrite Ht.
    eexists; split; [reflexivity |].
    fold (PurePath.stem html_path). rewrite joinpath_part by exact Hpart.
    apply name_snoc. }
  unfold batch_pdf_output_path. rewrite joinpath_part by exact Hpart. apply name_snoc.
Qed.

Lemma C8_witness :
  let html_path := PurePath.Path "in/Report.HTML" in
  PurePath.name html_path = "Report.HTML"
  /\ (PurePath.stem html_path ++ ".pdf")%string = "Report.pdf"
  /\ (exists p, single_pdf_path html_path None (boot demo_fs) = (Val p, boot demo_fs)
                /\ PurePath.name p = "Report.pdf")
  /\ (exists p, single_pdf_path html_path (Some "out") (boot demo_fs) = (Val p, boot demo_fs)
                /\ PurePath.name p = "Report.pdf")
  /\ PurePath.name (batch_pdf_output_path (PurePath.Path "PDF") html_path) = "Report.pdf".
Proof.
  destruct (C8_destination_is_stem_dot_pdf
              (PurePath.Path "in/Report.HTML") "out" (PurePath.Path "PDF") (boot demo_fs))
    as (_ & _ & H3 & H4 & H5).
  - reflexivity.
  - reflexivity.
  - split; [reflexivity |]. split; [reflexivity |].
    split; [exact H3 |]. split; [apply H4; reflexivity | exact H5].
Defined.





(* ================================================================== *)
(** ** Inputs that are missing or hold no HTML file *)

(** Making directories in the tree. *)
Lemma assoc_upsert (c : string) (g : FS.node -> FS.node) (es : list (string * FS.node)) :
  FS.assoc c (FS.upsert c g es)
  = Some (g (match FS.assoc c es with Some v => v | None => FS.Dir [] end)).
Proof.
  induction es as [| [k v] t IH]; cbn.
  - rewrite String.eqb_refl. reflexivity.
  - destruct (String.eqb k c) eqn:E; cbn; rewrite E; auto.
Qed.

Lemma find_put_at (a : list string) (c : string) (new : FS.node) :
  forall n es, FS.find n a = Some (FS.Dir es) ->
               FS.find (FS.put (a ++ [c]) new n) (a ++ [c]) = Some new.
Proof.
  induction a as [| x a IH]; intros n es Hn.
  - cbn in Hn. injection Hn as ->. cbn. rewrite assoc_upsert. reflexivity.
  - cbn in Hn. destruct n as [| es0]; [discriminate |].
    destruct (FS.assoc x es0) as [m |] eqn:A; [| discriminate].
    cbn. rewrite assoc_upsert, A. eapply IH. exact Hn.
Qed.












(* ================================================================== *)
(** ** Exit codes *)

(** C3 does not hold of [pdf_generator.py]: its directory branch has no
    [sys.exit], so the process exits with 0 when no file was converted,
    be it that the directory holds no HTML file or that every conversion
    failed.  [generate_pdfs.py] exits with 1 on the same inputs. *)
Theorem C3_pdf_generator_exits_zero_without_success :
  let none_found := pdf_generator_main healthy (convert_args "empty") (boot demo_fs) in
  let all_failed := pdf_generator_main goto_always_fails (convert_args "maps") (boot demo_fs) in
  (exit_code (fst none_found) = 0%Z
   /\ report (trace (snd none_found)) = [])
  /\ (exit_code (fst all_failed) = 0%Z
      /\ successes (report (trace (snd all_failed))) = 0
      /\ List.length (report (trace (snd all_failed))) = 3)
  /\ exit_code (fst (generate_pdfs_main healthy (convert_args "empty") (boot demo_fs))) = 1%Z
  /\ exit_code (fst (generate_pdfs_main goto_always_fails (convert_args "maps")
                                        (boot demo_fs))) = 1%Z.
Proof. repeat split; reflexivity. Qed.

(** The other invocations of the examples follow the rule of section 6. *)
Example exit_codes :
  let code main W args := exit_code (fst (main W args (boot demo_fs))) in
  (* a dependency check *)
  code pdf_generator_main healthy (mkArgs None None true) = 0%Z
  /\ code generate_pdfs_main healthy (mkArgs None None true) = 0%Z
  /\ code pdf_generator_main (mkWorld false (fun _ _ => None) (fun _ _ => true))
          (mkArgs None None true) = 1%Z
  /\ code generate_pdfs_main (mkWorld false (fun _ _ => None) (fun _ _ => true))
          (mkArgs None None true) = 1%Z
  (* a single file *)
  /\ code pdf_generator_main healthy (convert_args "notes.html") = 0%Z
  /\ code generate_pdfs_main healthy (convert_args "notes.html") = 0%Z
  /\ code pdf_generator_main goto_always_fails (convert_args "notes.html") = 1%Z
  /\ code generate_pdfs_main goto_always_fails (convert_args "notes.html") = 1%Z
  (* a directory with a partial failure *)
  /\ code pdf_generator_main (goto_fails_for "b.html") (convert_args "maps") = 0%Z
  /\ code generate_pdfs_main (goto_fails_for "b.html") (convert_args "maps") = 0%Z
  (* invalid input *)
  /\ code pdf_generator_main healthy (convert_args "maps/notes.txt") = 1%Z
  /\ code generate_pdfs_main healthy (convert_args "maps/notes.txt") = 1%Z
  /\ code pdf_generator_main healthy (convert_args "/no/such/path") = 1%Z
  /\ code generate_pdfs_main healthy (convert_args "/no/such/path") = 1%Z
  (* the import of Playwright failed, and no check was asked for *)
  /\ code generate_pdfs_main (mkWorld false (fun _ _ => None) (fun _ _ => true))
          (convert_args "maps") = 1%Z.
Proof. repeat split; reflexivity. Qed.

(* ================================================================== *)
(** * Further properties of the scripts *)

(** ** The single conversion *)

Section SingleConversion.

Variable W : World.

Ltac oracle_cases :=
  repeat (cbn;
          match goal with
          | |- context [match fails W ?h ?c with _ => _ end] =>
              let E := fresh "E" in destruct (fails W h c) eqn:E
          | |- context [Called ?c (fails W ?h ?c)] =>
              let E := fresh "E" in destruct (fails W h c) eqn:E
          | |- context [if renders W ?h ?o then _ else _] =>
              let E := fresh "R" in destruct (renders W h o) eqn:E
          end).

(** The run of a single conversion whose source exists, whose destination
    is [p] and whose destination directory can be made. *)
Lemma convert_run (s : State) (html_file : string) (output_dir : option string)
      (p : PurePath.t) (f1 : FS.t) :
  FS.os_path_exists (fs s) html_file = true ->
  single_pdf_path (PurePath.Path html_file) output_dir s = (Val p, s) ->
  FS.mkdir_p (fs s) (PurePath.parent p) = Some f1 ->
  exists r s' evs,
    convert_html_to_pdf_async W html_file output_dir s = (Val r, s')
    /\ trace s' = trace s ++ Mkdir (PurePath.parent p) true :: evs
    /\ (fs s' = f1 \/ fs s' = FS.write_file f1 (PurePath.Path (PurePath.str p)))
    /\ (r = Some (PurePath.str p)
        /\ playwright_available W = true
        /\ ~ raised_in evs
        /\ FS.exists_ (fs s') p = true
        /\ report evs = [Succeeded (PurePath.name p)]
        \/
        r = None
        /\ report evs = []
        /\ (playwright_available W = false
            /\ evs = [Printed (PdfGenerationError (NameError "async_playwright"))]
            \/ playwright_available W = true
               /\ (exists c msg,
                      In (Called c (Some msg)) evs
                      /\ last evs (Printed HelpText)
                         = Printed (PdfGenerationError (EngineError msg)))
            \/ playwright_available W = true
               /\ ~ raised_in evs
               /\ FS.exists_ (fs s') p = false
               /\ last evs (Printed HelpText) = Printed (PdfGenerationFailedFor html_file)))
    /\ Forall (fun t => t = PurePath.str p) (pdf_targets evs).
Proof.
  intros Hex Hp Hmk.
  unfold convert_html_to_pdf_async.
  unfold bind at 1, get_fs. rewrite Hex. cbn [negb].
  unfold bind at 1. rewrite Hp.
  unfold bind at 1, mkdir. rewrite Hmk.
  unfold try_except, with_playwright, bind, launch, new_page, new_handle, file_url_of,
    path_exists, get_fs, ret, call, page_pdf, print, emit, raise.
  destruct (playwright_available W) eqn:Hav.
  2: { cbn. do 3 eexists. split; [reflexivity |]. cbn.
       split; [rewrite <- app_assoc; reflexivity |].
       split; [left; reflexivity |].
       split; [right; repeat split; left; auto | constructor]. }
  oracle_cases.
  all: try match goal with
         | |- context [if FS.exists_ ?f ?q then _ else _] =>
             let X := fresh "X" in destruct (FS.exists_ f q) eqn:X
         end; cbn.
  all: do 3 eexists; split; [reflexivity |]; cbn.
  all: split; [rewrite <- ?app_assoc; reflexivity |].
  all: split; [first [left; reflexivity | right; reflexivity] |].
  all: split; [| repeat constructor].
  all: first
         [ left; split; [reflexivity |]; split; [reflexivity |];
           split; [intros (c & m & Hin); cbn in Hin; intuition congruence |];
           split; [assumption | reflexivity]
         | right; split; [reflexivity |]; split; [reflexivity |];
           right; right; split; [reflexivity |];
           split; [intros (c & m & Hin); cbn in Hin; intuition congruence |];
           split; [assumption | reflexivity]
         | right; split; [reflexivity |]; split; [reflexivity |];
           right; left; split; [reflexivity |];
           do 2 eexists; split; [| reflexivity]; cbn; eauto 12 ].
Qed.

(** X1: a single conversion whose source exists and whose destination
    directory can be made never raises.  When an engine call raises, the
    result is [None] and the last line printed is the error with the message
    of a call that raised; when Playwright could not be imported, the result
    is [None] after the one error line, without any engine call. *)
Theorem single_conversion_contains_engine_failures
        (s : State) (html_file : string) (output_dir : option string)
        (p : PurePath.t) (f1 : FS.t) :
  FS.os_path_exists (fs s) html_file = true ->
  single_pdf_path (PurePath.Path html_file) output_dir s = (Val p, s) ->
  FS.mkdir_p (fs s) (PurePath.parent p) = Some f1 ->
  exists r s' evs,
    convert_html_to_pdf_async W html_file output_dir s = (Val r, s')
    /\ trace s' = trace s ++ Mkdir (PurePath.parent p) true :: evs
    /\ (raised_in evs ->
        r = None
        /\ exists c msg,
            In (Called c (Some msg)) evs
            /\ last evs (Printed HelpText) = Printed (PdfGenerationError (EngineError msg)))
    /\ (playwright_available W = false ->
        r = None
        /\ evs = [Printed (PdfGenerationError (NameError "async_playwright"))]).
Proof.
  intros Hex Hp Hmk.
  destruct (convert_run s html_file output_dir p f1 Hex Hp Hmk)
    as (r & s' & evs & E & T & _ & Hcases & _).
  exists r, s', evs. split; [exact E |]. split; [exact T |].
  destruct Hcases as [(Hr & Hav & Hno & _) | (Hr & _ & [(Hav & Hevs) | [(Hav & Hm) | (Hav & Hno & _)]])].
  - split; [intros H; contradiction | intros H; congruence].
  - split; [| auto].
    intros (c & m & Hin). rewrite Hevs in Hin. cbn in Hin. intuition discriminate.
  - split; [auto | intros H; congruence].
  - split; [intros H; contradiction | intros H; congruence].
Qed.

(** X2: under the same conditions the conversion returns the destination
    exactly when Playwright is available, no engine call raised and a file
    exists at the destination afterwards; otherwise it returns [None].  The
    engine is asked for no other destination, and the file system is the one
    left by the creation of the directory, with at most the destination
    written. *)
Theorem single_conversion_success_criterion
        (s : State) (html_file : string) (output_dir : option string)
        (p : PurePath.t) (f1 : FS.t) :
  FS.os_path_exists (fs s) html_file = true ->
  single_pdf_path (PurePath.Path html_file) output_dir s = (Val p, s) ->
  FS.mkdir_p (fs s) (PurePath.parent p) = Some f1 ->
  exists r s' evs,
    convert_html_to_pdf_async W html_file output_dir s = (Val r, s')
    /\ trace s' = trace s ++ Mkdir (PurePath.parent p) true :: evs
    /\ (r = None \/ r = Some (PurePath.str p))
    /\ (r = Some (PurePath.str p)
        <-> playwright_available W = true
            /\ ~ raised_in evs
            /\ FS.exists_ (fs s') p = true)
    /\ Forall (fun t => t = PurePath.str p) (pdf_targets evs)
    /\ (fs s' = f1 \/ fs s' = FS.write_file f1 (PurePath.Path (PurePath.str p))).
Proof.
  intros Hex Hp Hmk.
  destruct (convert_run s html_file output_dir p f1 Hex Hp Hmk)
    as (r & s' & evs & E & T & Hfs & Hcases & Htargets).
  exists r, s', evs. split; [exact E |]. split; [exact T |].
  split; [| split; [| split; [exact Htargets | exact Hfs]]].
  - destruct Hcases as [(Hr & _) | (Hr & _)]; auto.
  - destruct Hcases as [(Hr & Hav & Hno & Hx & _) | (Hr & _ & [(Hav & Hevs) | [(Hav & Hm) | (Hav & Hno & Hx & _)]])].
    + split; auto.
    + split; [intros H; congruence | intros (H & _); congruence].
    + split; [intros H; congruence |].
      intros (_ & Hno & _). exfalso. apply Hno.
      destruct Hm as (c & m & Hin & _). exists c, m. exact Hin.
    + split; [intros H; congruence | intros (_ & _ & H); congruence].
Qed.

End SingleConversion.

Lemma single_conversion_witness_failures :
  exists r s' evs,
    convert_html_to_pdf_async (goto_fails_for "notes.html") "notes.html" None (boot demo_fs)
    = (Val r, s')
    /\ trace s' = trace (boot demo_fs)
                  ++ Mkdir (PurePath.parent (PurePath.Path "notes.pdf")) true :: evs
    /\ (raised_in evs ->
        r = None
        /\ exists c msg,
            In (Called c (Some msg)) evs
            /\ last evs (Printed HelpText) = Printed (PdfGenerationError (EngineError msg)))
    /\ (playwright_available (goto_fails_for "notes.html") = false ->
        r = None
        /\ evs = [Printed (PdfGenerationError (NameError "async_playwright"))]).
Proof.
  apply (single_conversion_contains_engine_failures
           (goto_fails_for "notes.html") (boot demo_fs) "notes.html" None
           (PurePath.Path "notes.pdf") demo_fs);
    vm_compute; reflexivity.
Defined.

Lemma single_conversion_witness_success :
  exists r s' evs,
    convert_html_to_pdf_async healthy "notes.html" (Some "out") (boot demo_fs)
    = (Val r, s')
    /\ trace s' = trace (boot demo_fs)
                  ++ Mkdir (PurePath.parent (PurePath.Path "out/notes.pdf")) true :: evs
    /\ (r = None \/ r = Some (PurePath.str (PurePath.Path "out/notes.pdf")))
    /\ (r = Some (PurePath.str (PurePath.Path "out/notes.pdf"))
        <-> playwright_available healthy = true
            /\ ~ raised_in evs
            /\ FS.exists_ (fs s') (PurePath.Path "out/notes.pdf") = true)
    /\ Forall (fun t => t = PurePath.str (PurePath.Path "out/notes.pdf")) (pdf_targets evs)
    /\ (fs s' = with_dir demo_fs "out"
        \/ fs s' = FS.write_file (with_dir demo_fs "out")
                                 (PurePath.Path (PurePath.str (PurePath.Path "out/notes.pdf")))).
Proof.
  apply (single_conversion_success_criterion
           healthy (boot demo_fs) "notes.html" (Some "out")
           (PurePath.Path "out/notes.pdf") (with_dir demo_fs "out"));
    vm_compute; reflexivity.
Defined.

(** A PDF left at the destination by an earlier run counts as a success even
    when the engine wrote nothing this time. *)
Example stale_pdf_counts_as_success :
  fst (convert_html_to_pdf_async renders_nothing "notes.html" None
         (boot (FS.write_file demo_fs (PurePath.Path "notes.pdf"))))
  = Val (Some "notes.pdf")
  /\ fst (convert_html_to_pdf_async renders_nothing "notes.html" None (boot demo_fs))
     = Val None.
Proof. split; reflexivity. Qed.

(* ================================================================== *)
(** ** Rules for properties of whole traces *)

Section KeepsRules.

Variable W : World.
Variable Q : list Event -> Prop.
Hypothesis Q_nil : Q [].
Hypothesis Q_app : forall a b, Q a -> Q b -> Q (a ++ b).

Lemma keeps_silent {A} (m : M A) :
  (forall s, trace (snd (m s)) = trace s) -> keeps Q m.
Proof. intros H s. exists []. rewrite app_nil_r. auto. Qed.

Lemma keeps_ret {A} (a : A) : keeps Q (ret a).
Proof. apply keeps_silent. reflexivity. Qed.

Lemma keeps_raise {A} (x : exn) : keeps Q (@raise A x).
Proof. apply keeps_silent. reflexivity. Qed.

Lemma keeps_sys_exit {A} (c : Z) : keeps Q (@sys_exit A c).
Proof. apply keeps_raise. Qed.

Lemma keeps_get_fs : keeps Q get_fs.
Proof. apply keeps_silent. reflexivity. Qed.

Lemma keeps_emit (e : Event) : Q [e] -> keeps Q (emit e).
Proof. intros He s. exists [e]. auto. Qed.

Lemma keeps_print (l : Line) : Q [Printed l] -> keeps Q (print l).
Proof. apply keeps_emit. Qed.

Lemma keeps_bind {A B} (m : M A) (k : A -> M B) :
  keeps Q m -> (forall a, keeps Q (k a)) -> keeps Q (bind m k).
Proof.
  intros Hm Hk s. unfold bind.
  destruct (Hm s) as (e1 & E1 & F1).
  destruct (m s) as [[a | x] s1]; simpl in *.
  - destruct (Hk a s1) as (e2 & E2 & F2).
    exists (e1 ++ e2). rewrite E2, E1, app_assoc. auto.
  - exists e1; auto.
Qed.

Lemma keeps_try_except {A} (body : M A) (handler : pyerr -> M A) :
  keeps Q body -> (forall e, keeps Q (handler e)) -> keeps Q (try_except body handler).
Proof.
  intros Hb Hh s. unfold try_except.
  destruct (Hb s) as (e1 & E1 & F1).
  destruct (body s) as [[a | [e | | c]] s1]; simpl in *; eauto.
  destruct (Hh e s1) as (e2 & E2 & F2).
  exists (e1 ++ e2). rewrite E2, E1, app_assoc. auto.
Qed.

Lemma keeps_try_except_interrupt {A} (body on_interrupt : M A) :
  keeps Q body -> keeps Q on_interrupt -> keeps Q (try_except_interrupt body on_interrupt).
Proof.
  intros Hb Hh s. unfold try_except_interrupt.
  destruct (Hb s) as (e1 & E1 & F1).
  destruct (body s) as [[a | [e | | c]] s1]; simpl in *; eauto.
  destruct (Hh s1) as (e2 & E2 & F2).
  exists (e1 ++ e2). rewrite E2, E1, app_assoc. auto.
Qed.

Lemma keeps_print_each (ls : list Line) :
  (forall l, Q [Printed l]) -> keeps Q (print_each ls).
Proof.
  intros HP. induction ls as [| l r IH]; simpl.
  - apply keeps_ret.
  - apply keeps_bind; [apply keeps_print, HP | intros _; exact IH].
Qed.

Lemma keeps_mkdir (p : PurePath.t) :
  (forall ok, Q [Mkdir p ok]) -> keeps Q (mkdir p).
Proof.
  intros HP s. unfold mkdir.
  destruct (FS.mkdir_p (fs s) p); simpl; eexists; split; eauto.
Qed.

Lemma keeps_check_playwright :
  (forall l, Q [Printed l]) -> keeps Q (check_playwright W).
Proof.
  intros HP. unfold check_playwright.
  destruct (playwright_available W);
    (apply keeps_bind; [apply keeps_print, HP | intros _; apply keeps_ret]).
Qed.

End KeepsRules.

(* ================================================================== *)
(** ** Engine calls stay inside the Playwright context *)

Lemma scoped_from_quiet (i : bool) (evs rest : list Event) :
  Forall (fun e => is_engine_call e = false) evs ->
  scoped_from i (evs ++ rest) = scoped_from i rest.
Proof.
  induction 1 as [| e evs He _ IH]; simpl; auto.
  destruct e as [l | p ok | c r]; auto. discriminate.
Qed.

Lemma scoped_from_inside (evs rest : list Event) :
  Forall (fun e => is_context_event e = false) evs ->
  scoped_from true (evs ++ rest) = scoped_from true rest.
Proof.
  induction 1 as [| e evs He _ IH]; simpl; auto.
  destruct e as [l | p ok | c r]; auto.
  destruct c; simpl in *; auto; discriminate.
Qed.

Lemma scoped_from_app (a b : list Event) :
  forall i, scoped_from i a = true -> scoped_from i (a ++ b) = scoped_from false b.
Proof.
  induction a as [| e a IH]; intros i H; simpl in *.
  - destruct i; [discriminate | reflexivity].
  - destruct e as [l | p ok | c r]; auto.
    destruct c; try destruct r; destruct i; simpl in *; try discriminate; auto.
Qed.

Lemma scoped_nil : scoped [].
Proof. reflexivity. Qed.

Lemma scoped_app (a b : list Event) : scoped a -> scoped b -> scoped (a ++ b).
Proof. unfold scoped. intros Ha Hb. rewrite (scoped_from_app a b false Ha). exact Hb. Qed.

Section Scoping.

Variable W : World.

(** [async with async_playwright()] makes a scoped trace out of a body that
    neither enters nor leaves the context itself. *)
Lemma with_playwright_scoped {A} (body : M A) :
  emits (fun e => is_context_event e = false) body ->
  keeps scoped (with_playwright W body).
Proof.
  intros Hb s. unfold with_playwright.
  destruct (playwright_available W); [| exists []; rewrite app_nil_r; split; reflexivity].
  unfold bind, call. cbn [fs trace fresh].
  destruct (fails W (trace s) Start) as [m |] eqn:E.
  - exists [Called Start (Some m)]. split; reflexivity.
  - match goal with |- context [body ?st] => destruct (Hb st) as (evs & T & F);
                                             destruct (body st) as [r s1] end.
    cbn [snd trace] in T.
    exists (Called Start None :: evs ++ [Called Stop (fails W (trace s1) Stop)]).
    split.
    + destruct (fails W (trace s1) Stop); cbn; rewrite T, <- !app_assoc; reflexivity.
    + unfold scoped. cbn [scoped_from negb andb].
      rewrite scoped_from_inside by exact F. reflexivity.
Qed.

Ltac inside_step :=
  first
    [ apply emits_bind
    | apply emits_ret
    | apply emits_raise
    | apply emits_get_fs
    | apply emits_new_handle
    | apply emits_print
    | apply emits_call
    | apply emits_page_pdf
    | apply emits_try_except
    | match goal with
      | |- forall _, _ => intro
      | |- is_context_event _ = false => reflexivity
      | |- emits _ (if ?b then _ else _) => destruct b
      | |- emits _ (match ?x with _ => _ end) => destruct x
      end ].

Lemma for_html_files_inside (b : nat) (pdf_path : PurePath.t) (files : list PurePath.t) :
  forall g, emits (fun e => is_context_event e = false)
                  (for_html_files W b pdf_path files g).
Proof.
  induction files as [| f rest IH]; intros g; simpl.
  - apply emits_ret.
  - apply emits_bind; [| exact IH].
    unfold convert_one, new_page, file_url_of, path_exists. repeat inside_step.
Qed.

Ltac scoped_step :=
  first
    [ apply (keeps_bind scoped scoped_app)
    | apply (keeps_ret scoped scoped_nil)
    | apply (keeps_raise scoped scoped_nil)
    | apply (keeps_sys_exit scoped scoped_nil)
    | apply (keeps_get_fs scoped scoped_nil)
    | apply keeps_print
    | apply (keeps_print_each scoped scoped_nil scoped_app)
    | apply keeps_mkdir
    | apply (keeps_check_playwright W scoped scoped_nil scoped_app)
    | apply (keeps_try_except scoped scoped_app)
    | apply (keeps_try_except_interrupt scoped scoped_app)
    | apply with_playwright_scoped
    | match goal with
      | |- forall _, _ => intro
      | |- scoped _ => reflexivity
      | |- keeps _ (if ?b then _ else _) => destruct b
      | |- keeps _ (match ?x with _ => _ end) => destruct x
      | |- keeps _ (let (_, _) := ?x in _) => destruct x
      end ].

Lemma convert_scoped (html_file : string) (output_dir : option string) :
  keeps scoped (convert_html_to_pdf_async W html_file output_dir).
Proof.
  unfold convert_html_to_pdf_async, single_pdf_path, path_exists.
  repeat scoped_step.
  all: unfold launch, new_page, file_url_of; repeat inside_step.
Qed.

Lemma batch_scoped (html_dir : string) (pdf_dir : option string) :
  keeps scoped (batch_convert_directory_async W html_dir pdf_dir).
Proof.
  unfold batch_convert_directory_async, path_exists.
  repeat scoped_step.
  unfold launch. repeat first [apply for_html_files_inside | inside_step].
Qed.

(** X3: in every run of the single conversion, of the batch conversion and
    of either command line, whatever the engine does, the engine is only
    called inside the Playwright context: nothing is called before a
    [Start] that returned or after the [Stop] that follows it, and every
    context that was entered is left. *)
Theorem engine_calls_stay_inside_playwright_context :
  (forall html_file output_dir,
      keeps scoped (convert_html_to_pdf_async W html_file output_dir))
  /\ (forall html_dir pdf_dir,
         keeps scoped (batch_convert_directory_async W html_dir pdf_dir))
  /\ (forall args, keeps scoped (pdf_generator_main W args))
  /\ (forall args, keeps scoped (generate_pdfs_main W args)).
Proof.
  split; [exact convert_scoped |].
  split; [exact batch_scoped |].
  split; intros args.
  - unfold pdf_generator_main, convert_html_to_pdf, batch_convert_directory.
    repeat first [apply convert_scoped | apply batch_scoped | scoped_step].
  - unfold generate_pdfs_main, gen_convert, convert_html_to_pdf, batch_convert_directory,
      path_exists.
    repeat first [apply convert_scoped | apply batch_scoped | scoped_step].
Qed.

End Scoping.

Example scoped_is_not_trivial :
  scoped_from false [Called (Launch 0) None] = false
  /\ scoped_from false [Called Start None; Called (Launch 0) None] = false
  /\ scoped_from false [Called Start None; Called (Launch 0) (Some "no browser");
                        Called Stop None] = true.
Proof. repeat split. Qed.

(* ================================================================== *)
(** ** What the batch returns *)

Section BatchList.

Variable W : World.

Lemma for_html_files_list (b : nat) (pdf_path : PurePath.t) (files : list PurePath.t) :
  forall (g : list string) (s : State),
  exists g' s' segs,
    for_html_files W b pdf_path files g s = (Val g', s')
    /\ trace s' = trace s ++ List.concat segs
    /\ Forall2 (request_run b) files segs
    /\ g' = g ++ map (fun x => PurePath.str (batch_pdf_output_path pdf_path (fst x)))
                     (filter (fun x => succeeded (snd x)) (combine files segs)).
Proof.
  induction files as [| f rest IH]; intros g s; simpl.
  - exists g, s, []. simpl. rewrite !app_nil_r. repeat split; auto.
  - unfold bind.
    destruct (convert_one_run W b pdf_path f g s) as (g1 & s1 & seg & E1 & T1 & R1 & G1).
    rewrite E1.
    destruct (IH g1 s1) as (g2 & s2 & segs & E2 & T2 & R2 & G2).
    exists g2, s2, (seg :: segs). simpl.
    split; [exact E2 |]. split; [rewrite T2, T1, app_assoc; reflexivity |].
    split; [constructor; assumption |].
    rewrite G2, G1, <- app_assoc. f_equal.
    destruct R1 as (_ & _ & _ & _ & o & Ro & _).
    unfold succeeded. rewrite Ro. destruct o; reflexivity.
Qed.

(** X4: the list returned by a batch holds, in the order of discovery, the
    destinations of exactly the files whose request was reported as a
    success, each destination being the output directory joined with the
    stem of the file followed by [.pdf]. *)
Theorem batch_returns_destinations_of_successes
        (s : State) (html_dir : string) (pdf_dir : option string) (f1 : FS.t) :
  let html_path := PurePath.Path html_dir in
  let pdf_path := batch_pdf_path html_path pdf_dir in
  let files := FS.glob_star_html f1 html_path in
  FS.exists_ (fs s) html_path = true ->
  FS.mkdir_p (fs s) pdf_path = Some f1 ->
  session_starts W ->
  session_stops W ->
  exists g s' evs segs,
    batch_convert_directory_async W html_dir pdf_dir s = (Val g, s')
    /\ trace s' = trace s ++ evs
    /\ report evs = report (List.concat segs)
    /\ Forall2 (request_run (fresh s)) files segs
    /\ g = map (fun x => PurePath.str (batch_pdf_output_path pdf_path (fst x)))
               (filter (fun x => succeeded (snd x)) (combine files segs)).
Proof.
  intros html_path pdf_path files Hex Hmk (Hav & Hstart & Hlaunch) (Hclose & Hstop).
  unfold batch_convert_directory_async, bind at 1, path_exists, bind at 1, get_fs, ret.
  fold html_path. rewrite Hex. cbn [negb].
  fold pdf_path. unfold bind at 1, mkdir. rewrite Hmk.
  unfold bind at 1. cbn [fs]. fold files.
  destruct files as [| f0 rest] eqn:Efiles.
  - cbn. eexists [], _, _, []. split; [reflexivity |]. cbn.
    split; [rewrite <- app_assoc; reflexivity |]. repeat split. constructor.
  - cbn [nonempty negb].
    unfold with_playwright. rewrite Hav.
    unfold bind at 1, print, emit. cbn [fs trace fresh].
    unfold bind at 1, call. cbn [fs trace fresh]. rewrite Hstart.
    unfold bind at 1, launch, bind at 1, new_handle. cbn [fs trace fresh].
    unfold bind at 1, call. cbn [fs trace fresh]. rewrite Hlaunch.
    unfold ret at 1. unfold bind at 1.
    match goal with
    | |- context [for_html_files W ?b ?p ?fl ?g ?st] =>
        destruct (for_html_files_list b p fl g st) as (g' & s1 & segs & E & T & R & G)
    end.
    rewrite E. unfold bind at 1, call. cbn [fs trace fresh].
    rewrite Hclose. unfold ret. rewrite Hstop.
    exists g'. eexists. eexists. exists segs.
    split; [reflexivity |]. cbn [trace fs fresh snd] in *.
    split; [rewrite T, <- !app_assoc; reflexivity |].
    split; [| split; [exact R | exact G]].
    cbn [app report outcome_of]. rewrite report_app. cbn [app report outcome_of].
    rewrite app_nil_r. reflexivity.
Qed.

End BatchList.

Lemma batch_returns_destinations_witness :
  exists g s' evs segs,
    batch_convert_directory_async (goto_fails_for "b.html") "maps" (Some "out") (boot demo_fs)
    = (Val g, s')
    /\ trace s' = trace (boot demo_fs) ++ evs
    /\ report evs = report (List.concat segs)
    /\ Forall2 (request_run (fresh (boot demo_fs)))
               (FS.glob_star_html (with_dir demo_fs "out") (PurePath.Path "maps")) segs
    /\ g = map (fun x => PurePath.str
                           (batch_pdf_output_path
                              (batch_pdf_path (PurePath.Path "maps") (Some "out")) (fst x)))
               (filter (fun x => succeeded (snd x))
                       (combine (FS.glob_star_html (with_dir demo_fs "out")
                                                   (PurePath.Path "maps")) segs)).
Proof.
  apply (batch_returns_destinations_of_successes
           (goto_fails_for "b.html") (boot demo_fs) "maps" (Some "out")
           (with_dir demo_fs "out")).
  - vm_compute; reflexivity.
  - vm_compute; reflexivity.
  - repeat split.
  - repeat split.
Defined.

Example batch_returned_list :
  fst (batch_convert_directory_async (goto_fails_for "b.html") "maps" (Some "out")
                                     (boot demo_fs))
  = Val ["out/a.pdf"; "out/c.pdf"].
Proof. reflexivity. Qed.

(* ================================================================== *)
(** ** From discovered names to destinations *)

Lemma rfind_append (c : ascii) (a b : string) :
  Str.rfind c (a ++ b)%string
  = match Str.rfind c b with
    | Some i => Some (String.length a + i)
    | None => Str.rfind c a
    end.
Proof.
  induction a as [| x a IH]; simpl.
  - destruct (Str.rfind c b); reflexivity.
  - rewrite IH. destruct (Str.rfind c b); reflexivity.
Qed.

Lemma substring_prefix (a b : string) : substring 0 (String.length a) (a ++ b)%string = a.
Proof. induction a as [| x a IH]; simpl; [destruct b; reflexivity | congruence]. Qed.

Lemma substring_suffix (a b : string) :
  substring (String.length a) (String.length b) (a ++ b)%string = b.
Proof. induction a as [| x a IH]; simpl; [apply substring_0_all | exact IH]. Qed.

Lemma append_inj_left (a b c : string) : (a ++ c)%string = (b ++ c)%string -> a = b.
Proof.
  revert b. induction a as [| x a IH]; intros [| y b] H; simpl in *; auto.
  - apply (f_equal String.length) in H. simpl in H. rewrite append_length in H. lia.
  - apply (f_equal String.length) in H. simpl in H. rewrite append_length in H. lia.
  - injection H as -> H. f_equal. apply IH; auto.
Qed.

(** A name matched by [*.html] is some prefix followed by [.html]. *)
Lemma matches_star_html_split (n : string) :
  FS.matches_star_html n = true -> exists pre, n = (pre ++ ".html")%string.
Proof.
  unfold FS.matches_star_html, Str.endswith. intros H.
  apply andb_true_iff in H. destruct H as [Hlen Heq].
  apply Nat.leb_le in Hlen. apply String.eqb_eq in Heq. simpl in Hlen, Heq.
  exists (substring 0 (String.length n - 5) n).
  pose proof (substring_split n (String.length n - 5)) as S.
  replace (String.length n - (String.length n - 5)) with 5 in S by lia.
  rewrite Heq in S. symmetry. apply S. lia.
Qed.

(** The stem and the suffix of [pre.html] when [pre] is not empty. *)
Lemma stem_suffix_of_html (pre : string) :
  pre <> "" ->
  PurePath.stem_of (pre ++ ".html") = pre /\ PurePath.suffix_of (pre ++ ".html") = ".html".
Proof.
  intros Hpre.
  assert (Hat : PurePath.suffix_at (pre ++ ".html") = Some (String.length pre)).
  { unfold PurePath.suffix_at. rewrite rfind_append.
    replace (Str.rfind "." ".html") with (Some 0) by reflexivity.
    rewrite Nat.add_0_r, append_length.
    replace (String.length ".html") with 5 by reflexivity.
    destruct pre as [| x pre]; [congruence |]. cbn [String.length].
    replace (Nat.ltb 0 (S (String.length pre))) with true
      by (symmetry; apply Nat.ltb_lt; lia).
    replace (Nat.ltb (S (String.length pre)) (S (String.length pre) + 5 - 1)) with true
      by (symmetry; apply Nat.ltb_lt; lia).
    reflexivity. }
  unfold PurePath.stem_of, PurePath.suffix_of. rewrite Hat. split.
  - apply substring_prefix.
  - rewrite append_length. simpl String.length.
    replace (String.length pre + 5 - String.length pre) with (String.length ".html")
      by (simpl; lia).
    apply substring_suffix.
Qed.

Lemma glob_member (f : FS.t) (p x : PurePath.t) :
  In x (FS.glob_star_html f p) ->
  exists c, x = PurePath.mk (PurePath.anchor p) (PurePath.parts p ++ [c])
            /\ FS.matches_star_html c = true.
Proof.
  unfold FS.glob_star_html. destruct (FS.lookup f p) as [[| es] |]; simpl; try tauto.
  intros H. apply in_map_iff in H. destruct H as (c & <- & Hc).
  apply filter_In in Hc. destruct Hc as [_ Hc]. eauto.
Qed.

(** A discovered entry other than the bare [.html] is [pre.html] for a
    non-empty [pre], which is its stem. *)
Lemma discovered_entry (f : FS.t) (html_path x : PurePath.t) :
  In x (FS.glob_star_html f html_path) ->
  PurePath.name x <> ".html" ->
  exists pre,
    x = PurePath.mk (PurePath.anchor html_path)
                    (PurePath.parts html_path ++ [(pre ++ ".html")%string])
    /\ PurePath.stem x = pre
    /\ PurePath.suffix x = ".html".
Proof.
  intros Hin Hname.
  destruct (glob_member _ _ _ Hin) as (c & -> & Hc).
  rewrite name_snoc in Hname.
  destruct (matches_star_html_split c Hc) as (pre & ->).
  assert (Hpre : pre <> "") by (intros ->; apply Hname; reflexivity).
  destruct (stem_suffix_of_html pre Hpre) as [Hstem Hsfx].
  exists pre. unfold PurePath.stem, PurePath.suffix. rewrite name_snoc. auto.
Qed.

(** X5: a discovered entry [pre.html] (with [pre] not empty, and no slash in
    the name) lies in the scanned directory, has suffix [.html] and is
    converted to [pre.pdf] in the output directory. *)
Theorem discovered_file_destination
        (f : FS.t) (html_path pdf_path x : PurePath.t) :
  In x (FS.glob_star_html f html_path) ->
  PurePath.name x <> ".html" ->
  Str.mem "/" (PurePath.name x) = false ->
  exists pre,
    PurePath.name x = (pre ++ ".html")%string
    /\ PurePath.parent x = html_path
    /\ PurePath.suffix x = ".html"
    /\ batch_pdf_output_path pdf_path x
       = PurePath.mk (PurePath.anchor pdf_path)
                     (PurePath.parts pdf_path ++ [(pre ++ ".pdf")%string]).
Proof.
  intros Hin Hname Hslash.
  destruct (discovered_entry f html_path x Hin Hname) as (pre & Hx & Hstem & Hsfx).
  pose proof (stem_pdf_part_ok _ Hslash) as Hpart.
  fold (PurePath.stem x) in Hpart. rewrite Hstem in Hpart.
  exists pre. split; [rewrite Hx; apply name_snoc |].
  split; [rewrite Hx, parent_snoc; destruct html_path; reflexivity |].
  split; [exact Hsfx |].
  unfold batch_pdf_output_path. rewrite Hstem. apply joinpath_part. exact Hpart.
Qed.

Lemma discovered_file_destination_witness :
  exists pre,
    PurePath.name (PurePath.Path "maps/a.html") = (pre ++ ".html")%string
    /\ PurePath.parent (PurePath.Path "maps/a.html") = PurePath.Path "maps"
    /\ PurePath.suffix (PurePath.Path "maps/a.html") = ".html"
    /\ batch_pdf_output_path (PurePath.Path "/tmp/out") (PurePath.Path "maps/a.html")
       = PurePath.mk (PurePath.anchor (PurePath.Path "/tmp/out"))
                     (PurePath.parts (PurePath.Path "/tmp/out") ++ [(pre ++ ".pdf")%string]).
Proof.
  apply (discovered_file_destination demo_fs (PurePath.Path "maps")
                                     (PurePath.Path "/tmp/out")
                                     (PurePath.Path "maps/a.html")).
  - vm_compute. auto.
  - vm_compute. discriminate.
  - reflexivity.
Defined.

(** X6: two different entries discovered in one directory never get the
    same destination, the bare name [.html] apart. *)
Theorem distinct_files_distinct_destinations
        (f : FS.t) (html_path pdf_path x y : PurePath.t) :
  In x (FS.glob_star_html f html_path) ->
  In y (FS.glob_star_html f html_path) ->
  PurePath.name x <> ".html" -> PurePath.name y <> ".html" ->
  Str.mem "/" (PurePath.name x) = false -> Str.mem "/" (PurePath.name y) = false ->
  x <> y ->
  batch_pdf_output_path pdf_path x <> batch_pdf_output_path pdf_path y.
Proof.
  intros Hx Hy Nx Ny Sx Sy Hxy E. apply Hxy.
  destruct (discovered_entry f html_path x Hx Nx) as (px & Ex & Hsx & _).
  destruct (discovered_entry f html_path y Hy Ny) as (py & Ey & Hsy & _).
  pose proof (stem_pdf_part_ok _ Sx) as Px. fold (PurePath.stem x) in Px.
  pose proof (stem_pdf_part_ok _ Sy) as Py. fold (PurePath.stem y) in Py.
  unfold batch_pdf_output_path in E.
  rewrite (joinpath_part _ _ Px), (joinpath_part _ _ Py), Hsx, Hsy in E.
  injection E as E. apply app_inv_head in E.
  injection E as E. apply append_inj_left in E. subst py.
  rewrite Ex, Ey. reflexivity.
Qed.

Lemma distinct_files_distinct_destinations_witness :
  batch_pdf_output_path (PurePath.Path "PDF") (PurePath.Path "maps/a.html")
  <> batch_pdf_output_path (PurePath.Path "PDF") (PurePath.Path "maps/b.html").
Proof.
  apply (distinct_files_distinct_destinations
           demo_fs (PurePath.Path "maps") (PurePath.Path "PDF")
           (PurePath.Path "maps/a.html") (PurePath.Path "maps/b.html")).
  - vm_compute. auto.
  - vm_compute. auto.
  - vm_compute. discriminate.
  - vm_compute. discriminate.
  - reflexivity.
  - reflexivity.
  - vm_compute. discriminate.
Defined.

(** The exception: [.html] has no suffix for [pathlib], so it keeps its
    whole name as stem and collides with [.html.html]. *)
Example bare_html_collides :
  batch_pdf_output_path (PurePath.Path "PDF") (PurePath.Path "maps/.html")
  = batch_pdf_output_path (PurePath.Path "PDF") (PurePath.Path "maps/.html.html")
  /\ FS.matches_star_html ".html" = true
  /\ FS.matches_star_html ".html.html" = true.
Proof. repeat split. Qed.

(** The single-file test accepts [Report.HTML]; the batch does not discover
    it. *)
Example upper_case_suffix :
  is_html_file demo_fs (PurePath.Path "maps/Report.HTML") = true
  /\ FS.matches_star_html "Report.HTML" = false.
Proof. split; reflexivity. Qed.

(* ================================================================== *)
(** ** Nothing is rasterized before the page is loaded *)

Lemma loads_from_any_state (evs : list Event) :
  loads_before_pdf NotLoaded evs = true -> forall st, loads_before_pdf st evs = true.
Proof.
  induction evs as [| e evs IH]; intros H st; simpl in *; auto.
  destruct e as [l | p ok | c r]; auto.
  destruct c; try destruct r; auto; try discriminate.
Qed.

Lemma loads_app (a b : list Event) :
  forall st, loads_before_pdf st a = true -> loaded_before_pdf b ->
             loads_before_pdf st (a ++ b) = true.
Proof.
  induction a as [| e a IH]; intros st Ha Hb; simpl in *.
  - apply loads_from_any_state. exact Hb.
  - destruct e as [l | p ok | c r]; auto.
    destruct c; try destruct r; auto.
    all: apply andb_true_iff in Ha; destruct Ha as [H1 H2]; rewrite H1; simpl; auto.
Qed.

Lemma loaded_nil : loaded_before_pdf [].
Proof. reflexivity. Qed.

Lemma loaded_app (a b : list Event) :
  loaded_before_pdf a -> loaded_before_pdf b -> loaded_before_pdf (a ++ b).
Proof. intros Ha Hb. apply loads_app; assumption. Qed.

Section Loading.

Variable W : World.

Ltac oracle_cases :=
  repeat (cbn;
          match goal with
          | |- context [match fails W ?h ?c with _ => _ end] =>
              let E := fresh "E" in destruct (fails W h c) eqn:E
          | |- context [Called ?c (fails W ?h ?c)] =>
              let E := fresh "E" in destruct (fails W h c) eqn:E
          | |- context [if FS.exists_ ?f ?q then _ else _] =>
              let X := fresh "X" in destruct (FS.exists_ f q) eqn:X
          end).

Lemma convert_one_loaded (b : nat) (pdf_path f : PurePath.t) (g : list string) :
  keeps loaded_before_pdf (convert_one W b pdf_path f g).
Proof.
  intros s.
  unfold convert_one, try_except, bind, new_page, new_handle, file_url_of,
    path_exists, get_fs, ret, call, page_pdf, print, emit.
  oracle_cases.
  all: cbn; eexists; split; [rewrite <- ?app_assoc; reflexivity |].
  all: unfold loaded_before_pdf; repeat (progress (cbn; rewrite ?Nat.eqb_refl)); reflexivity.
Qed.

Lemma for_html_files_loaded (b : nat) (pdf_path : PurePath.t) (files : list PurePath.t) :
  forall g, keeps loaded_before_pdf (for_html_files W b pdf_path files g).
Proof.
  induction files as [| f rest IH]; intros g; simpl.
  - apply (keeps_ret _ loaded_nil).
  - apply (keeps_bind _ loaded_app); [apply convert_one_loaded | exact IH].
Qed.

Lemma single_body_loaded (html_path pdf_path : PurePath.t) :
  keeps loaded_before_pdf
        (with_playwright W
           (bind (launch W) (fun browser =>
            bind (new_page W browser) (fun page =>
            bind (file_url_of html_path) (fun file_url =>
            bind (call W (Goto page file_url "networkidle")) (fun _ =>
            bind (call W (WaitForTimeout page 2000)) (fun _ =>
            bind (page_pdf W page (pdf_options (PurePath.str pdf_path))) (fun _ =>
            call W (BrowserClose browser))))))))).
Proof.
  intros s.
  unfold with_playwright, bind, launch, new_page, new_handle, file_url_of, get_fs, ret,
    call, page_pdf, raise.
  destruct (playwright_available W); [| exists []; rewrite app_nil_r; split; reflexivity].
  oracle_cases.
  all: cbn; eexists; split; [rewrite <- ?app_assoc; reflexivity |].
  all: unfold loaded_before_pdf; repeat (progress (cbn; rewrite ?Nat.eqb_refl)); reflexivity.
Qed.

Lemma batch_body_loaded (pdf_path : PurePath.t) (files : list PurePath.t) :
  keeps loaded_before_pdf
        (with_playwright W
           (bind (launch W) (fun browser =>
            bind (for_html_files W browser pdf_path files []) (fun generated_pdfs =>
            bind (call W (BrowserClose browser)) (fun _ => ret generated_pdfs))))).
Proof.
  intros s.
  unfold with_playwright.
  destruct (playwright_available W); [| exists []; rewrite app_nil_r; split; reflexivity].
  unfold bind at 1, call at 1. cbn [fs trace fresh].
  destruct (fails W (trace s) Start) as [m |] eqn:E.
  { exists [Called Start (Some m)]. split; reflexivity. }
  unfold bind at 1, launch, bind at 1, new_handle. cbn [fs trace fresh].
  unfold bind at 1, call at 1. cbn [fs trace fresh].
  destruct (fails W (trace s ++ [Called Start None]) (Launch (fresh s))) as [m |] eqn:E2.
  { cbn.
    match goal with |- context [fails W ?h Stop] => destruct (fails W h Stop) end;
      cbn; (eexists; split; [rewrite <- !app_assoc; reflexivity | reflexivity]). }
  unfold ret at 1. unfold bind at 1.
  match goal with
  | |- context [for_html_files W ?b ?p ?fl ?g ?st] =>
      destruct (for_html_files_loaded b p fl g st) as (evs & T & L);
      destruct (for_html_files_run W b p fl g st) as (g' & s1 & segs & Erun & _)
  end.
  rewrite Erun in *. cbn [snd trace] in T. cbn [fs trace fresh].
  unfold bind at 1, call at 1.
  exists ([Called Start None; Called (Launch (fresh s)) None] ++ evs
          ++ [Called (BrowserClose (fresh s)) (fails W (trace s1) (BrowserClose (fresh s)));
              Called Stop
                (fails W (trace s1 ++ [Called (BrowserClose (fresh s))
                                         (fails W (trace s1) (BrowserClose (fresh s)))]) Stop)]).
  split.
  - destruct (fails W (trace s1) (BrowserClose (fresh s))); cbn;
      match goal with |- context [fails W ?h Stop] => destruct (fails W h Stop) end;
      cbn; rewrite T, <- !app_assoc; reflexivity.
  - apply (loaded_app [_; _]); [reflexivity |].
    apply loaded_app; [exact L | reflexivity].
Qed.

Ltac loaded_step :=
  first
    [ apply single_body_loaded
    | apply batch_body_loaded
    | apply (keeps_bind loaded_before_pdf loaded_app)
    | apply (keeps_ret loaded_before_pdf loaded_nil)
    | apply (keeps_raise loaded_before_pdf loaded_nil)
    | apply (keeps_sys_exit loaded_before_pdf loaded_nil)
    | apply (keeps_get_fs loaded_before_pdf loaded_nil)
    | apply keeps_print
    | apply (keeps_print_each loaded_before_pdf loaded_nil loaded_app)
    | apply keeps_mkdir
    | apply (keeps_check_playwright W loaded_before_pdf loaded_nil loaded_app)
    | apply (keeps_try_except loaded_before_pdf loaded_app)
    | apply (keeps_try_except_interrupt loaded_before_pdf loaded_app)
    | match goal with
      | |- forall _, _ => intro
      | |- loaded_before_pdf _ => reflexivity
      | |- keeps _ (if ?b then _ else _) => destruct b
      | |- keeps _ (match ?x with _ => _ end) => destruct x
      | |- keeps _ (let (_, _) := ?x in _) => destruct x
      end ].

Lemma convert_loaded (html_file : string) (output_dir : option string) :
  keeps loaded_before_pdf (convert_html_to_pdf_async W html_file output_dir).
Proof.
  unfold convert_html_to_pdf_async, single_pdf_path, path_exists. repeat loaded_step.
Qed.

Lemma batch_loaded (html_dir : string) (pdf_dir : option string) :
  keeps loaded_before_pdf (batch_convert_directory_async W html_dir pdf_dir).
Proof.
  unfold batch_convert_directory_async, path_exists. repeat loaded_step.
Qed.

(** X7: in every run of the single conversion, of the batch conversion and
    of either command line, whatever the engine does, a page is only
    rasterized right after its [goto] (waiting for the network to be idle)
    and a settle delay of at least one second have both returned. *)
Theorem pdf_only_after_load_and_settle :
  (forall html_file output_dir,
      keeps loaded_before_pdf (convert_html_to_pdf_async W html_file output_dir))
  /\ (forall html_dir pdf_dir,
         keeps loaded_before_pdf (batch_convert_directory_async W html_dir pdf_dir))
  /\ (forall args, keeps loaded_before_pdf (pdf_generator_main W args))
  /\ (forall args, keeps loaded_before_pdf (generate_pdfs_main W args)).
Proof.
  split; [exact convert_loaded |].
  split; [exact batch_loaded |].
  split; intros args.
  - unfold pdf_generator_main, convert_html_to_pdf, batch_convert_directory.
    repeat first [apply convert_loaded | apply batch_loaded | loaded_step].
  - unfold generate_pdfs_main, gen_convert, convert_html_to_pdf, batch_convert_directory,
      path_exists.
    repeat first [apply convert_loaded | apply batch_loaded | loaded_step].
Qed.

End Loading.

Example loading_is_not_trivial :
  loads_before_pdf NotLoaded
    [Called (Goto 1 (FileUri (PurePath.Path "/a.html")) "networkidle") None;
     Called (Pdf 1 (pdf_options "a.pdf")) None] = false
  /\ loads_before_pdf NotLoaded
       [Called (Goto 1 (FileUri (PurePath.Path "/a.html")) "networkidle") None;
        Called (WaitForTimeout 1 1000) None;
        Called (Pdf 2 (pdf_options "a.pdf")) None] = false
  /\ loads_before_pdf NotLoaded
       [Called (Goto 1 (FileUri (PurePath.Path "/a.html")) "networkidle") None;
        Called (WaitForTimeout 1 1000) None;
        Called (Pdf 1 (pdf_options "a.pdf")) None] = true.
Proof. repeat split. Qed.

(* ================================================================== *)
(** ** Every way the two conversions can end *)

Section Outcomes.

Variable W : World.

Lemma single_pdf_path_pure (html_path : PurePath.t) (output_dir : option string) (s : State) :
  (exists p, single_pdf_path html_path output_dir s = (Val p, s))
  \/ single_pdf_path html_path output_dir s
     = (Exc (Exception (ValueError (PurePath.str html_path))), s).
Proof.
  unfold single_pdf_path.
  destruct output_dir as [d |]; [destruct (Str.truthy d) |];
    try (left; eexists; reflexivity);
    destruct (PurePath.with_suffix html_path ".pdf");
    (left; eexists; reflexivity) || (right; reflexivity).
Qed.

(** A single conversion returns [None] without any success line, returns a
    path after exactly one success line, or raises an ordinary exception
    (from the destination or its directory) without any success line. *)
Lemma convert_outcomes (s : State) (html_file : string) (output_dir : option string) :
  exists r s' evs,
    convert_html_to_pdf_async W html_file output_dir s = (r, s')
    /\ trace s' = trace s ++ evs
    /\ (r = Val None /\ successes (report evs) = 0
        \/ (exists t, r = Val (Some t)) /\ successes (report evs) = 1
        \/ (exists e, r = Exc (Exception e)) /\ successes (report evs) = 0).
Proof.
  destruct (FS.os_path_exists (fs s) html_file) eqn:Hex.
  2: { unfold convert_html_to_pdf_async, bind, get_fs, print, emit, ret. rewrite Hex. cbn.
       do 3 eexists. split; [reflexivity |]. split; [reflexivity |]. left. split; reflexivity. }
  destruct (single_pdf_path_pure (PurePath.Path html_file) output_dir s) as [(p & Hp) | Hp].
  2: { unfold convert_html_to_pdf_async. unfold bind at 1, get_fs. rewrite Hex. cbn [negb].
       unfold bind at 1. rewrite Hp.
       exists (Exc (Exception (ValueError (PurePath.str (PurePath.Path html_file))))), s, [].
       rewrite app_nil_r. split; [reflexivity |]. split; [reflexivity |].
       right; right. split; [eexists; reflexivity | reflexivity]. }
  destruct (FS.mkdir_p (fs s) (PurePath.parent p)) as [f1 |] eqn:Hmk.
  2: { unfold convert_html_to_pdf_async. unfold bind at 1, get_fs. rewrite Hex. cbn [negb].
       unfold bind at 1. rewrite Hp. unfold bind at 1, mkdir. rewrite Hmk.
       do 3 eexists. split; [reflexivity |]. split; [reflexivity |].
       right; right. split; [eexists; reflexivity | reflexivity]. }
  destruct (convert_run W s html_file output_dir p f1 Hex Hp Hmk)
    as (r & s' & evs & E & T & _ & Hcases & _).
  exists (Val r), s', (Mkdir (PurePath.parent p) true :: evs).
  split; [exact E |]. split; [exact T |].
  cbn [report outcome_of].
  destruct Hcases as [(Hr & _ & _ & _ & Hrep) | (Hr & Hrep & _)]; rewrite Hrep, Hr.
  - right; left. split; [eexists; reflexivity | reflexivity].
  - left. split; reflexivity.
Qed.

(** A batch returns as many paths as it printed success lines, or raises an
    ordinary exception. *)
Lemma batch_outcomes (s : State) (html_dir : string) (pdf_dir : option string) :
  exists r s' evs,
    batch_convert_directory_async W html_dir pdf_dir s = (r, s')
    /\ trace s' = trace s ++ evs
    /\ ((exists g, r = Val g /\ List.length g = successes (report evs))
        \/ (exists e, r = Exc (Exception e))).
Proof.
  unfold batch_convert_directory_async, bind at 1, path_exists, bind at 1, get_fs, ret.
  destruct (FS.exists_ (fs s) (PurePath.Path html_dir)) eqn:Hex; cbn [negb].
  2: { cbn. do 3 eexists. split; [reflexivity |]. split; [reflexivity |].
       left. eexists; split; reflexivity. }
  unfold bind at 1, mkdir.
  destruct (FS.mkdir_p (fs s) (batch_pdf_path (PurePath.Path html_dir) pdf_dir))
    as [f1 |] eqn:Hmk.
  2: { do 3 eexists. split; [reflexivity |]. split; [reflexivity |].
       right. eexists; reflexivity. }
  unfold bind at 1. cbn [fs].
  destruct (FS.glob_star_html f1 (PurePath.Path html_dir)) as [| f0 rest] eqn:Efiles.
  { cbn. do 3 eexists. split; [reflexivity |].
    split; [rewrite <- app_assoc; reflexivity |]. left. eexists; split; reflexivity. }
  cbn [nonempty negb].
  unfold bind at 1, print, emit. cbn [fs trace fresh].
  unfold with_playwright.
  destruct (playwright_available W).
  2: { cbn. do 3 eexists. split; [reflexivity |].
       split; [rewrite <- app_assoc; reflexivity |]. right. eexists; reflexivity. }
  unfold bind at 1, call at 1. cbn [fs trace fresh].
  match goal with |- context [fails W ?h Start] => destruct (fails W h Start) eqn:E1 end.
  { do 3 eexists. split; [reflexivity |].
    split; [cbn; rewrite <- !app_assoc; reflexivity |]. right. eexists; reflexivity. }
  unfold bind at 1, launch, bind at 1, new_handle. cbn [fs trace fresh].
  unfold bind at 1, call at 1. cbn [fs trace fresh].
  match goal with |- context [fails W ?h (Launch ?b)] =>
                    destruct (fails W h (Launch b)) eqn:E2 end.
  { cbn. match goal with |- context [fails W ?h Stop] => destruct (fails W h Stop) end;
      (do 3 eexists; split; [reflexivity |];
       split; [cbn; rewrite <- !app_assoc; reflexivity |]; right; eexists; reflexivity). }
  unfold ret at 1. unfold bind at 1.
  match goal with
  | |- context [for_html_files W ?b ?p ?fl ?g ?st] =>
      destruct (for_html_files_run W b p fl g st) as (g' & s1 & segs & E & T & R & G)
  end.
  rewrite E. unfold bind at 1, call at 1. cbn [fs trace fresh] in *.
  destruct (segments_report _ _ _ R) as (L & _).
  destruct (fails W (trace s1) (BrowserClose (fresh s))) eqn:E3; cbn;
    match goal with |- context [fails W ?h Stop] => destruct (fails W h Stop) end;
    (do 3 eexists; split; [reflexivity |];
     split; [cbn; rewrite T, <- !app_assoc; reflexivity |]).
  all: try (right; eexists; reflexivity).
  left. exists g'. split; [reflexivity |].
  cbn [app report outcome_of]. rewrite report_app. cbn [app report outcome_of].
  rewrite app_nil_r. cbn in G. exact G.
Qed.

End Outcomes.

(* ================================================================== *)
(** ** Exit statuses *)

Lemma print_each_run (ls : list Line) (s : State) :
  print_each ls s = (Val tt, mkState (fs s) (trace s ++ map Printed ls) (fresh s)).
Proof.
  revert s. induction ls as [| l r IH]; intros s; simpl.
  - rewrite app_nil_r. destruct s; reflexivity.
  - unfold bind, print, emit. rewrite IH. cbn. rewrite <- app_assoc. reflexivity.
Qed.

Lemma report_listed (names : list string) :
  report (map Printed (map (fun pdf_file => ListedPdf (pdf_name pdf_file)) names)) = [].
Proof. induction names; simpl; auto. Qed.

Section ExitStatus.

Variable W : World.

(** [main] of [generate_pdfs.py], once the arguments are parsed: it ends
    with status 0 or 1.  Given an input, it ends with 0 only if at least one
    success line was printed; given none, it ends with 0 exactly when
    Playwright could be imported. *)
Lemma generate_pdfs_main_exit_status (args : Args) (s : State) :
  let run := generate_pdfs_main W args s in
  (exit_code (fst run) = 0%Z \/ exit_code (fst run) = 1%Z)
  /\ (truthy_opt (input args) = true ->
      exit_code (fst run) = 0%Z ->
      exists evs, trace (snd run) = trace s ++ evs /\ 1 <= successes (report evs))
  /\ (truthy_opt (input args) = false ->
      (exit_code (fst run) = 0%Z <-> playwright_available W = true)).
Proof.
  cbv zeta.
  pose proof (convert_outcomes W) as Hconv.
  pose proof (batch_outcomes W) as Hbatch.
  unfold generate_pdfs_main, gen_convert, check_playwright, convert_html_to_pdf,
    batch_convert_directory, path_exists.
  set (conv := convert_html_to_pdf_async W) in *.
  set (batch := batch_convert_directory_async W) in *.
  clearbody conv batch.
  unfold bind, get_fs, ret, print, emit, sys_exit, raise, mkdir, try_except,
    try_except_interrupt.
  destruct (check args), (truthy_opt (input args)) eqn:Hin, (playwright_available W) eqn:Hav;
    cbn -[is_html_file gen_output_dir pdf_name].
  all: try solve [repeat split; auto; intros; try discriminate; try congruence].
  all: match goal with
       | |- context [FS.exists_ ?f ?p] => destruct (FS.exists_ f p) eqn:Hex
       end; cbn -[is_html_file gen_output_dir pdf_name].
  all: try solve [repeat split; auto; intros; try discriminate; try congruence].
  all: destruct (gen_output_dir args _) as [output_dir is_default] eqn:Hout;
    cbn -[is_html_file gen_output_dir pdf_name].
  all: match goal with
       | |- context [FS.mkdir_p ?f ?p] => destruct (FS.mkdir_p f p) as [f1 |] eqn:Hmk
       end; cbn -[is_html_file gen_output_dir pdf_name].
  all: try solve [repeat split; auto; intros; try discriminate; try congruence].
  all: match goal with
       | |- context [is_html_file ?f ?p] => destruct (is_html_file f p) eqn:Hhtml
       end; cbn -[is_html_file gen_output_dir pdf_name].
  all: try match goal with
         | |- context [FS.is_dir ?f ?p] => destruct (FS.is_dir f p) eqn:Hdir
         end; cbn -[is_html_file gen_output_dir pdf_name].
  all: try solve [repeat split; auto; intros; try discriminate; try congruence].
  all: try match goal with
         | H : forall st a b, exists r s' evs, ?cv a b st = (r, s') /\ _ /\ (_ \/ _ \/ _)
           |- context [?cv ?a ?b ?st] =>
             destruct (H st a b)
               as (r & s1 & evs & E & T & [(-> & Hs) | [((t & ->) & Hs) | ((e & ->) & Hs)]]);
             rewrite E; cbn -[pdf_name] in T |- *
         end.
  all: try match goal with
         | H : forall st a b, exists r s' evs, ?cv a b st = (r, s') /\ _ /\ (_ \/ _)
           |- context [?cv ?a ?b ?st] =>
             destruct (H st a b)
               as (r & s1 & evs & E & T & [(g & -> & Hs) | (e & ->)]);
             rewrite E; cbn -[pdf_name] in T |- *;
             [destruct g as [| g0 g]; cbn -[pdf_name] in Hs |- * |]
         end.
  all: try rewrite print_each_run; cbn -[pdf_name].
  all: try match goal with
         | |- context [if Str.truthy ?t then _ else _] => destruct (Str.truthy t)
         end; cbn -[pdf_name].
  all: split; [auto |]; split; [| intros; discriminate].
  all: intros _ H0; try discriminate.
  all: eexists; (split; [rewrite T, <- ?app_assoc; cbn [app]; reflexivity |]).
  all: cbn [report outcome_of]; rewrite ?report_app, ?successes_app; cbn [report outcome_of];
    rewrite ?report_app, ?report_listed, ?successes_app; cbn -[pdf_name]; lia.
Qed.

(** [main] of [pdf_generator.py], once the arguments are parsed: it ends
    with status 0 or 1.  With [--check-deps] it only prints, whatever else
    is on the command line, and ends with 0 exactly when Playwright could be
    imported.  Without it, status 0 requires Playwright and an input, and on
    a single HTML file also a printed success line. *)
Lemma pdf_generator_main_exit_status (args : Args) (s : State) :
  let run := pdf_generator_main W args s in
  let input_path := PurePath.Path (match input args with Some i => i | None => "" end) in
  (exit_code (fst run) = 0%Z \/ exit_code (fst run) = 1%Z)
  /\ (check args = true ->
      (exit_code (fst run) = 0%Z <-> playwright_available W = true)
      /\ fs (snd run) = fs s
      /\ exists lines, trace (snd run) = trace s ++ map Printed lines)
  /\ (check args = false ->
      exit_code (fst run) = 0%Z ->
      playwright_available W = true
      /\ truthy_opt (input args) = true
      /\ (is_html_file (fs s) input_path = true ->
          exists evs, trace (snd run) = trace s ++ evs /\ 1 <= successes (report evs))).
Proof.
  cbv zeta.
  pose proof (convert_outcomes W) as Hconv.
  pose proof (batch_outcomes W) as Hbatch.
  unfold pdf_generator_main, check_playwright, convert_html_to_pdf, batch_convert_directory.
  set (conv := convert_html_to_pdf_async W) in *.
  set (batch := batch_convert_directory_async W) in *.
  clearbody conv batch.
  unfold bind, get_fs, ret, print, emit, sys_exit, raise.
  destruct (check args), (truthy_opt (input args)) eqn:Hin, (playwright_available W) eqn:Hav;
    cbn -[is_html_file].
  all: try solve [repeat split; auto; intros; try discriminate; try congruence;
                  try (exists [PlaywrightIsAvailable; AllDependenciesAvailable];
                       cbn; rewrite <- app_assoc; reflexivity);
                  try (exists [PlaywrightInstallInstructions; MissingDependencies];
                       cbn; rewrite <- app_assoc; reflexivity)].
  all: match goal with
       | |- context [is_html_file ?f ?p] => destruct (is_html_file f p) eqn:Hhtml
       end; cbn -[is_html_file].
  all: try match goal with
         | |- context [FS.is_dir ?f ?p] => destruct (FS.is_dir f p) eqn:Hdir
         end; cbn -[is_html_file].
  all: try solve [repeat split; auto; intros; try discriminate; try congruence].
  all: try match goal with
         | H : forall st a b, exists r s' evs, ?cv a b st = (r, s') /\ _ /\ (_ \/ _ \/ _)
           |- context [?cv ?a ?b ?st] =>
             destruct (H st a b)
               as (r & s1 & evs & E & T & [(-> & Hs) | [((t & ->) & Hs) | ((e & ->) & Hs)]]);
             rewrite E; cbn in T |- *
         end.
  all: try match goal with
         | H : forall st a b, exists r s' evs, ?cv a b st = (r, s') /\ _ /\ (_ \/ _)
           |- context [?cv ?a ?b ?st] =>
             destruct (H st a b)
               as (r & s1 & evs & E & T & [(g & -> & Hs) | (e & ->)]);
             rewrite E; cbn in T |- *;
             [destruct g as [| g0 g]; cbn in Hs |- * |]
         end.
  all: try match goal with
         | |- context [if Str.truthy ?t then _ else _] => destruct (Str.truthy t)
         end; cbn.
  all: try match goal with
         | |- context [if truthy_opt ?t then _ else _] => destruct (truthy_opt t)
         end; cbn.
  all: split; [auto |]; split; [intros; discriminate |].
  all: intros _ H0; try discriminate.
  all: split; [reflexivity |]; split; [reflexivity |].
  all: intros Hsingle; try discriminate.
  all: eexists; (split; [rewrite T, <- ?app_assoc; cbn [app]; reflexivity |]).
  all: cbn [report outcome_of]; rewrite ?report_app, ?successes_app; cbn [report outcome_of];
    rewrite ?report_app, ?successes_app; cbn; lia.
Qed.

End ExitStatus.

(* ================================================================== *)
(** ** Without Playwright *)

Section WithoutPlaywright.

Variable W : World.
Hypothesis unavailable : playwright_available W = false.

Lemma with_playwright_unavailable {A} (P : Event -> Prop) (body : M A) :
  emits P (with_playwright W body).
Proof. unfold with_playwright. rewrite unavailable. apply emits_raise. Qed.

Ltac quiet_step :=
  first
    [ apply with_playwright_unavailable
    | apply emits_bind
    | apply emits_ret
    | apply emits_raise
    | apply emits_sys_exit
    | apply emits_get_fs
    | apply emits_print
    | apply emits_print_each
    | apply emits_mkdir
    | apply emits_try_except
    | apply emits_try_except_interrupt
    | match goal with
      | |- forall _, _ => intro
      | |- is_engine_call _ = false => reflexivity
      | |- emits _ (if ?b then _ else _) => destruct b
      | |- emits _ (match ?x with _ => _ end) => destruct x
      | |- emits _ (let (_, _) := ?x in _) => destruct x
      end ].

Lemma convert_quiet (html_file : string) (output_dir : option string) :
  emits (fun e => is_engine_call e = false)
        (convert_html_to_pdf_async W html_file output_dir).
Proof.
  unfold convert_html_to_pdf_async, single_pdf_path, path_exists. repeat quiet_step.
Qed.

Lemma batch_quiet (html_dir : string) (pdf_dir : option string) :
  emits (fun e => is_engine_call e = false)
        (batch_convert_directory_async W html_dir pdf_dir).
Proof. unfold batch_convert_directory_async, path_exists. repeat quiet_step. Qed.

Lemma convert_unavailable (s : State) (html_file : string) (output_dir : option string) :
  fst (convert_html_to_pdf_async W html_file output_dir s) = Val None
  \/ exists e, fst (convert_html_to_pdf_async W html_file output_dir s) = Exc (Exception e).
Proof.
  destruct (FS.os_path_exists (fs s) html_file) eqn:Hex.
  2: { left. unfold convert_html_to_pdf_async, bind, get_fs, print, emit, ret.
       rewrite Hex. reflexivity. }
  destruct (single_pdf_path_pure (PurePath.Path html_file) output_dir s) as [(p & Hp) | Hp].
  2: { right. unfold convert_html_to_pdf_async. unfold bind at 1, get_fs. rewrite Hex.
       cbn [negb]. unfold bind at 1. rewrite Hp. eexists; reflexivity. }
  destruct (FS.mkdir_p (fs s) (PurePath.parent p)) as [f1 |] eqn:Hmk.
  2: { right. unfold convert_html_to_pdf_async. unfold bind at 1, get_fs. rewrite Hex.
       cbn [negb]. unfold bind at 1. rewrite Hp. unfold bind at 1, mkdir. rewrite Hmk.
       eexists; reflexivity. }
  destruct (convert_run W s html_file output_dir p f1 Hex Hp Hmk)
    as (r & s' & evs & E & _ & _ & Hcases & _).
  left. rewrite E.
  destruct Hcases as [(_ & Hav & _) | (-> & _)]; [congruence | reflexivity].
Qed.

Lemma batch_unavailable (s : State) (html_dir : string) (pdf_dir : option string) :
  fst (batch_convert_directory_async W html_dir pdf_dir s) = Val []
  \/ exists e, fst (batch_convert_directory_async W html_dir pdf_dir s) = Exc (Exception e).
Proof.
  unfold batch_convert_directory_async, bind, path_exists, get_fs, ret, mkdir, print, emit,
    with_playwright.
  rewrite unavailable. cbn.
  destruct (FS.exists_ (fs s) (PurePath.Path html_dir)); cbn; auto.
  destruct (FS.mkdir_p (fs s) _); cbn; [| right; eexists; reflexivity].
  destruct (FS.glob_star_html _ _); cbn; [auto | right; eexists; reflexivity].
Qed.

(** When Playwright could not be imported, both [main]s end with status 1
    whatever the parsed arguments, and the engine is never called:
    [generate_pdfs.py], which does not check the import before converting,
    gets there through the exception handlers. *)
Lemma without_playwright_main_exit_one (args : Args) (s : State) :
  (exit_code (fst (pdf_generator_main W args s)) = 1%Z
   /\ exit_code (fst (generate_pdfs_main W args s)) = 1%Z)
  /\ emits (fun e => is_engine_call e = false) (pdf_generator_main W args)
  /\ emits (fun e => is_engine_call e = false) (generate_pdfs_main W args).
Proof.
  split; [split |].
  - unfold pdf_generator_main, check_playwright, bind, print, emit, ret, sys_exit, raise.
    rewrite unavailable.
    destruct (check args), (truthy_opt (input args)); reflexivity.
  - pose proof convert_unavailable as Hconv.
    pose proof batch_unavailable as Hbatch.
    unfold generate_pdfs_main, gen_convert, check_playwright, convert_html_to_pdf,
      batch_convert_directory, path_exists.
    set (conv := convert_html_to_pdf_async W) in *.
    set (batch := batch_convert_directory_async W) in *.
    clearbody conv batch.
    unfold bind, get_fs, ret, print, emit, sys_exit, raise, mkdir, try_except,
      try_except_interrupt.
    rewrite unavailable.
    destruct (check args), (truthy_opt (input args)); cbn -[is_html_file gen_output_dir];
      try reflexivity.
    destruct (FS.exists_ _ _); cbn -[is_html_file gen_output_dir]; try reflexivity.
    destruct (gen_output_dir args _) as [output_dir is_default].
    cbn -[is_html_file gen_output_dir].
    destruct (FS.mkdir_p _ _) as [f1 |]; cbn -[is_html_file gen_output_dir];
      try reflexivity.
    destruct (is_html_file _ _); cbn -[is_html_file gen_output_dir].
    + match goal with |- context [conv ?a ?b ?st] =>
                        destruct (Hconv st a b) as [H | (e & H)];
                        destruct (conv a b st) as [r s1]; cbn in H; subst r
      end; reflexivity.
    + destruct (FS.is_dir _ _); cbn; try reflexivity.
      match goal with |- context [batch ?a ?b ?st] =>
                        destruct (Hbatch st a b) as [H | (e & H)];
                        destruct (batch a b st) as [r s1]; cbn in H; subst r
      end; reflexivity.
  - split.
    + unfold pdf_generator_main, check_playwright, convert_html_to_pdf,
        batch_convert_directory.
      repeat first [apply convert_quiet | apply batch_quiet | quiet_step].
    + unfold generate_pdfs_main, gen_convert, check_playwright, convert_html_to_pdf,
        batch_convert_directory, path_exists.
      repeat first [apply convert_quiet | apply batch_quiet | quiet_step].
Qed.

End WithoutPlaywright.

(* ================================================================== *)
(** ** The exit status of the command lines *)

Section CommandLines.

Variable W : World.

(** X8: whatever [argparse] makes of the command line, a run of
    [generate_pdfs.py] that is not interrupted ends with status 0, 1 or 2:
    with 2 exactly when the command line was rejected, and with 0 after
    nothing but the help text when help was asked for, with or without
    Playwright.  Once the arguments are parsed the status is 0 or 1: given
    an input, 0 only if at least one success line was printed; given none,
    0 exactly when Playwright could be imported. *)
Theorem generate_pdfs_exit_status (parsed : Parse) (s : State) :
  let run := generate_pdfs_program W parsed s in
  (exit_code (fst run) = 0%Z \/ exit_code (fst run) = 1%Z \/ exit_code (fst run) = 2%Z)
  /\ (exit_code (fst run) = 2%Z <-> exists message, parsed = Rejected message)
  /\ (parsed = Help ->
      run = (Exc (SystemExit 0),
             mkState (fs s) (trace s ++ [Printed HelpText]) (fresh s)))
  /\ (forall args,
         parsed = Parsed args ->
         (exit_code (fst run) = 0%Z \/ exit_code (fst run) = 1%Z)
         /\ (truthy_opt (input args) = true ->
             exit_code (fst run) = 0%Z ->
             exists evs, trace (snd run) = trace s ++ evs /\ 1 <= successes (report evs))
         /\ (truthy_opt (input args) = false ->
             (exit_code (fst run) = 0%Z <-> playwright_available W = true))).
Proof.
  cbv zeta. unfold generate_pdfs_program, run_script.
  destruct parsed as [args | message |].
  - pose proof (generate_pdfs_main_exit_status W args s) as Hmain.
    cbv zeta in Hmain. destruct Hmain as (H01 & Hin & Hno).
    split; [destruct H01 as [-> | ->]; auto |].
    split.
    { split; [intros H2; destruct H01 as [E | E]; rewrite E in H2; discriminate
             | intros (m & Hm); discriminate]. }
    split; [discriminate |].
    intros a Ha. injection Ha as <-. auto.
  - split; [cbn; auto |].
    split; [split; [eauto | reflexivity] |].
    split; [discriminate |]. intros a Ha. discriminate.
  - split; [cbn; auto |].
    split; [split; [discriminate | intros (m & Hm); discriminate] |].
    split; [reflexivity |]. intros a Ha. discriminate.
Qed.

(** X9: whatever [argparse] makes of the command line, a run of
    [pdf_generator.py] that is not interrupted ends with status 0, 1 or 2:
    with 2 exactly when the command line was rejected, and with 0 after
    nothing but the help text when help was asked for.  Once the arguments
    are parsed the status is 0 or 1.  With [--check-deps] the script only
    prints, whatever else is on the command line, and ends with 0 exactly
    when Playwright could be imported.  Without it, status 0 requires
    Playwright and an input, and on a single HTML file also a printed
    success line. *)
Theorem pdf_generator_exit_status (parsed : Parse) (s : State) :
  let run := pdf_generator_program W parsed s in
  (exit_code (fst run) = 0%Z \/ exit_code (fst run) = 1%Z \/ exit_code (fst run) = 2%Z)
  /\ (exit_code (fst run) = 2%Z <-> exists message, parsed = Rejected message)
  /\ (parsed = Help ->
      run = (Exc (SystemExit 0),
             mkState (fs s) (trace s ++ [Printed HelpText]) (fresh s)))
  /\ (forall args,
         parsed = Parsed args ->
         let input_path :=
           PurePath.Path (match input args with Some i => i | None => "" end) in
         (exit_code (fst run) = 0%Z \/ exit_code (fst run) = 1%Z)
         /\ (check args = true ->
             (exit_code (fst run) = 0%Z <-> playwright_available W = true)
             /\ fs (snd run) = fs s
             /\ exists lines, trace (snd run) = trace s ++ map Printed lines)
         /\ (check args = false ->
             exit_code (fst run) = 0%Z ->
             playwright_available W = true
             /\ truthy_opt (input args) = true
             /\ (is_html_file (fs s) input_path = true ->
                 exists evs, trace (snd run) = trace s ++ evs
                             /\ 1 <= successes (report evs)))).
Proof.
  cbv zeta. unfold pdf_generator_program, run_script.
  destruct parsed as [args | message |].
  - pose proof (pdf_generator_main_exit_status W args s) as Hmain.
    cbv zeta in Hmain. destruct Hmain as (H01 & Hck & Hno).
    split; [destruct H01 as [-> | ->]; auto |].
    split.
    { split; [intros H2; destruct H01 as [E | E]; rewrite E in H2; discriminate
             | intros (m & Hm); discriminate]. }
    split; [discriminate |].
    intros a Ha. injection Ha as <-. auto.
  - split; [cbn; auto |].
    split; [split; [eauto | reflexivity] |].
    split; [discriminate |]. intros a Ha. discriminate.
  - split; [cbn; auto |].
    split; [split; [discriminate | intros (m & Hm); discriminate] |].
    split; [reflexivity |]. intros a Ha. discriminate.
Qed.

(** X10: when Playwright could not be imported, the status of either
    command line is settled by [argparse] alone: 1 for every command line
    it parses, 2 for one it rejects, 0 when help was asked for; and the
    engine is never called.  [generate_pdfs.py], which does not check the
    import before converting, gets to its 1 through the exception
    handlers. *)
Theorem without_playwright_exit_one (parsed : Parse) (s : State) :
  playwright_available W = false ->
  let status := match parsed with
                | Parsed _ => 1%Z
                | Rejected _ => 2%Z
                | Help => 0%Z
                end in
  (exit_code (fst (pdf_generator_program W parsed s)) = status
   /\ exit_code (fst (generate_pdfs_program W parsed s)) = status)
  /\ emits (fun e => is_engine_call e = false) (pdf_generator_program W parsed)
  /\ emits (fun e => is_engine_call e = false) (generate_pdfs_program W parsed).
Proof.
  intros unavailable. cbv zeta. unfold pdf_generator_program, generate_pdfs_program, run_script.
  destruct parsed as [args | message |].
  - exact (without_playwright_main_exit_one W unavailable args s).
  - split; [split; reflexivity |].
    split; apply emits_sys_exit.
  - split; [split; reflexivity |].
    split; (apply emits_bind; [apply emits_print; reflexivity | intros _; apply emits_sys_exit]).
Qed.

End CommandLines.

Lemma generate_pdfs_exit_status_witness :
  exists evs,
    trace (snd (generate_pdfs_program (goto_fails_for "b.html")
                                      (Parsed (convert_args "maps")) (boot demo_fs)))
    = trace (boot demo_fs) ++ evs
    /\ 1 <= successes (report evs).
Proof.
  apply (proj1 (proj2 (proj2 (proj2 (proj2 (generate_pdfs_exit_status
                                              (goto_fails_for "b.html")
                                              (Parsed (convert_args "maps"))
                                              (boot demo_fs))))
                             (convert_args "maps") eq_refl)));
    vm_compute; reflexivity.
Defined.

Lemma pdf_generator_exit_status_witness :
  (exit_code (fst (pdf_generator_program healthy (Parsed (mkArgs (Some "maps") None true))
                                         (boot demo_fs))) = 0%Z
   <-> playwright_available healthy = true)
  /\ exists evs,
      trace (snd (pdf_generator_program healthy (Parsed (convert_args "notes.html"))
                                        (boot demo_fs)))
      = trace (boot demo_fs) ++ evs
      /\ 1 <= successes (report evs).
Proof.
  split.
  - apply (proj1 (proj2 (proj2 (proj2 (proj2 (pdf_generator_exit_status
                                                healthy
                                                (Parsed (mkArgs (Some "maps") None true))
                                                (boot demo_fs))))
                               (mkArgs (Some "maps") None true) eq_refl))).
    reflexivity.
  - apply (proj2 (proj2 (proj2 (proj2 (proj2 (pdf_generator_exit_status
                                                healthy (Parsed (convert_args "notes.html"))
                                                (boot demo_fs))))
                               (convert_args "notes.html") eq_refl)));
      vm_compute; reflexivity.
Defined.

Lemma without_playwright_witness :
  (exit_code (fst (pdf_generator_program no_playwright (Parsed (convert_args "maps"))
                                         (boot demo_fs))) = 1%Z
   /\ exit_code (fst (generate_pdfs_program no_playwright (Parsed (convert_args "maps"))
                                            (boot demo_fs))) = 1%Z)
  /\ emits (fun e => is_engine_call e = false)
           (pdf_generator_program no_playwright (Parsed (convert_args "maps")))
  /\ emits (fun e => is_engine_call e = false)
           (generate_pdfs_program no_playwright (Parsed (convert_args "maps"))).
Proof.
  apply (without_playwright_exit_one no_playwright (Parsed (convert_args "maps"))
                                     (boot demo_fs) eq_refl).
Defined.

(** The command lines that [argparse] ends itself: an option it does not
    know, and [--help] on a machine without Playwright. *)
Example argparse_ends_the_run :
  let bogus := Rejected "unrecognized arguments: --bogus" in
  exit_code (fst (pdf_generator_program healthy bogus (boot demo_fs))) = 2%Z
  /\ exit_code (fst (generate_pdfs_program healthy bogus (boot demo_fs))) = 2%Z
  /\ pdf_generator_program no_playwright Help (boot demo_fs)
     = (Exc (SystemExit 0), mkState demo_fs [Printed HelpText] 0)
  /\ generate_pdfs_program no_playwright Help (boot demo_fs)
     = (Exc (SystemExit 0), mkState demo_fs [Printed HelpText] 0).
Proof. repeat split; reflexivity. Qed.

(** [resolve] starts at the one root, also for a path written with two
    leading slashes. *)
Example resolve_double_slash :
  PurePath.anchor (PurePath.Path "//work/notes.html") = "//"
  /\ PurePath.str (FS.resolve demo_fs (PurePath.Path "//work/notes.html"))
     = "/work/notes.html".
Proof. split; reflexivity. Qed.

(* ================================================================== *)
(** ** Errors that are not handled *)

(** X11: the single conversion and the batch conversion only guard the
    engine calls.  A source path without a final component (such as ["."])
    makes the single conversion raise [ValueError] when no output directory
    is given, and a destination directory that cannot be made makes either
    conversion raise [OSError]; in each case the exception leaves the
    function, before any engine call. *)
Theorem setup_errors_are_not_caught
        (W : World) (s : State) (html_file : string) (output_dir pdf_dir : option string)
        (p : PurePath.t) :
  (FS.os_path_exists (fs s) html_file = true ->
   PurePath.name (PurePath.Path html_file) = "" ->
   truthy_opt output_dir = false ->
   convert_html_to_pdf_async W html_file output_dir s
   = (Exc (Exception (ValueError (PurePath.str (PurePath.Path html_file)))), s))
  /\ (FS.os_path_exists (fs s) html_file = true ->
      single_pdf_path (PurePath.Path html_file) output_dir s = (Val p, s) ->
      FS.mkdir_p (fs s) (PurePath.parent p) = None ->
      convert_html_to_pdf_async W html_file output_dir s
      = (Exc (Exception (OSError (PurePath.str (PurePath.parent p)))),
         mkState (fs s) (trace s ++ [Mkdir (PurePath.parent p) false]) (fresh s)))
  /\ (let pdf_path := batch_pdf_path (PurePath.Path html_file) pdf_dir in
      FS.exists_ (fs s) (PurePath.Path html_file) = true ->
      FS.mkdir_p (fs s) pdf_path = None ->
      batch_convert_directory_async W html_file pdf_dir s
      = (Exc (Exception (OSError (PurePath.str pdf_path))),
         mkState (fs s) (trace s ++ [Mkdir pdf_path false]) (fresh s))).
Proof.
  split; [| split].
  - intros Hex Hname Hod.
    unfold convert_html_to_pdf_async. unfold bind at 1, get_fs. rewrite Hex. cbn [negb].
    unfold bind at 1.
    assert (Hp : single_pdf_path (PurePath.Path html_file) output_dir s
                 = (Exc (Exception (ValueError (PurePath.str (PurePath.Path html_file)))), s)).
    { unfold single_pdf_path, PurePath.with_suffix. rewrite Hname.
      destruct output_dir as [d |]; [simpl in Hod; rewrite Hod |]; reflexivity. }
    rewrite Hp. reflexivity.
  - intros Hex Hp Hmk.
    unfold convert_html_to_pdf_async. unfold bind at 1, get_fs. rewrite Hex. cbn [negb].
    unfold bind at 1. rewrite Hp. unfold bind at 1, mkdir. rewrite Hmk. reflexivity.
  - intros pdf_path Hex Hmk.
    unfold batch_convert_directory_async, bind at 1, path_exists, bind at 1, get_fs, ret.
    rewrite Hex. cbn [negb]. fold pdf_path. unfold bind at 1, mkdir. rewrite Hmk.
    reflexivity.
Qed.

Lemma setup_errors_witness :
  convert_html_to_pdf_async healthy "." None (boot demo_fs)
  = (Exc (Exception (ValueError ".")), boot demo_fs)
  /\ convert_html_to_pdf_async healthy "maps/a.html" (Some "notes.html/out") (boot demo_fs)
     = (Exc (Exception (OSError "notes.html/out")),
        mkState demo_fs [Mkdir (PurePath.Path "notes.html/out") false] 0)
  /\ batch_convert_directory_async healthy "maps" (Some "notes.html") (boot demo_fs)
     = (Exc (Exception (OSError "notes.html")),
        mkState demo_fs [Mkdir (PurePath.Path "notes.html") false] 0).
Proof.
  split; [| split].
  - apply (proj1 (setup_errors_are_not_caught healthy (boot demo_fs) "." None None
                                              (PurePath.Path ".")));
      vm_compute; reflexivity.
  - apply (proj1 (proj2 (setup_errors_are_not_caught
                           healthy (boot demo_fs) "maps/a.html" (Some "notes.html/out") None
                           (PurePath.Path "notes.html/out/a.pdf"))));
      vm_compute; reflexivity.
  - apply (proj2 (proj2 (setup_errors_are_not_caught
                           healthy (boot demo_fs) "maps" None (Some "notes.html")
                           (PurePath.Path "."))));
      vm_compute; reflexivity.
Defined.

(** X12: [generate_pdfs.py] makes the output directory before it looks at
    the kind of its input: on an input that exists but is neither an HTML
    file nor a directory it ends with status 1 and the invalid-input line,
    without any engine call, but with the output directory made.
    [pdf_generator.py] rejects the same input without touching the file
    system. *)
Theorem invalid_input_leaves_output_directory
        (W : World) (args : Args) (s : State) (arg : string) (f1 : FS.t) :
  let input_path := PurePath.Path arg in
  let output_dir := fst (gen_output_dir args input_path) in
  input args = Some arg ->
  Str.truthy arg = true ->
  check args = false ->
  FS.exists_ (fs s) input_path = true ->
  is_html_file (fs s) input_path = false ->
  FS.is_dir (fs s) input_path = false ->
  FS.mkdir_p (fs s) output_dir = Some f1 ->
  is_html_file f1 input_path = false ->
  FS.is_dir f1 input_path = false ->
  generate_pdfs_main W args s
  = (Exc (SystemExit 1),
     mkState f1
       (trace s ++ [Printed (GenerationBanner (PurePath.str input_path));
                    Printed (OutputLine (PurePath.str output_dir)
                                        (snd (gen_output_dir args input_path)));
                    Mkdir output_dir true;
                    Printed (InvalidInput arg)])
       (fresh s))
  /\ (playwright_available W = true ->
      pdf_generator_main W args s
      = (Exc (SystemExit 1),
         mkState (fs s)
                 (trace s ++ [Printed PlaywrightIsAvailable; Printed (InvalidInput arg)])
                 (fresh s))).
Proof.
  intros input_path output_dir Hin Ht Hcheck Hex Hh0 Hd0 Hmk Hh1 Hd1.
  split.
  - unfold generate_pdfs_main, gen_convert, path_exists, bind, get_fs, ret, print, emit,
      sys_exit, raise, mkdir, try_except, try_except_interrupt.
    rewrite Hin, Hcheck. cbn [truthy_opt orb negb]. rewrite Ht. cbn [negb].
    fold input_path. cbn [fs trace fresh]. rewrite Hex. cbn [negb].
    unfold output_dir in *.
    destruct (gen_output_dir args input_path) as [od is_default].
    cbn [fst snd fs trace fresh] in *. rewrite Hmk. cbn [fs trace fresh].
    rewrite Hh1, Hd1. cbn. rewrite <- !app_assoc. reflexivity.
  - intros Hav.
    unfold pdf_generator_main, check_playwright, bind, get_fs, ret, print, emit, sys_exit,
      raise.
    rewrite Hin, Hcheck, Hav. cbn [truthy_opt]. rewrite Ht. cbn [negb fs trace fresh].
    fold input_path. rewrite Hh0, Hd0. cbn. rewrite <- !app_assoc. reflexivity.
Qed.

Lemma invalid_input_witness :
  generate_pdfs_main healthy (convert_args "maps/notes.txt") (boot demo_fs)
  = (Exc (SystemExit 1),
     mkState (with_dir demo_fs "maps/PDF")
             [Printed (GenerationBanner "maps/notes.txt");
              Printed (OutputLine "maps/PDF" true);
              Mkdir (PurePath.Path "maps/PDF") true;
              Printed (InvalidInput "maps/notes.txt")] 0)
  /\ pdf_generator_main healthy (convert_args "maps/notes.txt") (boot demo_fs)
     = (Exc (SystemExit 1),
        mkState demo_fs [Printed PlaywrightIsAvailable;
                         Printed (InvalidInput "maps/notes.txt")] 0).
Proof.
  destruct (invalid_input_leaves_output_directory
              healthy (convert_args "maps/notes.txt") (boot demo_fs) "maps/notes.txt"
              (with_dir demo_fs "maps/PDF")) as [H1 H2]; try (vm_compute; reflexivity).
  split; [exact H1 | exact (H2 eq_refl)].
Defined.

(* ================================================================== *)
(** * Properties of the set-up scripts *)

Lemma programs_run_app (a b : list Setup.Event) :
  programs_run (a ++ b) = programs_run a ++ programs_run b.
Proof.
  induction a as [| e a IH]; simpl; auto.
  destruct e; simpl; rewrite ?IH; reflexivity.
Qed.

Section PlaywrightSetupFacts.

Variable H : Setup.Host.

Ltac host_cases :=
  repeat (cbn;
          match goal with
          | |- context [Setup.run H ?h ?f ?a] =>
              let o := fresh "o" in
              let f' := fresh "f" in
              let E := fresh "E" in
              destruct (Setup.run H h f a) as [o f'] eqn:E
          | |- context [match ?o with Setup.Completed _ _ _ => _ | Setup.OSFailure _ => _ end] =>
              is_var o; destruct o
          | |- context [if Z.eqb ?x 0 then _ else _] =>
              let Z0 := fresh "Z0" in destruct (Z.eqb x 0) eqn:Z0
          | |- context [if negb (Z.eqb ?x 0) then _ else _] =>
              let Z0 := fresh "Z0" in destruct (Z.eqb x 0) eqn:Z0
          | |- context [if Setup.times_out H ?h ?a then _ else _] =>
              let T := fresh "T" in destruct (Setup.times_out H h a) eqn:T
          end).

(** X13: [install_playwright] never raises.  It always runs [pip install
    playwright] first, without a time limit, on the file system it was
    given.  It then runs the browser installation exactly when [pip]
    returned 0, and after that, exactly when the browser installation
    returned 0 and the platform is Linux, the installation of the system
    dependencies; nothing else is run.  It returns [True] exactly when the
    first two returned 0 and, on Linux, the third could be run, whatever
    the third returned. *)
Theorem install_playwright_result (s : Setup.State) :
  let linux := String.eqb (Str.lower (Setup.system H)) "linux" in
  exists r s' evs o1 rest1,
    PlaywrightSetup.install_playwright H s = (Val r, s')
    /\ Setup.trace s' = Setup.trace s ++ evs
    /\ r = playwright_installed linux (programs_run evs)
    /\ Forall (fun e => match e with
                        | Setup.Ran _ limit _ => limit = None
                        | _ => True
                        end) evs
    /\ programs_run evs = (PlaywrightSetup.pip_install H, Some o1) :: rest1
    /\ o1 = fst (Setup.run H (Setup.trace s ++ [Setup.Printed Setup.InstallingPlaywright;
                                                Setup.Printed Setup.InstallingPackage])
                           (Setup.fs s) (PlaywrightSetup.pip_install H))
    /\ (returned_zero (Some o1) = false -> rest1 = [])
    /\ (returned_zero (Some o1) = true ->
        exists o2 rest2,
          rest1 = (PlaywrightSetup.chromium_install H, Some o2) :: rest2
          /\ (returned_zero (Some o2) = false -> rest2 = [])
          /\ (returned_zero (Some o2) = true ->
              if linux
              then exists o3, rest2 = [(PlaywrightSetup.install_deps H, Some o3)]
              else rest2 = [])).
Proof.
  cbv zeta.
  unfold PlaywrightSetup.install_playwright, Setup.bind, Setup.print, Setup.ret,
    subprocess_run.
  cbn [Setup.fs Setup.trace].
  rewrite <- !app_assoc. cbn [app].
  destruct (Setup.run H (Setup.trace s ++ [Setup.Printed Setup.InstallingPlaywright;
                                           Setup.Printed Setup.InstallingPackage])
                      (Setup.fs s) (PlaywrightSetup.pip_install H)) as [o1 f1] eqn:E1.
  host_cases.
  all: try match goal with
         | |- context [if String.eqb ?a ?b then _ else _] =>
             let L := fresh "L" in destruct (String.eqb a b) eqn:L
         end.
  all: host_cases; cbn.
  all: do 5 eexists; split; [reflexivity |]; cbn.
  all: split; [rewrite <- ?app_assoc; reflexivity |].
  all: cbn; rewrite ?Z0, ?Z1, ?Z2; cbn.
  all: split; [reflexivity |].
  all: split; [repeat constructor |].
  all: split; [reflexivity |].
  all: split; [reflexivity |].
  all: split; [intros Hz; cbn in Hz; rewrite ?Z0 in Hz; try discriminate Hz; reflexivity |].
  all: intros Hz; cbn in Hz; rewrite ?Z0 in Hz; try discriminate Hz.
  all: do 2 eexists; split; [reflexivity |].
  all: split; [intros Hz2; cbn in Hz2; rewrite ?Z1 in Hz2; try discriminate Hz2;
               reflexivity |].
  all: intros Hz2; cbn in Hz2; rewrite ?Z1 in Hz2; try discriminate Hz2.
  all: first [reflexivity | eexists; reflexivity].
Qed.

(** X14: the first [main] either returns, having printed that the set-up
    completed, or exits with status 1.  It returns exactly when the Python
    version is at least 3.7 and the installation commands did their part:
    what the installation test gives does not matter. *)
Theorem playwright_setup_result (s : Setup.State) :
  let linux := String.eqb (Str.lower (Setup.system H)) "linux" in
  exists r s' evs,
    PlaywrightSetup.main H s = (r, s')
    /\ Setup.trace s' = Setup.trace s ++ evs
    /\ (r = Val tt \/ r = Exc (SystemExit 1))
    /\ (r = Val tt
        <-> PlaywrightSetup.below_3_7 (Setup.version H) = false
            /\ playwright_installed linux (programs_run evs) = true)
    /\ (r = Val tt <-> In (Setup.Printed Setup.SetupCompleted) evs).
Proof.
  cbv zeta.
  unfold PlaywrightSetup.main, PlaywrightSetup.check_python_version,
    PlaywrightSetup.install_playwright, PlaywrightSetup.test_installation,
    Setup.bind, Setup.print, Setup.ret, Setup.sys_exit, Setup.raise, Setup.pass,
    subprocess_run, subprocess_run_timeout.
  destruct (PlaywrightSetup.below_3_7 (Setup.version H)) eqn:Hv; cbn.
  { do 3 eexists. split; [reflexivity |]. cbn.
    split; [rewrite <- ?app_assoc; reflexivity |].
    split; [auto |]. cbn.
    split; split; intros X; try discriminate X; try (destruct X; discriminate);
      intuition discriminate. }
  host_cases.
  all: try match goal with
         | |- context [if String.eqb ?a ?b then _ else _] =>
             let L := fresh "L" in destruct (String.eqb a b) eqn:L
         end.
  all: host_cases; cbn.
  all: do 3 eexists; split; [reflexivity |]; cbn.
  all: split; [rewrite <- ?app_assoc; reflexivity |].
  all: cbn; rewrite ?Z0, ?Z1, ?Z2, ?Z3; cbn.
  all: split; [auto |].
  all: split; split; intros X; try discriminate X; try (destruct X; discriminate);
    try (split; reflexivity); try reflexivity; try (intuition discriminate).
  all: cbn; auto 20.
Qed.

End PlaywrightSetupFacts.

Example failed_test_does_not_fail_setup :
  let run := PlaywrightSetup.main test_fails_host (Setup.boot demo_fs) in
  fst run = Val tt
  /\ In (Setup.Printed Setup.InstallationTestFailed) (Setup.trace (snd run))
  /\ last (Setup.trace (snd run)) (Setup.Printed Setup.PdfSetupBanner)
     = Setup.Printed Setup.SetupCompleted.
Proof.
  split; [reflexivity |]. split; [| reflexivity].
  vm_compute. auto 20.
Qed.

(* ================================================================== *)
(** ** The installers of the second script *)

Lemma last_returned_zero_app (a b : list (list string * option Setup.Outcome)) :
  last_returned_zero (a ++ b)
  = match b with
    | [] => last_returned_zero a
    | _ => last_returned_zero b
    end.
Proof.
  unfold last_returned_zero. rewrite rev_app_distr.
  destruct b as [| x b]; [reflexivity |].
  destruct (rev (x :: b)) as [| y l] eqn:E.
  - apply (f_equal (@List.length _)) in E. rewrite length_rev in E. discriminate.
  - reflexivity.
Qed.

Lemma last_default {A} (l : list A) (d d' : A) :
  l <> [] -> last l d = last l d'.
Proof.
  induction l as [| x l IH]; [congruence |]. intros _.
  destruct l as [| y l]; [reflexivity |].
  change (last (y :: l) d = last (y :: l) d'). apply IH. discriminate.
Qed.

Section WkhtmltopdfInstallers.

Variable H : Setup.Host.

Ltac host_cases :=
  repeat (cbn;
          match goal with
          | |- context [Setup.run H ?h ?f ?a] =>
              let o := fresh "o" in
              let f' := fresh "f" in
              let E := fresh "E" in
              destruct (Setup.run H h f a) as [o f'] eqn:E
          | |- context [match ?o with Setup.Completed _ _ _ => _ | Setup.OSFailure _ => _ end] =>
              is_var o; destruct o
          | |- context [if Z.eqb ?x 0 then _ else _] =>
              let Z0 := fresh "Z0" in destruct (Z.eqb x 0) eqn:Z0
          | |- context [if Setup.which H ?h ?a then _ else _] =>
              let Wh := fresh "Wh" in destruct (Setup.which H h a) eqn:Wh
          | |- context [Setup.Which ?a (Setup.which H ?h ?a)] =>
              let Wh := fresh "Wh" in destruct (Setup.which H h a) eqn:Wh
          end).

Ltac listed Hin :=
  let x := fresh "x" in
  let Hx := fresh "Hx" in
  intros x Hx; cbn in Hx;
  cbn [List.concat];
  apply in_or_app;
  repeat (destruct Hx as [Hx | Hx]; [left; subst x; assumption |]);
  try contradiction; right; apply Hin; exact Hx.

Lemma try_package_managers_run (managers : list (list (list string))) :
  Forall same_program managers ->
  forall (s : Setup.State) (found : list string),
  exists r s' evs,
    WkhtmltopdfSetup.try_package_managers H managers s = (Val r, s')
    /\ Setup.trace s' = Setup.trace s ++ evs
    /\ runs_follow_lookups found evs = true
    /\ r = last_returned_zero (programs_run evs)
    /\ (r = true -> last evs (Setup.Printed Setup.PdfSetupBanner)
                   = Setup.Printed Setup.InstalledOnLinux)
    /\ (r = false -> ~ In (Setup.Printed Setup.InstalledOnLinux) evs)
    /\ incl (map fst (programs_run evs)) (List.concat managers).
Proof.
  induction 1 as [| commands rest Hsame _ IH]; intros s found.
  - exists false, s, []. cbn. rewrite app_nil_r.
    repeat split; auto; try discriminate. intros x [].
  - cbn [WkhtmltopdfSetup.try_package_managers].
    unfold Setup.bind at 1, shutil_which.
    set (name := hd "" (nth 0 commands [])) in *.
    assert (H0in : In (nth 0 commands []) commands).
    { apply nth_In. destruct commands; [destruct Hsame as [Hne _]; congruence | simpl; lia]. }
    destruct (Setup.which H (Setup.trace s) name) eqn:Wh.
    2: { match goal with
         | |- context [WkhtmltopdfSetup.try_package_managers H rest ?st] =>
             destruct (IH st found) as (r & s' & evs & E & T & F & L & Ht & Hf & Hin)
         end.
         rewrite E. exists r, s', (Setup.Which name false :: evs).
         split; [reflexivity |]. cbn in T |- *.
         split; [rewrite T, <- app_assoc; reflexivity |].
         split; [exact F |]. split; [exact L |].
         split; [| split].
         - intros Hr. specialize (Ht Hr). destruct evs; [discriminate | exact Ht].
         - intros Hr [X | X]; [discriminate | exact (Hf Hr X)].
         - listed Hin. }
    unfold Setup.bind at 1, Setup.print. cbn [Setup.fs Setup.trace].
    unfold Setup.bind at 1.
    assert (Hname : existsb (String.eqb name) (name :: found) = true)
      by (simpl; rewrite String.eqb_refl; reflexivity).
    destruct (Nat.ltb 1 (List.length commands)) eqn:Hlen.
    + (* an update command, then the installation *)
      assert (Hsnd : hd "" (nth 1 commands []) = name).
      { destruct Hsame as [_ [E | E]]; [exact E |]. apply Nat.ltb_lt in Hlen. lia. }
      assert (H1in : In (nth 1 commands []) commands)
        by (apply nth_In; apply Nat.ltb_lt; exact Hlen).
      unfold Setup.bind at 1, WkhtmltopdfSetup.run_command at 1, Setup.bind at 1,
        subprocess_run at 1.
      cbn [Setup.fs Setup.trace].
      match goal with
      | |- context [Setup.run H ?h ?f ?a] =>
          destruct (Setup.run H h f a) as [o0 f0] eqn:E0
      end.
      assert (Hskip : forall st,
                 (let (r0, s'0) :=
                    match o0 with
                    | Setup.Completed returncode stdout stderr =>
                        Setup.ret (Z.eqb returncode 0, stdout, stderr)
                    | Setup.OSFailure msg => Setup.ret (false, "", msg)
                    end st in
                  match r0 with
                  | Val a => WkhtmltopdfSetup.run_command H (nth 1 commands []) s'0
                  | Exc x => (Exc x, s'0)
                  end)
                 = WkhtmltopdfSetup.run_command H (nth 1 commands []) st)
        by (intros st; destruct o0; reflexivity).
      rewrite Hskip. clear Hskip.
      unfold WkhtmltopdfSetup.run_command, Setup.bind at 1, subprocess_run.
      cbn [Setup.fs Setup.trace].
      match goal with
      | |- context [Setup.run H ?h ?f ?a] =>
          destruct (Setup.run H h f a) as [o1 f1] eqn:E1
      end.
      destruct o1 as [rc out err | msg]; cbn [Setup.ret];
        [destruct (Z.eqb rc 0) eqn:Z0 |]; cbn.
      * do 3 eexists. split; [reflexivity |]. cbn.
        split; [rewrite <- !app_assoc; reflexivity |].
        cbn. fold name. rewrite Hsnd, String.eqb_refl, Z0. cbn.
        split; [reflexivity |]. split; [reflexivity |].
        split; [reflexivity |]. split; [discriminate |].
        intros x Hx; cbn in Hx.
        cbn [List.concat].
        apply in_or_app; left.
        repeat (destruct Hx as [Hx | Hx]; [subst x; assumption |]). contradiction.
      * match goal with
        | |- context [WkhtmltopdfSetup.try_package_managers H rest ?st] =>
            destruct (IH st (name :: found)) as (r & s' & evs & E & T & F & L & Ht & Hf & Hin)
        end.
        rewrite E. eexists r, s', _. split; [reflexivity |]. cbn in T.
        split; [rewrite T, <- !app_assoc; cbn [app]; reflexivity |].
        cbn. fold name. rewrite Hsnd, String.eqb_refl. cbn.
        split; [exact F |].
        split; [| split; [| split]]; [| | | listed Hin].
        -- rewrite L.
           change ((nth 0 commands [], Some o0)
                   :: (nth 1 commands [], Some (Setup.Completed rc out err))
                   :: programs_run evs)
             with ([(nth 0 commands [], Some o0);
                    (nth 1 commands [], Some (Setup.Completed rc out err))]
                   ++ programs_run evs).
           rewrite last_returned_zero_app.
           destruct (programs_run evs); [| reflexivity].
           unfold last_returned_zero. cbn. rewrite Z0. reflexivity.
        -- intros Hr. specialize (Ht Hr). destruct evs; [discriminate | exact Ht].
        -- intros Hr X. repeat (destruct X as [X | X]; [discriminate |]).
           exact (Hf Hr X).
      * match goal with
        | |- context [WkhtmltopdfSetup.try_package_managers H rest ?st] =>
            destruct (IH st (name :: found)) as (r & s' & evs & E & T & F & L & Ht & Hf & Hin)
        end.
        rewrite E. eexists r, s', _. split; [reflexivity |]. cbn in T.
        split; [rewrite T, <- !app_assoc; cbn [app]; reflexivity |].
        cbn. fold name. rewrite Hsnd, String.eqb_refl. cbn.
        split; [exact F |].
        split; [| split; [| split]]; [| | | listed Hin].
        -- rewrite L.
           change ((nth 0 commands [], Some o0)
                   :: (nth 1 commands [], Some (Setup.OSFailure msg))
                   :: programs_run evs)
             with ([(nth 0 commands [], Some o0);
                    (nth 1 commands [], Some (Setup.OSFailure msg))]
                   ++ programs_run evs).
           rewrite last_returned_zero_app.
           destruct (programs_run evs); reflexivity.
        -- intros Hr. specialize (Ht Hr). destruct evs; [discriminate | exact Ht].
        -- intros Hr X. repeat (destruct X as [X | X]; [discriminate |]).
           exact (Hf Hr X).
    + (* one command *)
      unfold WkhtmltopdfSetup.run_command, Setup.bind at 1, subprocess_run.
      cbn [Setup.fs Setup.trace].
      match goal with
      | |- context [Setup.run H ?h ?f ?a] =>
          destruct (Setup.run H h f a) as [o1 f1] eqn:E1
      end.
      destruct o1 as [rc out err | msg]; cbn [Setup.ret];
        [destruct (Z.eqb rc 0) eqn:Z0 |]; cbn.
      * do 3 eexists. split; [reflexivity |]. cbn.
        split; [rewrite <- !app_assoc; reflexivity |].
        cbn. fold name. rewrite String.eqb_refl, Z0. cbn.
        split; [reflexivity |]. split; [reflexivity |].
        split; [reflexivity |]. split; [discriminate |].
        intros x Hx; cbn in Hx.
        cbn [List.concat].
        apply in_or_app; left.
        repeat (destruct Hx as [Hx | Hx]; [subst x; assumption |]). contradiction.
      * match goal with
        | |- context [WkhtmltopdfSetup.try_package_managers H rest ?st] =>
            destruct (IH st (name :: found)) as (r & s' & evs & E & T & F & L & Ht & Hf & Hin)
        end.
        rewrite E. eexists r, s', _. split; [reflexivity |]. cbn in T.
        split; [rewrite T, <- !app_assoc; cbn [app]; reflexivity |].
        cbn. fold name. rewrite String.eqb_refl. cbn.
        split; [exact F |].
        split; [| split; [| split]]; [| | | listed Hin].
        -- rewrite L.
           change ((nth 0 commands [], Some (Setup.Completed rc out err))
                   :: programs_run evs)
             with ([(nth 0 commands [], Some (Setup.Completed rc out err))]
                   ++ programs_run evs).
           rewrite last_returned_zero_app.
           destruct (programs_run evs); [| reflexivity].
           unfold last_returned_zero. cbn. rewrite Z0. reflexivity.
        -- intros Hr. specialize (Ht Hr). destruct evs; [discriminate | exact Ht].
        -- intros Hr X. repeat (destruct X as [X | X]; [discriminate |]).
           exact (Hf Hr X).
      * match goal with
        | |- context [WkhtmltopdfSetup.try_package_managers H rest ?st] =>
            destruct (IH st (name :: found)) as (r & s' & evs & E & T & F & L & Ht & Hf & Hin)
        end.
        rewrite E. eexists r, s', _. split; [reflexivity |]. cbn in T.
        split; [rewrite T, <- !app_assoc; cbn [app]; reflexivity |].
        cbn. fold name. rewrite String.eqb_refl. cbn.
        split; [exact F |].
        split; [| split; [| split]]; [| | | listed Hin].
        -- rewrite L.
           change ((nth 0 commands [], Some (Setup.OSFailure msg)) :: programs_run evs)
             with ([(nth 0 commands [], Some (Setup.OSFailure msg))] ++ programs_run evs).
           rewrite last_returned_zero_app.
           destruct (programs_run evs); reflexivity.
        -- intros Hr. specialize (Ht Hr). destruct evs; [discriminate | exact Ht].
        -- intros Hr X. repeat (destruct X as [X | X]; [discriminate |]).
           exact (Hf Hr X).
Qed.

Lemma package_managers_same_program :
  Forall same_program WkhtmltopdfSetup.package_managers.
Proof.
  unfold WkhtmltopdfSetup.package_managers, same_program.
  repeat (apply Forall_cons;
          [split; [discriminate | first [left; reflexivity | right; cbn; lia]] |]).
  apply Forall_nil.
Qed.

(** X15: the Linux installer never raises.  It runs only commands of its
    list, each under a manager that [shutil.which] found just before; it
    returns whether the last program it ran returned 0 ([False] when it ran
    none), and its last line tells which: the success line, after which
    nothing more is tried, or the manual instructions. *)
Theorem linux_installer_tries_found_managers (s : Setup.State) :
  exists r s' evs,
    WkhtmltopdfSetup.install_wkhtmltopdf_linux H s = (Val r, s')
    /\ Setup.trace s' = Setup.trace s ++ evs
    /\ runs_follow_lookups [] evs = true
    /\ incl (map fst (programs_run evs)) (List.concat WkhtmltopdfSetup.package_managers)
    /\ r = last_returned_zero (programs_run evs)
    /\ last evs (Setup.Printed Setup.AttemptingLinux)
       = Setup.Printed (if r then Setup.InstalledOnLinux
                        else Setup.LinuxManualInstructions)
    /\ (r = false -> ~ In (Setup.Printed Setup.InstalledOnLinux) evs).
Proof.
  unfold WkhtmltopdfSetup.install_wkhtmltopdf_linux.
  unfold Setup.bind at 1, Setup.print. cbn [Setup.fs Setup.trace].
  unfold Setup.bind at 1.
  match goal with
  | |- context [WkhtmltopdfSetup.try_package_managers H _ ?st] =>
      destruct (try_package_managers_run _ package_managers_same_program st [])
        as (r & s' & evs & E & T & F & L & Ht & Hf & Hin)
  end.
  rewrite E. cbn in T. destruct r; cbn.
  - exists true, s', (Setup.Printed Setup.AttemptingLinux :: evs).
    split; [reflexivity |].
    split; [rewrite T, <- app_assoc; reflexivity |].
    split; [exact F |]. split; [exact Hin |]. split; [exact L |].
    split; [| discriminate].
    specialize (Ht eq_refl). destruct evs as [| e evs]; [discriminate |].
    change (last (e :: evs) (Setup.Printed Setup.AttemptingLinux)
            = Setup.Printed Setup.InstalledOnLinux).
    rewrite <- Ht. apply last_default. discriminate.
  - exists false, (Setup.mkState (Setup.fs s')
                     (Setup.trace s' ++ [Setup.Printed Setup.LinuxManualInstructions])),
      (Setup.Printed Setup.AttemptingLinux
       :: evs ++ [Setup.Printed Setup.LinuxManualInstructions]).
    split; [reflexivity |]. cbn.
    split; [rewrite T, <- !app_assoc; reflexivity |].
    assert (P : programs_run (evs ++ [Setup.Printed Setup.LinuxManualInstructions])
                = programs_run evs)
      by (rewrite programs_run_app; cbn; apply app_nil_r).
    split.
    { clear - F. revert F. generalize (@nil string).
      induction evs as [| e evs IH]; intros found F; cbn in *; auto.
      destruct e as [l | name [|] | argv t o]; auto.
      apply andb_true_iff in F. destruct F as [F1 F2]. rewrite F1. cbn. auto. }
    rewrite P. split; [exact Hin |]. split; [exact L |].
    split.
    { exact (last_last (Setup.Printed Setup.AttemptingLinux :: evs)
               (Setup.Printed Setup.LinuxManualInstructions)
               (Setup.Printed Setup.AttemptingLinux)). }
    intros _ [X | X]; [discriminate |].
    apply in_app_or in X. destruct X as [X | [X | []]]; [| discriminate].
    exact (Hf eq_refl X).
Qed.

End WkhtmltopdfInstallers.

Example linux_installer_falls_through :
  let run := WkhtmltopdfSetup.install_wkhtmltopdf_linux demo_host (Setup.boot demo_fs) in
  fst run = Val true
  /\ map fst (programs_run (Setup.trace (snd run)))
     = [["apt-get"; "update"];
        ["apt-get"; "install"; "-y"; "wkhtmltopdf"];
        ["dnf"; "install"; "-y"; "wkhtmltopdf"]].
Proof. split; reflexivity. Qed.

Section WkhtmltopdfInstallerDispatch.

Variable H : Setup.Host.

Ltac host_cases :=
  repeat (cbn;
          match goal with
          | |- context [Setup.run H ?h ?f ?a] =>
              let o := fresh "o" in
              let f' := fresh "f" in
              let E := fresh "E" in
              destruct (Setup.run H h f a) as [o f'] eqn:E
          | |- context [match ?o with Setup.Completed _ _ _ => _ | Setup.OSFailure _ => _ end] =>
              is_var o; destruct o
          | |- context [if Z.eqb ?x 0 then _ else _] =>
              let Z0 := fresh "Z0" in destruct (Z.eqb x 0) eqn:Z0
          | |- context [Setup.which H ?h ?a] =>
              let Wh := fresh "Wh" in destruct (Setup.which H h a) eqn:Wh
          end).

Ltac listed_run :=
  let x := fresh "x" in
  let Hx := fresh "Hx" in
  intros x Hx; cbn in Hx |- *; intuition auto.

(** X16: the installer never raises, whatever the platform.  It only runs
    installation commands of the platform's own package managers, each
    after [shutil.which] found the manager, and returns whether the last
    program it ran returned 0; on another platform it runs nothing and
    returns [False]. *)
Theorem installer_runs_found_managers (s : Setup.State) :
  let system := Str.lower (Setup.system H) in
  exists r s' evs,
    WkhtmltopdfSetup.install_wkhtmltopdf H s = (Val r, s')
    /\ Setup.trace s' = Setup.trace s ++ evs
    /\ runs_follow_lookups [] evs = true
    /\ r = last_returned_zero (programs_run evs)
    /\ incl (map fst (programs_run evs))
         (if String.eqb system "darwin" then [["brew"; "install"; "wkhtmltopdf"]]
          else if String.eqb system "linux"
               then List.concat WkhtmltopdfSetup.package_managers
               else if String.eqb system "windows"
                    then [["choco"; "install"; "wkhtmltopdf"; "-y"];
                          ["winget"; "install"; "wkhtmltopdf"]]
                    else []).
Proof.
  cbv zeta. unfold WkhtmltopdfSetup.install_wkhtmltopdf.
  destruct (String.eqb (Str.lower (Setup.system H)) "darwin") eqn:Hd;
    [| destruct (String.eqb (Str.lower (Setup.system H)) "linux") eqn:Hl;
       [| destruct (String.eqb (Str.lower (Setup.system H)) "windows") eqn:Hw]].
  - unfold WkhtmltopdfSetup.install_wkhtmltopdf_macos, WkhtmltopdfSetup.run_command,
      Setup.bind, Setup.print, Setup.ret, shutil_which, subprocess_run.
    host_cases.
    all: do 3 eexists; split; [reflexivity |]; cbn.
    all: split; [rewrite <- ?app_assoc; reflexivity |].
    all: cbn; rewrite ?Z0; cbn.
    all: split; [reflexivity |]. all: split; [reflexivity |].
    all: listed_run.
  - unfold WkhtmltopdfSetup.install_wkhtmltopdf_linux.
    unfold Setup.bind at 1, Setup.print. cbn [Setup.fs Setup.trace].
    unfold Setup.bind at 1.
    match goal with
    | |- context [WkhtmltopdfSetup.try_package_managers H _ ?st] =>
        destruct (try_package_managers_run H _ package_managers_same_program st [])
          as (r & s' & evs & E & T & F & L & Ht & Hf & Hin)
    end.
    rewrite E. cbn in T.
    assert (P : programs_run (evs ++ [Setup.Printed Setup.LinuxManualInstructions])
                = programs_run evs)
      by (rewrite programs_run_app; cbn; apply app_nil_r).
    destruct r; cbn.
    + exists true, s', (Setup.Printed Setup.AttemptingLinux :: evs).
      split; [reflexivity |].
      split; [rewrite T, <- app_assoc; reflexivity |].
      split; [exact F |]. split; [exact L |]. exact Hin.
    + exists false, (Setup.mkState (Setup.fs s')
                       (Setup.trace s' ++ [Setup.Printed Setup.LinuxManualInstructions])),
        (Setup.Printed Setup.AttemptingLinux
         :: evs ++ [Setup.Printed Setup.LinuxManualInstructions]).
      split; [reflexivity |]. cbn.
      split; [rewrite T, <- !app_assoc; reflexivity |].
      split.
      { clear - F. revert F. generalize (@nil string).
        induction evs as [| e evs IH]; intros found F; cbn in *; auto.
        destruct e as [l | name [|] | argv t o]; auto.
        apply andb_true_iff in F. destruct F as [F1 F2]. rewrite F1. cbn. auto. }
      rewrite P. split; [exact L |]. exact Hin.
  - unfold WkhtmltopdfSetup.install_wkhtmltopdf_windows, WkhtmltopdfSetup.run_command,
      Setup.bind, Setup.print, Setup.ret, shutil_which, subprocess_run.
    host_cases.
    all: do 3 eexists; split; [reflexivity |]; cbn.
    all: split; [rewrite <- ?app_assoc; reflexivity |].
    all: cbn; rewrite ?Z0, ?Z1; cbn.
    all: split; [reflexivity |]. all: split; [reflexivity |].
    all: listed_run.
  - do 3 eexists. split; [reflexivity |]. cbn.
    split; [reflexivity |]. cbn. repeat split. intros x [].
Qed.

(** What [main] needs of the installer. *)
Lemma install_wkhtmltopdf_returns (s : Setup.State) :
  exists r s' evs,
    WkhtmltopdfSetup.install_wkhtmltopdf H s = (Val r, s')
    /\ Setup.trace s' = Setup.trace s ++ evs.
Proof.
  unfold WkhtmltopdfSetup.install_wkhtmltopdf.
  destruct (String.eqb (Str.lower (Setup.system H)) "darwin") eqn:Hd;
    [| destruct (String.eqb (Str.lower (Setup.system H)) "linux") eqn:Hl;
       [| destruct (String.eqb (Str.lower (Setup.system H)) "windows") eqn:Hw]].
  - unfold WkhtmltopdfSetup.install_wkhtmltopdf_macos, WkhtmltopdfSetup.run_command,
      Setup.bind, Setup.print, Setup.ret, shutil_which, subprocess_run.
    host_cases.
    all: do 3 eexists; split; [reflexivity |]; cbn.
    all: rewrite <- ?app_assoc; reflexivity.
  - unfold WkhtmltopdfSetup.install_wkhtmltopdf_linux.
    unfold Setup.bind at 1, Setup.print. cbn [Setup.fs Setup.trace].
    unfold Setup.bind at 1.
    match goal with
    | |- context [WkhtmltopdfSetup.try_package_managers H _ ?st] =>
        destruct (try_package_managers_run H _ package_managers_same_program st [])
          as (r & s' & evs & E & T & _)
    end.
    rewrite E. cbn in T.
    destruct r; cbn; do 3 eexists; (split; [reflexivity |]); cbn;
      rewrite T, <- ?app_assoc; reflexivity.
  - unfold WkhtmltopdfSetup.install_wkhtmltopdf_windows, WkhtmltopdfSetup.run_command,
      Setup.bind, Setup.print, Setup.ret, shutil_which, subprocess_run.
    host_cases.
    all: do 3 eexists; split; [reflexivity |]; cbn.
    all: rewrite <- ?app_assoc; reflexivity.
  - do 3 eexists. split; reflexivity.
Qed.

End WkhtmltopdfInstallerDispatch.

(* ================================================================== *)
(** ** The second [main] *)

Section WkhtmltopdfMain.

Variable H : Setup.Host.

Ltac host_cases :=
  repeat (cbn;
          match goal with
          | |- context [Setup.run H ?h ?f ?a] =>
              let o := fresh "o" in
              let f' := fresh "f" in
              let E := fresh "E" in
              destruct (Setup.run H h f a) as [o f'] eqn:E
          | |- context [match ?o with Setup.Completed _ _ _ => _ | Setup.OSFailure _ => _ end] =>
              is_var o; destruct o
          | |- context [if Z.eqb ?x 0 then _ else _] =>
              let Z0 := fresh "Z0" in destruct (Z.eqb x 0) eqn:Z0
          | |- context [Setup.which H ?h ?a] =>
              let Wh := fresh "Wh" in destruct (Setup.which H h a) eqn:Wh
          | |- context [match FS.mkdir_p ?f ?p with Some _ => _ | None => _ end] =>
              let D := fresh "D" in destruct (FS.mkdir_p f p) eqn:D
          | |- context [match Setup.open_w ?f ?p with Some _ => _ | None => _ end] =>
              let D := fresh "D" in destruct (Setup.open_w f p) eqn:D
          | |- context [match Setup.unlink ?f ?p with Some _ => _ | None => _ end] =>
              let D := fresh "D" in destruct (Setup.unlink f p) eqn:D
          | |- context [match Setup.rmdir ?f ?p with Some _ => _ | None => _ end] =>
              let D := fresh "D" in destruct (Setup.rmdir f p) eqn:D
          | |- context [if FS.exists_ ?f ?p then _ else _] =>
              let X := fresh "X" in destruct (FS.exists_ f p) eqn:X
          | |- context [if Str.truthy ?x then _ else Setup.ret tt] =>
              let Y := fresh "Y" in destruct (Str.truthy x) eqn:Y; unfold Setup.ret
          end).

(** The check followed by the generation test: it gives [True] only after
    the version query and the test command both returned 0, and the only
    exception that leaves it is the [OSError] of making the test
    directory. *)
Lemma check_and_test_run (s : Setup.State) :
  exists r s' evs,
    WkhtmltopdfSetup.check_and_test H s = (r, s')
    /\ Setup.trace s' = Setup.trace s ++ evs
    /\ (r = Val true \/ r = Val false
        \/ r = Exc (Exception (OSError (PurePath.str WkhtmltopdfSetup.test_dir))))
    /\ (r = Val true -> passed_test (programs_run evs))
    /\ (r = Exc (Exception (OSError (PurePath.str WkhtmltopdfSetup.test_dir))) ->
        exists pre, evs = pre ++ [Setup.Printed Setup.TestingPdfGeneration]).
Proof.
  unfold WkhtmltopdfSetup.check_and_test, WkhtmltopdfSetup.check_wkhtmltopdf,
    WkhtmltopdfSetup.test_pdf_generation, WkhtmltopdfSetup.make_test_dir,
    WkhtmltopdfSetup.write_test_html, WkhtmltopdfSetup.clean_up,
    WkhtmltopdfSetup.pdf_exists, WkhtmltopdfSetup.run_command,
    Setup.bind, Setup.print, Setup.ret, Setup.pass, shutil_which, subprocess_run.
  host_cases.
  all: do 3 eexists; split; [reflexivity |]; cbn.
  all: split; [rewrite <- ?app_assoc; reflexivity |].
  all: split; [auto |].
  all: split; [intros R;
               first [discriminate R
                     | cbn; do 2 eexists; split; [reflexivity |]; cbn;
                       rewrite ?Z0, ?Z1; auto] |].
  all: intros R; first [discriminate R | eexists (_ :: _ :: _ :: nil); reflexivity].
Qed.

(** The run of the second [main]: how it ends, what its last line is, and
    what a status of 0 took. *)
Lemma wkhtmltopdf_main_run (s : Setup.State) :
  exists x s' evs,
    WkhtmltopdfSetup.main H s = (Exc x, s')
    /\ Setup.trace s' = Setup.trace s ++ evs
    /\ (x = SystemExit 0 \/ x = SystemExit 1
        \/ x = Exception (OSError (PurePath.str WkhtmltopdfSetup.test_dir)))
    /\ (x = SystemExit 0
        <-> last evs (Setup.Printed Setup.PdfSetupBanner)
            = Setup.Printed Setup.SetupComplete)
    /\ (x = SystemExit 0 ->
        Nat.leb 3 (Setup.major (Setup.version H))
        && Nat.leb 6 (Setup.minor (Setup.version H)) = true
        /\ exists before tested,
             programs_run evs = before ++ tested /\ passed_test tested)
    /\ (Nat.leb 3 (Setup.major (Setup.version H))
        && Nat.leb 6 (Setup.minor (Setup.version H)) = false ->
        x = SystemExit 1
        /\ evs = [Setup.Printed Setup.PdfSetupBanner;
                  Setup.Printed (Setup.PythonTooOld (Setup.version H));
                  Setup.Printed Setup.UpgradePython])
    /\ (exists rest, evs = Setup.Printed Setup.PdfSetupBanner :: rest).
Proof.
  pose proof check_and_test_run as Hcat.
  pose proof (install_wkhtmltopdf_returns H) as Hinst.
  unfold WkhtmltopdfSetup.main, WkhtmltopdfSetup.check_python_version.
  set (cat := WkhtmltopdfSetup.check_and_test H) in *.
  set (inst := WkhtmltopdfSetup.install_wkhtmltopdf H) in *.
  clearbody cat inst.
  destruct (Nat.leb 3 (Setup.major (Setup.version H))
            && Nat.leb 6 (Setup.minor (Setup.version H))) eqn:Hv.
  2: { cbn. do 3 eexists. split; [reflexivity |]. cbn.
       split; [rewrite <- ?app_assoc; reflexivity |].
       split; [auto |]. cbn.
       split; [split; discriminate |].
       split; [discriminate |]. split; [auto | eexists; reflexivity]. }
  unfold Setup.bind at 1, Setup.print at 1. cbn [Setup.fs Setup.trace].
  unfold Setup.bind at 1, Setup.bind at 1, Setup.print at 1, Setup.ret at 1.
  cbn [Setup.fs Setup.trace negb].
  unfold Setup.bind at 1.
  match goal with
  | |- context [cat ?st] =>
      destruct (Hcat st) as (r1 & s1 & evs1 & E1 & T1 & R1 & P1 & O1)
  end.
  rewrite E1. cbn in T1.
  destruct R1 as [-> | [-> | ->]].
  - (* ready at once *)
    cbn. eexists _, _, (Setup.Printed Setup.PdfSetupBanner
                        :: Setup.Printed (Setup.PythonAdequate (Setup.version H))
                        :: evs1 ++ [Setup.Printed Setup.SetupComplete]).
    split; [reflexivity |]. cbn -[last programs_run].
    split; [rewrite T1, <- !app_assoc; reflexivity |].
    split; [auto |].
    split; [split; [intros _ | reflexivity] |].
    { rewrite !app_comm_cons. apply last_last. }
    split; [| split; [discriminate | eexists; reflexivity]].
    intros _. split; [reflexivity |].
    exists [], (programs_run evs1). split.
    + cbn [programs_run app]. rewrite programs_run_app. cbn. apply app_nil_r.
    + apply P1. reflexivity.
  - (* the installer is tried *)
    unfold Setup.bind at 1, Setup.print at 1. cbn [Setup.fs Setup.trace].
    unfold Setup.bind at 1.
    match goal with
    | |- context [inst ?st] =>
        destruct (Hinst st) as (r2 & s2 & evs2 & E2 & T2)
    end.
    rewrite E2. cbn in T2.
    assert (Hfail : forall st evs,
               Setup.trace st = Setup.trace s ++ evs ->
               exists s' evs',
                 (Setup.bind (Setup.print Setup.SetupIncomplete)
                    (fun _ =>
                       Setup.bind
                         (if String.eqb (Str.lower (Setup.system H)) "darwin"
                          then Setup.print Setup.MacosHint
                          else if String.eqb (Str.lower (Setup.system H)) "linux"
                               then Setup.print Setup.LinuxHint
                               else if String.eqb (Str.lower (Setup.system H)) "windows"
                                    then Setup.print Setup.WindowsHint
                                    else Setup.pass)
                         (fun _ => Setup.sys_exit 1)) st
                  : Res unit * Setup.State)
                 = (Exc (SystemExit 1), s')
                 /\ Setup.trace s' = Setup.trace s ++ evs ++ evs'
                 /\ (exists pre e, evs' = pre ++ [e]
                                   /\ e <> Setup.Printed Setup.SetupComplete)).
    { intros st evs T. unfold Setup.bind, Setup.print, Setup.pass, Setup.ret,
        Setup.sys_exit, Setup.raise.
      destruct (String.eqb (Str.lower (Setup.system H)) "darwin");
        [| destruct (String.eqb (Str.lower (Setup.system H)) "linux");
           [| destruct (String.eqb (Str.lower (Setup.system H)) "windows")]];
        cbn; rewrite T.
      - exists (Setup.mkState (Setup.fs st)
                  (((Setup.trace s ++ evs) ++ [Setup.Printed Setup.SetupIncomplete])
                   ++ [Setup.Printed Setup.MacosHint])),
          [Setup.Printed Setup.SetupIncomplete; Setup.Printed Setup.MacosHint].
        split; [reflexivity |]. split; [cbn; rewrite <- !app_assoc; reflexivity |].
        exists [Setup.Printed Setup.SetupIncomplete], (Setup.Printed Setup.MacosHint).
        split; [reflexivity | discriminate].
      - exists (Setup.mkState (Setup.fs st)
                  (((Setup.trace s ++ evs) ++ [Setup.Printed Setup.SetupIncomplete])
                   ++ [Setup.Printed Setup.LinuxHint])),
          [Setup.Printed Setup.SetupIncomplete; Setup.Printed Setup.LinuxHint].
        split; [reflexivity |]. split; [cbn; rewrite <- !app_assoc; reflexivity |].
        exists [Setup.Printed Setup.SetupIncomplete], (Setup.Printed Setup.LinuxHint).
        split; [reflexivity | discriminate].
      - exists (Setup.mkState (Setup.fs st)
                  (((Setup.trace s ++ evs) ++ [Setup.Printed Setup.SetupIncomplete])
                   ++ [Setup.Printed Setup.WindowsHint])),
          [Setup.Printed Setup.SetupIncomplete; Setup.Printed Setup.WindowsHint].
        split; [reflexivity |]. split; [cbn; rewrite <- !app_assoc; reflexivity |].
        exists [Setup.Printed Setup.SetupIncomplete], (Setup.Printed Setup.WindowsHint).
        split; [reflexivity | discriminate].
      - exists (Setup.mkState (Setup.fs st)
                  ((Setup.trace s ++ evs) ++ [Setup.Printed Setup.SetupIncomplete])),
          [Setup.Printed Setup.SetupIncomplete].
        split; [reflexivity |]. split; [cbn; rewrite <- !app_assoc; reflexivity |].
        exists [], (Setup.Printed Setup.SetupIncomplete).
        split; [reflexivity | discriminate]. }
    destruct r2.
    + (* installed: the check and the test again *)
      unfold Setup.bind at 1.
      match goal with
      | |- context [cat ?st] =>
          destruct (Hcat st) as (r3 & s3 & evs3 & E3 & T3 & R3 & P3 & O3)
      end.
      rewrite E3. cbn in T3.
      destruct R3 as [-> | [-> | ->]].
      * cbn. eexists _, _, (Setup.Printed Setup.PdfSetupBanner
                            :: Setup.Printed (Setup.PythonAdequate (Setup.version H))
                            :: evs1 ++ Setup.Printed Setup.InstallingWkhtmltopdf
                            :: evs2 ++ evs3 ++ [Setup.Printed Setup.SetupComplete]).
        split; [reflexivity |]. cbn -[last programs_run].
        split; [rewrite T3, T2, T1, <- !app_assoc; cbn; rewrite <- ?app_assoc; reflexivity |].
        split; [auto |].
        split; [split; [intros _ | reflexivity] |].
        { rewrite !app_comm_cons, !app_assoc. apply last_last. }
        split; [| split; [discriminate | eexists; reflexivity]].
        intros _. split; [reflexivity |].
        exists (programs_run (evs1 ++ Setup.Printed Setup.InstallingWkhtmltopdf :: evs2)),
          (programs_run evs3). split.
        -- change (programs_run (evs1 ++ Setup.Printed Setup.InstallingWkhtmltopdf
                                 :: evs2 ++ evs3 ++ [Setup.Printed Setup.SetupComplete])
                   = programs_run (evs1 ++ Setup.Printed Setup.InstallingWkhtmltopdf :: evs2)
                     ++ programs_run evs3).
           rewrite !programs_run_app. cbn. rewrite !programs_run_app. cbn.
           rewrite app_nil_r, <- app_assoc. reflexivity.
        -- apply P3. reflexivity.
      * destruct (Hfail s3 (Setup.Printed Setup.PdfSetupBanner
                            :: Setup.Printed (Setup.PythonAdequate (Setup.version H))
                            :: evs1 ++ Setup.Printed Setup.InstallingWkhtmltopdf
                            :: evs2 ++ evs3))
          as (s' & evs' & E & T & pre & e & -> & Ne).
        { rewrite T3, T2, T1, <- !app_assoc. cbn. rewrite <- ?app_assoc. reflexivity. }
        cbn [negb]. change (Setup.ret false s3) with (Val false, s3) in *.
        cbv beta iota. rewrite E.
        eexists _, _, _. split; [reflexivity |].
        split; [exact T |].
        split; [auto |].
        split; [split; [discriminate |] |].
        { rewrite !app_comm_cons, !app_assoc, last_last. intros X. congruence. }
        split; [discriminate |]. split; [discriminate | eexists; reflexivity].
      * cbn. eexists _, _, (Setup.Printed Setup.PdfSetupBanner
                            :: Setup.Printed (Setup.PythonAdequate (Setup.version H))
                            :: evs1 ++ Setup.Printed Setup.InstallingWkhtmltopdf
                            :: evs2 ++ evs3).
        split; [reflexivity |].
        split; [rewrite T3, T2, T1, <- !app_assoc; cbn; rewrite <- ?app_assoc; reflexivity |].
        split; [auto |].
        destruct (O3 eq_refl) as (pre & ->).
        split; [split; [discriminate |] |].
        { rewrite !app_comm_cons, !app_assoc, last_last. discriminate. }
        split; [discriminate |]. split; [discriminate | eexists; reflexivity].
    + destruct (Hfail s2 (Setup.Printed Setup.PdfSetupBanner
                          :: Setup.Printed (Setup.PythonAdequate (Setup.version H))
                          :: evs1 ++ Setup.Printed Setup.InstallingWkhtmltopdf
                          :: evs2))
        as (s' & evs' & E & T & pre & e & -> & Ne).
      { rewrite T2, T1, <- !app_assoc. cbn. rewrite <- ?app_assoc. reflexivity. }
      unfold Setup.bind at 1. change (Setup.ret false s2) with (Val false, s2).
      cbv beta iota. rewrite E.
      eexists _, _, _. split; [reflexivity |].
      split; [exact T |].
      split; [auto |].
      split; [split; [discriminate |] |].
      { rewrite !app_comm_cons, !app_assoc, last_last. intros X. congruence. }
      split; [discriminate |]. split; [discriminate | eexists; reflexivity].
  - (* the test directory could not be made *)
    cbn. eexists _, _, (Setup.Printed Setup.PdfSetupBanner
                        :: Setup.Printed (Setup.PythonAdequate (Setup.version H))
                        :: evs1).
    split; [reflexivity |].
    split; [rewrite T1, <- !app_assoc; reflexivity |].
    split; [auto |].
    destruct (O1 eq_refl) as (pre & ->).
    split; [split; [discriminate |] |].
    { rewrite !app_comm_cons, last_last. discriminate. }
    split; [discriminate |]. split; [discriminate | eexists; reflexivity].
Qed.

(** X17: the second [main] never returns: it leaves with [sys.exit(0)],
    [sys.exit(1)] or, uncaught, the [OSError] of making the test
    directory.  The status is 0 exactly when the last line printed is the
    completion line, and then the Python version passed the check and the
    last two programs run were the version query and the test command,
    both returning 0.  A version that fails the check ends the script with
    status 1 before any program is looked up or run. *)
Theorem wkhtmltopdf_setup_exit_status (s : Setup.State) :
  let v := Setup.version H in
  let adequate := Nat.leb 3 (Setup.major v) && Nat.leb 6 (Setup.minor v) in
  exists x s' evs,
    WkhtmltopdfSetup.main H s = (Exc x, s')
    /\ Setup.trace s' = Setup.trace s ++ evs
    /\ (x = SystemExit 0 \/ x = SystemExit 1
        \/ x = Exception (OSError (PurePath.str WkhtmltopdfSetup.test_dir)))
    /\ (x = SystemExit 0
        <-> last evs (Setup.Printed Setup.PdfSetupBanner)
            = Setup.Printed Setup.SetupComplete)
    /\ (x = SystemExit 0 ->
        adequate = true
        /\ exists before tested,
             programs_run evs = before ++ tested /\ passed_test tested)
    /\ (adequate = false ->
        x = SystemExit 1
        /\ evs = [Setup.Printed Setup.PdfSetupBanner;
                  Setup.Printed (Setup.PythonTooOld v);
                  Setup.Printed Setup.UpgradePython]).
Proof.
  cbv zeta.
  destruct (wkhtmltopdf_main_run s) as (x & s' & evs & E & T & R & L & Z & A & _).
  exists x, s', evs. repeat split; try assumption; try apply L; try apply Z; try apply A; assumption.
Qed.

End WkhtmltopdfMain.

(* ================================================================== *)
(** ** The file run as a program *)

Section SetupProgram.

Variable H : Setup.Host.

Ltac host_cases :=
  repeat (cbn;
          match goal with
          | |- context [Setup.run H ?h ?f ?a] =>
              let o := fresh "o" in
              let f' := fresh "f" in
              let E := fresh "E" in
              destruct (Setup.run H h f a) as [o f'] eqn:E
          | |- context [match ?o with Setup.Completed _ _ _ => _ | Setup.OSFailure _ => _ end] =>
              is_var o; destruct o
          | |- context [if Z.eqb ?x 0 then _ else _] =>
              let Z0 := fresh "Z0" in destruct (Z.eqb x 0) eqn:Z0
          | |- context [if negb (Z.eqb ?x 0) then _ else _] =>
              let Z0 := fresh "Z0" in destruct (Z.eqb x 0) eqn:Z0
          | |- context [if Setup.times_out H ?h ?a then _ else _] =>
              let T := fresh "T" in destruct (Setup.times_out H h a) eqn:T
          end).

(** The run of the first [main], as the second script sees it. *)
Lemma playwright_main_run (s : Setup.State) :
  exists r s' evs,
    PlaywrightSetup.main H s = (r, s')
    /\ Setup.trace s' = Setup.trace s ++ evs
    /\ (r = Val tt \/ r = Exc (SystemExit 1))
    /\ (r = Val tt ->
        PlaywrightSetup.below_3_7 (Setup.version H) = false
        /\ exists pre, evs = pre ++ [Setup.Printed Setup.SetupCompleted])
    /\ (r = Exc (SystemExit 1) -> ~ In (Setup.Printed Setup.SetupCompleted) evs)
    /\ ~ In (Setup.Printed Setup.PdfSetupBanner) evs.
Proof.
  unfold PlaywrightSetup.main, PlaywrightSetup.check_python_version,
    PlaywrightSetup.install_playwright, PlaywrightSetup.test_installation,
    Setup.bind, Setup.print, Setup.ret, Setup.sys_exit, Setup.raise, Setup.pass,
    subprocess_run, subprocess_run_timeout.
  destruct (PlaywrightSetup.below_3_7 (Setup.version H)) eqn:Hv; cbn.
  { do 3 eexists. split; [reflexivity |]. cbn.
    split; [rewrite <- ?app_assoc; reflexivity |].
    split; [auto |]. cbn.
    split; [discriminate |]. split; [intros _ |]; cbn; intuition discriminate. }
  host_cases.
  all: try match goal with
         | |- context [if String.eqb ?a ?b then _ else _] =>
             let L := fresh "L" in destruct (String.eqb a b) eqn:L
         end.
  all: host_cases; cbn.
  all: do 3 eexists; split; [reflexivity |]; cbn -[In].
  all: split; [rewrite <- ?app_assoc; reflexivity |].
  all: split; [auto |].
  all: split; [intros R; first [discriminate R | split; [reflexivity |]] |].
  all: try match goal with
         | |- exists pre, ?l = pre ++ [_] => exists (removelast l); reflexivity
         end.
  all: split; [intros R; first [discriminate R | cbn; intuition discriminate] |].
  all: cbn; intuition discriminate.
Qed.

(** X18: run as a program, the file executes the Playwright set-up and,
    only when that returns, the wkhtmltopdf set-up: the banner of the second
    is printed exactly when the completion line of the first was.  The
    program never ends normally; it ends with status 0 only if both
    set-ups completed: the Python version is at least 3.7, the last line is
    the completion line of the second script, and the last two programs run
    were the version query and the generation test, both returning 0. *)
Theorem setup_pdf_program_exit_status (s : Setup.State) :
  exists x s' evs,
    setup_pdf_program H s = (Exc x, s')
    /\ Setup.trace s' = Setup.trace s ++ evs
    /\ (x = SystemExit 0 \/ x = SystemExit 1
        \/ x = Exception (OSError (PurePath.str WkhtmltopdfSetup.test_dir)))
    /\ (In (Setup.Printed Setup.PdfSetupBanner) evs
        <-> In (Setup.Printed Setup.SetupCompleted) evs)
    /\ (x = SystemExit 0 ->
        PlaywrightSetup.below_3_7 (Setup.version H) = false
        /\ In (Setup.Printed Setup.SetupCompleted) evs
        /\ last evs (Setup.Printed Setup.PdfSetupBanner)
           = Setup.Printed Setup.SetupComplete
        /\ exists before tested,
             programs_run evs = before ++ tested /\ passed_test tested).
Proof.
  unfold setup_pdf_program, Setup.bind.
  destruct (playwright_main_run s) as (r1 & s1 & evs1 & E1 & T1 & R1 & C1 & X1 & N1).
  rewrite E1. destruct R1 as [-> | ->].
  - destruct (wkhtmltopdf_main_run H s1)
      as (x & s2 & evs2 & E2 & T2 & R2 & L2 & Z2 & _ & rest & B2).
    destruct (C1 eq_refl) as (Hv & pre & P1).
    exists x, s2, (evs1 ++ evs2).
    split; [exact E2 |].
    split; [rewrite T2, T1, app_assoc; reflexivity |].
    split; [exact R2 |].
    assert (I1 : In (Setup.Printed Setup.SetupCompleted) (evs1 ++ evs2))
      by (apply in_or_app; left; rewrite P1; apply in_or_app; right; left; reflexivity).
    split.
    { split; intros _; [exact I1 |].
      apply in_or_app. right. rewrite B2. left. reflexivity. }
    intros X0. split; [exact Hv |]. split; [exact I1 |].
    destruct (Z2 X0) as (_ & before & tested & P & Q).
    split.
    + rewrite B2. rewrite B2 in L2.
      replace (last (evs1 ++ Setup.Printed Setup.PdfSetupBanner :: rest)
                 (Setup.Printed Setup.PdfSetupBanner))
        with (last (Setup.Printed Setup.PdfSetupBanner :: rest)
                (Setup.Printed Setup.PdfSetupBanner)).
      * apply L2. exact X0.
      * clear. induction evs1 as [| e l IH]; [reflexivity |].
        rewrite IH. destruct l; reflexivity.
    + exists (programs_run evs1 ++ before), tested.
      split; [| exact Q].
      rewrite programs_run_app, P, app_assoc. reflexivity.
  - exists (SystemExit 1), s1, evs1.
    split; [reflexivity |]. split; [exact T1 |]. split; [auto |].
    split; [| discriminate].
    split; intros X; [destruct (N1 X) | destruct (X1 eq_refl X)].
Qed.

End SetupProgram.

Example playwright_alone_is_not_enough :
  let run := setup_pdf_program demo_host (Setup.boot demo_fs) in
  fst run = Exc (SystemExit 1)
  /\ In (Setup.Printed Setup.SetupCompleted) (Setup.trace (snd run))
  /\ In (Setup.Printed Setup.InstalledOnLinux) (Setup.trace (snd run))
  /\ last (Setup.trace (snd run)) (Setup.Printed Setup.PdfSetupBanner)
     = Setup.Printed Setup.LinuxHint.
Proof.
  split; [reflexivity |]. split; [vm_compute; auto 60 |].
  split; [vm_compute; auto 60 | reflexivity].
Qed.

Example working_host_exits_zero :
  let run := WkhtmltopdfSetup.main ready_host (Setup.boot demo_fs) in
  fst run = Exc (SystemExit 0)
  /\ map fst (programs_run (Setup.trace (snd run)))
     = [["wkhtmltopdf"; "--version"]; WkhtmltopdfSetup.test_command]
  /\ Setup.fs (snd run) = demo_fs.
Proof. repeat split; reflexivity. Qed.

Example python_4_0_is_too_old :
  let host := Setup.mkHost "/usr/bin/python3" (Setup.mkVersion 4 0 0) "Linux"
                (fun _ _ => true) (fun _ f _ => (Setup.Completed 0 "" "", f))
                (fun _ _ => false) in
  PlaywrightSetup.below_3_7 (Setup.version host) = false
  /\ WkhtmltopdfSetup.main host (Setup.boot demo_fs)
     = (Exc (SystemExit 1),
        Setup.mkState demo_fs
          [Setup.Printed Setup.PdfSetupBanner;
           Setup.Printed (Setup.PythonTooOld (Setup.mkVersion 4 0 0));
           Setup.Printed Setup.UpgradePython]).
Proof. split; reflexivity. Qed.

(* ================================================================== *)
(** ** The files of the generation test *)

Lemma find_put_above (a b : list string) (new : FS.node) :
  b <> [] ->
  forall n es, FS.find n a = Some (FS.Dir es) ->
               exists es', FS.find (FS.put (a ++ b) new n) a = Some (FS.Dir es').
Proof.
  intros Hb. induction a as [| x a IH]; intros n es Hn.
  - cbn in Hn. injection Hn as ->. destruct b as [| c r]; [congruence |].
    cbn. eauto.
  - cbn in Hn. destruct n as [| es0]; [discriminate |].
    destruct (FS.assoc x es0) as [m |] eqn:A; [| discriminate].
    cbn. rewrite assoc_upsert, A. eapply IH. exact Hn.
Qed.

(** Once written, the test page is there. *)
Lemma written_test_html (f f' : FS.t) :
  Setup.open_w f WkhtmltopdfSetup.html_file = Some f' ->
  FS.is_file f' WkhtmltopdfSetup.html_file = true.
Proof.
  assert (Eh : WkhtmltopdfSetup.html_file
               = PurePath.mk "" ["test_pdf_output"; "test.html"]) by reflexivity.
  rewrite Eh. clear Eh.
  unfold Setup.open_w, Setup.locate, FS.is_file, FS.lookup, FS.start. cbn.
  destruct (FS.find (FS.root f) (FS.cwd f)) as [[| es0] |] eqn:F0;
    try (intros X; discriminate X).
  destruct (FS.find (FS.root f) (FS.cwd f ++ ["test_pdf_output"])) as [[| es1] |] eqn:F1;
    cbn; rewrite ?F1; try (intros X; discriminate X).
  set (loc := FS.cwd f ++ ["test_pdf_output"]) in *.
  intros Hw.
  assert (Hf' : f' = FS.mk (FS.put (loc ++ ["test.html"]) FS.File (FS.root f)) (FS.cwd f))
    by (destruct (FS.find (FS.root f) (loc ++ ["test.html"])) as [[| es2] |];
        congruence).
  subst f'. clear Hw. cbn.
  destruct (find_put_above (FS.cwd f) ["test_pdf_output"; "test.html"] FS.File
              ltac:(discriminate) _ _ F0) as (e0 & G0).
  destruct (find_put_above loc ["test.html"] FS.File ltac:(discriminate) _ _ F1)
    as (e1 & G1).
  pose proof (find_put_at loc "test.html" FS.File _ _ F1) as G2.
  unfold loc in *. rewrite <- !app_assoc in *. cbn [app] in *.
  rewrite G0, G1, G2, G2. reflexivity.
Qed.

Section GenerationTest.

Variable H : Setup.Host.

Ltac host_cases :=
  repeat (cbn;
          match goal with
          | |- context [Setup.run H ?h ?f ?a] =>
              let o := fresh "o" in
              let f' := fresh "f" in
              let E := fresh "E" in
              destruct (Setup.run H h f a) as [o f'] eqn:E
          | |- context [match ?o with Setup.Completed _ _ _ => _ | Setup.OSFailure _ => _ end] =>
              is_var o; destruct o
          | |- context [if Z.eqb ?x 0 then _ else _] =>
              let Z0 := fresh "Z0" in destruct (Z.eqb x 0) eqn:Z0
          | |- context [match FS.mkdir_p ?f ?p with Some _ => _ | None => _ end] =>
              let D := fresh "D" in destruct (FS.mkdir_p f p) eqn:D
          | |- context [match Setup.open_w ?f ?p with Some _ => _ | None => _ end] =>
              let D := fresh "D" in destruct (Setup.open_w f p) eqn:D
          | |- context [match Setup.unlink ?f ?p with Some _ => _ | None => _ end] =>
              let D := fresh "D" in destruct (Setup.unlink f p) eqn:D
          | |- context [match Setup.rmdir ?f ?p with Some _ => _ | None => _ end] =>
              let D := fresh "D" in destruct (Setup.rmdir f p) eqn:D
          | |- context [if FS.exists_ ?f ?p then _ else _] =>
              let X := fresh "X" in destruct (FS.exists_ f p) eqn:X
          | |- context [if Str.truthy ?x then _ else Setup.ret tt] =>
              let Y := fresh "Y" in destruct (Str.truthy x) eqn:Y; unfold Setup.ret
          end).

(** X19: the generation test runs at most one program, the test command,
    and the only exception that leaves it is the [OSError] of making the
    test directory.  It gives [True] exactly when it printed the success
    lines.  Nothing is removed when the test fails: provided the program
    does not delete its input, a test that printed the failure line leaves
    the test page behind. *)
Theorem failed_test_leaves_test_page (s : Setup.State) :
  (forall h f,
      FS.is_file f WkhtmltopdfSetup.html_file = true ->
      FS.is_file (snd (Setup.run H h f WkhtmltopdfSetup.test_command))
                 WkhtmltopdfSetup.html_file = true) ->
  exists r s' evs,
    WkhtmltopdfSetup.test_pdf_generation H s = (r, s')
    /\ Setup.trace s' = Setup.trace s ++ evs
    /\ (r = Val true \/ r = Val false
        \/ r = Exc (Exception (OSError (PurePath.str WkhtmltopdfSetup.test_dir))))
    /\ (exists k, map fst (programs_run evs) = firstn k [WkhtmltopdfSetup.test_command])
    /\ (r = Val true
        <-> In (Setup.Printed
                  (Setup.PdfTestSuccessful (PurePath.str WkhtmltopdfSetup.pdf_file))) evs)
    /\ (In (Setup.Printed Setup.PdfTestFailed) evs ->
        r = Val false
        /\ FS.is_file (Setup.fs s') WkhtmltopdfSetup.html_file = true).
Proof.
  intros Hkeep.
  unfold WkhtmltopdfSetup.test_pdf_generation, WkhtmltopdfSetup.make_test_dir,
    WkhtmltopdfSetup.write_test_html, WkhtmltopdfSetup.clean_up,
    WkhtmltopdfSetup.pdf_exists, WkhtmltopdfSetup.run_command,
    Setup.bind, Setup.print, Setup.ret, Setup.pass, subprocess_run.
  host_cases.
  all: try (match goal with
            | D : Setup.open_w ?t _ = Some ?t0,
              E : Setup.run H ?h ?t0 _ = (_, ?f0) |- _ =>
                let K := fresh "K" in
                pose proof (Hkeep h t0 (written_test_html _ _ D)) as K;
                rewrite E in K; cbn [snd] in K
            end).
  all: do 3 eexists; split; [reflexivity |]; cbn -[In].
  all: split; [rewrite <- ?app_assoc; reflexivity |].
  all: split; [auto |].
  all: split; [first [exists 0; reflexivity | exists 1; reflexivity] |].
  all: split;
    [split; intros R;
     [first [discriminate R | cbn; auto 10]
     | first [reflexivity | cbn in R; exfalso; intuition discriminate]] |].
  all: intros R; cbn in R;
    first [split; [reflexivity | assumption] | exfalso; intuition discriminate].
Qed.

End GenerationTest.

Lemma failed_test_witness :
  (forall h f,
      FS.is_file f WkhtmltopdfSetup.html_file = true ->
      FS.is_file (snd (Setup.run demo_host h f WkhtmltopdfSetup.test_command))
                 WkhtmltopdfSetup.html_file = true)
  /\ exists r s' evs,
       WkhtmltopdfSetup.test_pdf_generation demo_host (Setup.boot demo_fs) = (r, s')
       /\ Setup.trace s' = Setup.trace (Setup.boot demo_fs) ++ evs
       /\ (r = Val true \/ r = Val false
           \/ r = Exc (Exception (OSError (PurePath.str WkhtmltopdfSetup.test_dir))))
       /\ (exists k, map fst (programs_run evs) = firstn k [WkhtmltopdfSetup.test_command])
       /\ (r = Val true
           <-> In (Setup.Printed
                     (Setup.PdfTestSuccessful (PurePath.str WkhtmltopdfSetup.pdf_file))) evs)
       /\ (In (Setup.Printed Setup.PdfTestFailed) evs ->
           r = Val false
           /\ FS.is_file (Setup.fs s') WkhtmltopdfSetup.html_file = true).
Proof.
  assert (Hq : forall h f,
             FS.is_file f WkhtmltopdfSetup.html_file = true ->
             FS.is_file (snd (Setup.run demo_host h f WkhtmltopdfSetup.test_command))
                        WkhtmltopdfSetup.html_file = true)
    by (intros h f K; exact K).
  split; [exact Hq |].
  exact (failed_test_leaves_test_page demo_host (Setup.boot demo_fs) Hq).
Defined.

Example failed_test_leftovers :
  let run := WkhtmltopdfSetup.test_pdf_generation demo_host (Setup.boot demo_fs) in
  fst run = Val false
  /\ In (Setup.Printed Setup.PdfTestFailed) (Setup.trace (snd run))
  /\ FS.is_file (Setup.fs (snd run)) WkhtmltopdfSetup.html_file = true
  /\ FS.exists_ demo_fs WkhtmltopdfSetup.test_dir = false.
Proof.
  split; [reflexivity |]. split; [vm_compute; auto |]. split; reflexivity.
Qed.
